(** * PMO Pulse: forecasting and anomaly-detection engine

    A shallow embedding of the analytic core of the dashboard
    (app.py, utils/advanced_analytics.py, utils/predictive_analytics.py,
    utils/data_processor.py) together with the properties established
    about it.

    Conventions of the embedding.
    - Python floats are read as exact rationals ([Q]); [None] at type
      [num] stands for NaN.  Equalities between computed numbers are
      therefore stated with [==] where they are not syntactic.
    - A pandas DataFrame is an index (row labels) and an ordered list of
      typed columns; DataFrames live in a store and Python variables hold
      locations, so that in-place writes and aliasing are visible.
    - Python exceptions are values of [exn]; [try ... except Exception]
      is [try_catch].
    - Timestamps are rationals counting days; [Timedelta.days] is the
      floor.
    - scikit-learn and the sorting routine behind [DataFrame.sort_values]
      are external: they enter through the classes [Sklearn] and
      [SortValues]. *)

From Stdlib Require Import QArith Qround Qabs Lqa Lia ZArith List Permutation Sorted Ascii.
From Stdlib Require Reals Qreals Lra.
From stdpp Require Import gmap strings list sorting.

Local Open Scope Q_scope.

(** ** Numbers *)

Definition num := option Q.

Definition Qlt_bool (x y : Q) : bool := negb (Qle_bool y x).

(** NaN-propagating arithmetic and NaN-false comparisons. *)
Definition nlift2 (f : Q -> Q -> Q) (a b : num) : num :=
  match a, b with
  | Some x, Some y => Some (f x y)
  | _, _ => None
  end.

Definition nmul (a b : num) : num := nlift2 Qmult a b.
Definition nadd (a b : num) : num := nlift2 Qplus a b.
Definition nsub (a b : num) : num := nlift2 Qminus a b.
Definition ndiv (a b : num) : num := nlift2 Qdiv a b.

Definition ngt (a : num) (b : Q) : bool :=
  match a with Some x => Qlt_bool b x | None => false end.

Definition nlt (a : num) (b : Q) : bool :=
  match a with Some x => Qlt_bool x b | None => false end.

(** ** Python exceptions *)

Inductive exn : Set :=
| KeyError | TypeError | NameError | ValueError | IndexingError.

(** ** Column statistics *)

Module Stats.

Fixpoint qsum (l : list Q) : Q :=
  match l with
  | [] => 0
  | x :: r => x + qsum r
  end.

Definition qlen (l : list Q) : Q := inject_Z (Z.of_nat (length l)).

Definition sq (x : Q) : Q := x * x.

(** sum of squared deviations from [m] *)
Definition ssd (m : Q) (l : list Q) : Q := qsum (map (fun x => sq (x - m)) l).

Definition mean_of (l : list Q) : Q := qsum l / qlen l.

(** sample variance, ddof = 1 *)
Definition var_of (l : list Q) : Q := ssd (mean_of l) l / (qlen l - 1).

(** the non-NaN entries of a column *)
Definition present (col : list num) : list Q := omap id col.

(** [Series.mean()], skipna: NaN when nothing is present *)
Definition series_mean (col : list num) : num :=
  match present col with
  | [] => None
  | l => Some (mean_of l)
  end.

(** the square of [Series.std()] (ddof = 1, skipna): NaN below two
    observations *)
Definition series_var (col : list num) : num :=
  match present col with
  | [] | [_] => None
  | l => Some (var_of l)
  end.

(** [Series.fillna(m)] *)
Definition fillna (m : num) (col : list num) : list num :=
  map (fun c => match c with Some x => Some x | None => m end) col.

(** [x > mean + 3*std] and [x < mean - 3*std].  With [std] the
    non-negative root of [var], [mean + 3*std < x] holds exactly when
    [mean < x] and [9*var < (x - mean)^2]; this is how the comparison
    is decided on rationals ([above3_real] and [below3_real] relate it
    to the square root over the reals). *)
Definition above3 (m v x : Q) : bool :=
  Qlt_bool m x && Qlt_bool (9 * v) (sq (x - m)).

Definition below3 (m v x : Q) : bool :=
  Qlt_bool x m && Qlt_bool (9 * v) (sq (x - m)).

Definition outlier (m v : num) (x : num) : bool :=
  match m, v, x with
  | Some m, Some v, Some x => above3 m v x || below3 m v x
  | _, _, _ => false
  end.

End Stats.

(** ** DataFrames in a store *)

Inductive column : Type :=
| NumCol (l : list num)
| BoolCol (l : list bool)
| StrCol (l : list string).

Definition col_len (c : column) : nat :=
  match c with
  | NumCol l => length l
  | BoolCol l => length l
  | StrCol l => length l
  end.

Record DataFrame : Type := mkDF {
  df_index : list Z;
  df_columns : list (string * column)
}.

(** [pd.DataFrame()] *)
Definition empty_df : DataFrame := mkDF [] [].

(** [df.empty]: one of the two axes has length 0 *)
Definition df_empty (f : DataFrame) : bool :=
  match df_index f, df_columns f with
  | [], _ | _, [] => true
  | _, _ => false
  end.

(** [len(df)] *)
Definition df_len (f : DataFrame) : nat := length (df_index f).

Fixpoint get_col (c : string) (cols : list (string * column)) : option column :=
  match cols with
  | [] => None
  | (c', v) :: r => if String.eqb c c' then Some v else get_col c r
  end.

(** [df[c] = v] on the column list: replace in place or append *)
Fixpoint set_col (c : string) (v : column) (cols : list (string * column))
  : list (string * column) :=
  match cols with
  | [] => [(c, v)]
  | (c', v') :: r =>
      if String.eqb c c' then (c, v) :: r else (c', v') :: set_col c v r
  end.

Definition df_get (f : DataFrame) (c : string) : option column :=
  get_col c (df_columns f).

Definition df_with (f : DataFrame) (c : string) (v : column) : DataFrame :=
  mkDF (df_index f) (set_col c v (df_columns f)).

(** numeric view of a column: booleans count as 0/1, strings do not
    take part in arithmetic *)
Definition col_nums (c : column) : exn + list num :=
  match c with
  | NumCol l => inr l
  | BoolCol l => inr (map (fun b : bool => Some (if b then 1 else 0)) l)
  | StrCol _ => inl TypeError
  end.

(** Alignment of a boolean Series (index [key], values [flags]) with the
    index [target] of the frame it selects from, as [.loc] does it: equal
    indexes select by position; otherwise every target label is looked
    up in [key], a label without a match is an IndexingError and a
    result of the wrong length an error as well. *)
Definition positions_of (lbl : Z) (key : list Z) (flags : list bool) : list bool :=
  map snd (filter (fun p : Z * bool => Z.eqb (fst p) lbl) (combine key flags)).

Definition align_mask (target key : list Z) (flags : list bool) : exn + list bool :=
  if decide (target = key) then inr flags
  else
    let hits := map (fun lbl => positions_of lbl key flags) target in
    if existsb (fun h : list bool => match h with [] => true | _ => false end) hits
    then inl IndexingError
    else
      let taken := concat hits in
      if Nat.eqb (length taken) (length target) then inr taken
      else inl ValueError.

(** ** The store and the monad of computations *)

Definition loc := positive.

Abbreviation store := (gmap loc DataFrame).

(** Computations over a state [S] that may raise.  [S] is the store of
    DataFrames for the pandas code and the result dictionary under
    construction for the forecasters. *)
Definition ST (S A : Type) : Type := S -> (exn + A) * S.

Abbreviation M := (ST store).

Definition ret {S A} (a : A) : ST S A := fun s => (inr a, s).

Definition raise {S A} (e : exn) : ST S A := fun s => (inl e, s).

Definition bind {S A B} (m : ST S A) (k : A -> ST S B) : ST S B :=
  fun s =>
    match m s with
    | (inl e, s') => (inl e, s')
    | (inr a, s') => k a s'
    end.

Notation "'let*' x := c 'in' k" := (bind c (fun x => k))
  (at level 10, x pattern, c at level 100, k at level 200).
Notation "c ;; k" := (bind c (fun _ => k))
  (at level 100, k at level 200, right associativity).

(** [try: body except Exception: handler]; writes made before the
    exception stay. *)
Definition try_catch {S A} (body : ST S A) (handler : exn -> ST S A) : ST S A :=
  fun s =>
    match body s with
    | (inl e, s') => handler e s'
    | (inr a, s') => (inr a, s')
    end.

Definition lift {S A} (r : exn + A) : ST S A :=
  match r with inl e => raise e | inr a => ret a end.

(** in-place update of the state *)
Definition modify {S} (f : S -> S) : ST S unit := fun s => (inr tt, f s).

(** a new DataFrame object *)
Definition alloc (f : DataFrame) : M loc :=
  fun s => let l := fresh (dom s) in (inr l, <[l := f]> s).

Definition read (l : loc) : M DataFrame :=
  fun s => match s !! l with
           | Some f => (inr f, s)
           | None => (inl NameError, s)
           end.

Definition write (l : loc) (f : DataFrame) : M unit :=
  fun s => (inr tt, <[l := f]> s).

(** [df.copy()] *)
Definition df_copy (l : loc) : M loc := let* f := read l in alloc f.

(** [df[c] = values] with an array on the right: lengths must agree *)
Definition df_setitem (l : loc) (c : string) (v : column) : M unit :=
  let* f := read l in
  if Nat.eqb (col_len v) (df_len f) then write l (df_with f c v)
  else raise ValueError.

(** [df[c] = scalar]: the scalar is broadcast over the index *)
Definition df_setitem_bool (l : loc) (c : string) (b : bool) : M unit :=
  let* f := read l in write l (df_with f c (BoolCol (replicate (df_len f) b))).

Definition df_setitem_num (l : loc) (c : string) (q : Q) : M unit :=
  let* f := read l in write l (df_with f c (NumCol (replicate (df_len f) (Some q)))).

(** [df.loc[ser, c] = True] and [df.loc[ser, c] += 1] for a boolean
    Series [ser] with index [key] and values [flags]; the selected rows
    are rewritten with stdpp's [mask] *)
Definition loc_set_true (l : loc) (key : list Z) (flags : list bool) (c : string)
  : M unit :=
  let* f := read l in
  let* sel := lift (align_mask (df_index f) key flags) in
  match df_get f c with
  | Some (BoolCol bs) =>
      write l (df_with f c (BoolCol (mask (fun _ => true) sel bs)))
  | Some _ => raise TypeError
  | None => raise KeyError
  end.

Definition loc_incr (l : loc) (key : list Z) (flags : list bool) (c : string)
  : M unit :=
  let* f := read l in
  let* sel := lift (align_mask (df_index f) key flags) in
  match df_get f c with
  | Some (NumCol xs) =>
      write l (df_with f c
        (NumCol (mask (fun x => nlift2 Qplus x (Some 1)) sel xs)))
  | Some _ => raise TypeError
  | None => raise KeyError
  end.

Fixpoint for_each {A} (body : A -> M unit) (l : list A) : M unit :=
  match l with
  | [] => ret tt
  | x :: r => body x ;; for_each body r
  end.

(** *** scikit-learn

    [standard_scaler] is [StandardScaler().fit_transform] on a matrix
    given by its columns; [isolation_forest contamination X] fits
    [IsolationForest(n_estimators=100, contamination, random_state=42)]
    on [X] and returns [predict(X)] (-1 outlier, 1 inlier) and
    [decision_function(X)].  Both may raise. *)
Class Sklearn : Type := {
  standard_scaler : list (list num) -> exn + list (list num);
  isolation_forest : Q -> list (list num) -> exn + (list Z * list Q)
}.

Fixpoint collect {A} (l : list (exn + A)) : exn + list A :=
  match l with
  | [] => inr []
  | inl e :: _ => inl e
  | inr a :: r =>
      match collect r with
      | inl e => inl e
      | inr r' => inr (a :: r')
      end
  end.

(** the numeric matrix of a frame, column by column *)
Definition df_matrix (f : DataFrame) : exn + list (list num) :=
  collect (map (fun p : string * column => col_nums (snd p)) (df_columns f)).

(** [df.fillna(df.mean())], column by column; a boolean column has no
    NaN to fill, the mean of a string column raises *)
Definition fillna_mean_col (c : column) : exn + column :=
  match c with
  | NumCol l => inr (NumCol (Stats.fillna (Stats.series_mean l) l))
  | BoolCol l => inr (BoolCol l)
  | StrCol _ => inl TypeError
  end.

Definition fillna_mean (f : DataFrame) : exn + DataFrame :=
  match collect (map (fun p : string * column =>
                        match fillna_mean_col (snd p) with
                        | inl e => inl e
                        | inr c => inr (fst p, c)
                        end) (df_columns f)) with
  | inl e => inl e
  | inr cols => inr (mkDF (df_index f) cols)
  end.

(** [df[names]]: the listed columns, in the order asked for *)
Definition df_select (f : DataFrame) (names : list string) : exn + DataFrame :=
  match collect (map (fun c => match df_get f c with
                               | Some v => inr (c, v)
                               | None => inl KeyError
                               end) names) with
  | inl e => inl e
  | inr cols => inr (mkDF (df_index f) cols)
  end.

(** ** Project, task and history records *)

(** A field of a pandas Series: [None] when the key is not in the Series *)
Definition field (A : Type) : Type := option A.

(** a value found under a date key: null ([NaT]/[None]), a Timestamp
    (in days), or a string together with what [pd.to_datetime] makes of it
    ([None]: it raises) *)
Inductive date_cell : Type :=
| NaT
| Stamp (t : Q)
| DateStr (parsed : option Q).

Record Project : Type := mkProject {
  project_id : Z;
  status : string;
  planned_start : field date_cell;
  planned_end : field date_cell;
  spi : field num;
  cpi : field num;
  budget : field num;
  actual_cost : field num;
  completion_pct : field num;
  risk_count : field num
}.

(** [key in project and not pd.isnull(project[key])] for a number *)
Definition known (f : field num) : option Q :=
  match f with
  | Some (Some q) => Some q
  | _ => None
  end.

(** [key in project and not pd.isnull(project[key])] for a date *)
Definition known_date (f : field date_cell) : option date_cell :=
  match f with
  | Some NaT | None => None
  | Some d => Some d
  end.

(** [pd.to_datetime(x) if isinstance(x, str) else x], on a non-null cell *)
Definition to_timestamp (d : date_cell) : exn + Q :=
  match d with
  | Stamp t => inr t
  | DateStr (Some t) => inr t
  | DateStr None => inl ValueError
  | NaT => inl TypeError
  end.

(** [Timedelta.days] *)
Definition days (d : Q) : Z := Qfloor d.

(** [int(x)]: truncation towards zero *)
Definition py_int (x : Q) : Z := Z.quot (Qnum x) (Zpos (Qden x)).

Definition Qmax (a b : Q) : Q := if Qlt_bool a b then b else a.
Definition Qmin (a b : Q) : Q := if Qlt_bool b a then b else a.

(** [Timestamp * float]: neither pandas Timestamps nor datetimes define a
    product with a number; Python raises TypeError *)
Definition timestamp_mul (t : Q) (k : Q) : exn + Q := inl TypeError.

(** [x * k] for a Python value that may be [None]: [None * k] is a
    TypeError, NaN propagates *)
Definition py_mul (x : option num) (k : Q) : exn + num :=
  match x with
  | None => inl TypeError
  | Some v => inr (nlift2 Qmult v (Some k))
  end.

Record Task : Type := mkTask {
  planned_cost : Q;
  earned_value : Q;
  task_actual_cost : Q
}.

(** the task table of one project; the two flags say whether the
    optional columns exist *)
Record Tasks : Type := mkTasks {
  task_rows : list Task;
  has_earned_value : bool;
  has_actual_cost : bool
}.

Record HistoryRow : Type := mkHistoryRow {
  h_project : Z;
  h_month : Z;
  h_spi : num;
  h_cpi : num
}.

(** the history table handed to a forecaster *)
Record History : Type := mkHistory {
  history_rows : list HistoryRow;
  has_spi : bool;
  has_cpi : bool
}.

(** ** Sorting

    [DataFrame.sort_values] is called with its default [kind]
    ('quicksort'), which NumPy documents as not stable.  What the callers
    may rely on is that the result is a rearrangement of the rows in key
    order; the order among rows with equal keys belongs to the
    implementation. *)
Class SortValues : Type := {
  sort_values : forall {A : Type}, (A -> A -> bool) -> list A -> list A;
  sort_values_perm : forall A (le : A -> A -> bool) (l : list A),
    Permutation l (sort_values le l);
  sort_values_sorted : forall A (le : A -> A -> bool) (l : list A),
    (forall a b, le a b = true \/ le b a = true) ->
    (forall a b c, le a b = true -> le b c = true -> le a c = true) ->
    StronglySorted (fun a b => le a b = true) (sort_values le l)
}.

(** ** Linear regression

    [LinearRegression().fit(X, y)] for one feature, in closed form:
    the slope is the covariance over the variance of [X], the line passes
    through the means.  A NaN in [y] makes [fit] raise; so does a
    prediction over no rows. *)
Module LinReg.

Record model : Type := mkModel { intercept : Q; slope : Q }.

Definition predict1 (m : model) (x : Q) : Q := intercept m + slope m * x.

Definition sxy (xs ys : list Q) : Q :=
  let mx := Stats.mean_of xs in
  let my := Stats.mean_of ys in
  Stats.qsum (map (fun p : Q * Q => (fst p - mx) * (snd p - my)) (combine xs ys)).

Definition sxx (xs : list Q) : Q := Stats.ssd (Stats.mean_of xs) xs.

Definition fit_exact (xs ys : list Q) : model :=
  let b := sxy xs ys / sxx xs in
  mkModel (Stats.mean_of ys - b * Stats.mean_of xs) b.

Fixpoint all_present (ys : list num) : option (list Q) :=
  match ys with
  | [] => Some []
  | Some y :: r =>
      match all_present r with
      | Some r' => Some (y :: r')
      | None => None
      end
  | None :: _ => None
  end.

Definition fit (xs : list Q) (ys : list num) : exn + model :=
  match all_present ys with
  | Some ys' => inr (fit_exact xs ys')
  | None => inl ValueError
  end.

Definition predict (m : model) (xs : list Q) : exn + list Q :=
  match xs with
  | [] => inl ValueError
  | _ => inr (map (predict1 m) xs)
  end.


End LinReg.

(** [range(a, a + n)] as numbers *)
Definition qnat (n : nat) : Q := inject_Z (Z.of_nat n).

Definition qrange (a n : nat) : list Q := map qnat (seq a n).

(** * app.py *)

Module App.

Section Anomalies.
Context `{Sklearn}.

(** the body of [for col in metrics.columns] *)
Definition flag_column (anomalies : loc) (key : list Z) (c : column) : M unit :=
  let* xs := lift (col_nums c) in
  let mean := Stats.series_mean xs in
  let var := Stats.series_var xs in
  let outliers := map (Stats.outlier mean var) xs in
  loc_set_true anomalies key outliers "is_anomaly" ;;
  loc_incr anomalies key outliers "anomaly_score".

Definition detect_project_anomalies (projects_df metrics_df : loc)
    (contamination : Q) : M loc :=
  try_catch
    (let* p := read projects_df in
     let* m := read metrics_df in
     if df_empty p || df_empty m then alloc empty_df
     else
       let* metrics := df_copy metrics_df in
       let* m0 := read metrics in
       let* filled := lift (fillna_mean m0) in
       let* metrics := alloc filled in
       let* mf := read metrics in
       if (df_len mf <? 10)%nat then
         let* anomalies := alloc (mkDF (df_index p) []) in
         df_setitem_bool anomalies "is_anomaly" false ;;
         df_setitem_num anomalies "anomaly_score" 0 ;;
         for_each (flag_column anomalies (df_index mf))
                  (map snd (df_columns mf)) ;;
         ret anomalies
       else
         let* X := lift (df_matrix mf) in
         let* scaled := lift (standard_scaler X) in
         let* ps := lift (isolation_forest contamination scaled) in
         let* anomalies := alloc (mkDF (df_index p) []) in
         df_setitem anomalies "is_anomaly"
           (BoolCol (map (Z.eqb (-1)) (fst ps))) ;;
         df_setitem anomalies "anomaly_score"
           (NumCol (map (fun x => Some (Qabs x)) (snd ps))) ;;
         ret anomalies)
    (fun _ => alloc empty_df).

End Anomalies.


(** ** [forecast_project_completion] *)

Inductive risk : Type :=
| SpiSignificantlyBelow
| SpiBelow
| CpiSignificantlyBelow
| CpiBelow
| SignificantDelay (d : Z)
| ModerateDelay (d : Z)
| SignificantOverrun (pct : Q)
| ModerateOverrun (pct : Q)
| HighRiskCount (n : Q).

Record Forecast : Type := mkForecast {
  forecast_completion_date : option Q;
  completion_confidence : Z;
  forecast_final_cost : option Q;
  schedule_variance_days : Z;
  cost_variance : Q;
  risk_factors : list risk
}.

Definition initial_forecast : Forecast :=
  mkForecast None 0 None 0 0 [].

Definition set_schedule (d : Q) (v : Z) (c : Z) (f : Forecast) : Forecast :=
  mkForecast (Some d) c (forecast_final_cost f) v (cost_variance f)
             (risk_factors f).

Definition set_cost (eac cv : Q) (f : Forecast) : Forecast :=
  mkForecast (forecast_completion_date f) (completion_confidence f) (Some eac)
             (schedule_variance_days f) cv (risk_factors f).

Definition set_risk_factors (r : list risk) (f : Forecast) : Forecast :=
  mkForecast (forecast_completion_date f) (completion_confidence f)
             (forecast_final_cost f) (schedule_variance_days f)
             (cost_variance f) r.

(** [st.session_state] thresholds and horizon *)
Record Config : Type := mkConfig {
  spi_threshold : Q;
  cpi_threshold : Q;
  forecast_horizon : nat
}.

(** the schedule half (EVM on SPI) *)
Definition forecast_schedule (now : Q) (project : Project) : ST Forecast unit :=
  match known_date (planned_end project), known_date (planned_start project),
        known (spi project) with
  | Some pe, Some ps, Some spi_v =>
      if Qlt_bool 0 spi_v then
        let* planned_start := lift (to_timestamp ps) in
        let* planned_end := lift (to_timestamp pe) in
        let planned_duration := days (planned_end - planned_start) in
        let today := now in
        let elapsed_days :=
          if Qlt_bool today planned_start then 0%Z
          else days (today - planned_start) in
        if Qlt_bool 0 spi_v then
          let remaining_duration :=
            Qmax 0 (inject_Z (planned_duration - elapsed_days) / spi_v) in
          let forecast_completion_date :=
            planned_start + (inject_Z elapsed_days + remaining_duration) in
          let schedule_variance_days :=
            days (forecast_completion_date - planned_end) in
          modify (set_schedule forecast_completion_date schedule_variance_days
                    (if Qle_bool spi_v 1 then py_int (70 * spi_v) else 70%Z))
        else ret tt
      else ret tt
  | _, _, _ => ret tt
  end.

(** the actual cost used by the cost half: the recorded one, else an
    estimate from progress, else from half the budget *)
Definition spent_so_far (project : Project) (budget_v cpi_v : Q) : Q :=
  match known (actual_cost project) with
  | Some ac => ac
  | None =>
      match known (completion_pct project) with
      | Some pct =>
          let pct_complete := Qmin 100 (Qmax 0 pct) / 100 in
          budget_v * pct_complete / cpi_v
      | None => budget_v * (1#2) / cpi_v
      end
  end.

(** the cost half (EAC on CPI) *)
Definition forecast_cost (project : Project) : ST Forecast unit :=
  match known (budget project), known (cpi project) with
  | Some budget_v, Some cpi_v =>
      if Qlt_bool 0 cpi_v then
        let actual_cost := spent_so_far project budget_v cpi_v in
        let forecast_final_cost := actual_cost + (budget_v - actual_cost) / cpi_v in
        let cost_variance := forecast_final_cost - budget_v in
        modify (set_cost forecast_final_cost cost_variance)
      else ret tt
  | _, _ => ret tt
  end.

Definition index_risks (x : field num) (threshold : Q) (severe mild : risk)
  : list risk :=
  match known x with
  | Some v =>
      if Qlt_bool v (threshold - (1#10)) then [severe]
      else if Qlt_bool v threshold then [mild]
      else []
  | None => []
  end.

Definition delay_risks (f : Forecast) : list risk :=
  let d := schedule_variance_days f in
  if (0 <? d)%Z then
    if (30 <? d)%Z then [SignificantDelay d]
    else if (10 <? d)%Z then [ModerateDelay d]
    else []
  else [].

Definition overrun_risks (project : Project) (f : Forecast) : list risk :=
  if Qlt_bool 0 (cost_variance f) then
    let budget_v := match known (budget project) with Some b => b | None => 0 end in
    if Qlt_bool 0 budget_v then
      let cost_overrun_pct := cost_variance f / budget_v * 100 in
      if Qlt_bool 20 cost_overrun_pct then [SignificantOverrun cost_overrun_pct]
      else if Qlt_bool 10 cost_overrun_pct then [ModerateOverrun cost_overrun_pct]
      else []
    else []
  else [].

Definition count_risks (project : Project) : list risk :=
  match known (risk_count project) with
  | Some n => if Qlt_bool 5 n then [HighRiskCount n] else []
  | None => []
  end.

Definition forecast_risks (cfg : Config) (project : Project) : ST Forecast unit :=
  fun f =>
    modify (set_risk_factors
              (index_risks (spi project) (spi_threshold cfg)
                           SpiSignificantlyBelow SpiBelow
               ++ index_risks (cpi project) (cpi_threshold cfg)
                              CpiSignificantlyBelow CpiBelow
               ++ delay_risks f ++ overrun_risks project f
               ++ count_risks project)) f.

(** [forecast_project_completion(project, tasks_df, history_df)]; the
    two tables are not looked at.  The dictionary [forecast] is filled in
    place inside [try], and returned whatever happens. *)
Definition forecast_project_completion (cfg : Config) (now : Q)
    (project : Project) : Forecast :=
  snd (try_catch
         (forecast_schedule now project ;;
          forecast_cost project ;;
          forecast_risks cfg project)
         (fun _ => ret tt)
         initial_forecast).


(** ** [generate_ensemble_forecast] *)

Record Ensemble : Type := mkEnsemble {
  completion_date : option Q;
  completion_date_best : option Q;
  completion_date_worst : option Q;
  final_cost : option num;
  final_cost_best : option num;
  final_cost_worst : option num;
  confidence : option Q;
  forecast_models : list string
}.

Definition initial_results : Ensemble :=
  mkEnsemble None None None None None None None [].

Definition append_model (name : string) (r : Ensemble) : Ensemble :=
  mkEnsemble (completion_date r) (completion_date_best r)
    (completion_date_worst r) (final_cost r) (final_cost_best r)
    (final_cost_worst r) (confidence r) (forecast_models r ++ [name]).

Definition set_completion_date (d : Q) (r : Ensemble) : Ensemble :=
  mkEnsemble (Some d) (completion_date_best r) (completion_date_worst r)
    (final_cost r) (final_cost_best r) (final_cost_worst r) (confidence r)
    (forecast_models r).

Definition set_completion_date_best (d : Q) (r : Ensemble) : Ensemble :=
  mkEnsemble (completion_date r) (Some d) (completion_date_worst r)
    (final_cost r) (final_cost_best r) (final_cost_worst r) (confidence r)
    (forecast_models r).

Definition set_completion_date_worst (d : Q) (r : Ensemble) : Ensemble :=
  mkEnsemble (completion_date r) (completion_date_best r) (Some d)
    (final_cost r) (final_cost_best r) (final_cost_worst r) (confidence r)
    (forecast_models r).

Definition set_final_cost (c : option num) (r : Ensemble) : Ensemble :=
  mkEnsemble (completion_date r) (completion_date_best r)
    (completion_date_worst r) c (final_cost_best r) (final_cost_worst r)
    (confidence r) (forecast_models r).

Definition set_final_cost_best (c : num) (r : Ensemble) : Ensemble :=
  mkEnsemble (completion_date r) (completion_date_best r)
    (completion_date_worst r) (final_cost r) (Some c) (final_cost_worst r)
    (confidence r) (forecast_models r).

Definition set_final_cost_worst (c : num) (r : Ensemble) : Ensemble :=
  mkEnsemble (completion_date r) (completion_date_best r)
    (completion_date_worst r) (final_cost r) (final_cost_best r) (Some c)
    (confidence r) (forecast_models r).

Definition set_confidence (c : Q) (r : Ensemble) : Ensemble :=
  mkEnsemble (completion_date r) (completion_date_best r)
    (completion_date_worst r) (final_cost r) (final_cost_best r)
    (final_cost_worst r) (Some c) (forecast_models r).

(** what the EVM step leaves in the local variables: the two planned
    dates, [planned_duration] and [elapsed_days] when they were assigned,
    and the EVM date and cost *)
Record EvmVars : Type := mkEvmVars {
  v_planned_start : Q;
  v_planned_end : Q;
  v_span : option (Z * Z);
  evm_completion_date : Q;
  evm_final_cost : option num
}.

(** [project[key]] for a date, then the null test and the conversion;
    [None] is the early [return results] *)
Definition read_planned (f : field date_cell) : exn + option Q :=
  match f with
  | None => inl KeyError
  | Some NaT => inr None
  | Some d =>
      match to_timestamp d with
      | inl e => inl e
      | inr t => inr (Some t)
      end
  end.


(** the default when the metrics are missing or SPI is not positive:
    fifteen days late, ten percent over budget *)
Definition evm_default (project : Project) (planned_start planned_end : Q)
  : EvmVars :=
  mkEvmVars planned_start planned_end None (planned_end + 15)
    (match budget project with
     | Some b => Some (nmul b (Some (11#10)))
     | None => None
     end).

(** [x > 0], giving the number *)
Definition positive_num (x : num) : option Q :=
  match x with
  | Some q => if Qlt_bool 0 q then Some q else None
  | None => None
  end.

(** lines 2357-2390: the EVM forecast from the current SPI and CPI.  The
    inner [else] of the source (SPI = 0 inside the branch guarded by
    SPI > 0) cannot be reached and is left out. *)
Definition evm_step (now : Q) (project : Project) (planned_start planned_end : Q)
  : ST Ensemble EvmVars :=
  match spi project, cpi project with
  | Some spi_c, Some cpi_c =>
      match positive_num spi_c with
      | Some spi_v =>
          let planned_duration := days (planned_end - planned_start) in
          let elapsed_days := days (now - planned_start) in
          let remaining_duration :=
            inject_Z (planned_duration - elapsed_days) / spi_v in
          let evm_date :=
            planned_start + (inject_Z elapsed_days + remaining_duration) in
          modify (append_model "EVM") ;;
          match budget project with
          | Some budget_v =>
              if ngt cpi_c 0 then
                let actual_cost_v :=
                  match actual_cost project with
                  | Some ac => ac
                  | None =>
                      let progress :=
                        match known (completion_pct project) with
                        | Some pct => pct / 100
                        | None => 1#2
                        end in
                      ndiv (nmul budget_v (Some progress)) cpi_c
                  end in
                ret (mkEvmVars planned_start planned_end
                       (Some (planned_duration, elapsed_days)) evm_date
                       (Some (nadd actual_cost_v
                                (ndiv (nsub budget_v (nmul budget_v spi_c))
                                      cpi_c))))
              else
                ret (mkEvmVars planned_start planned_end
                       (Some (planned_duration, elapsed_days)) evm_date
                       (Some (nmul budget_v (Some (11#10)))))
          | None => raise KeyError
          end
      | None => ret (evm_default project planned_start planned_end)
      end
  | _, _ => ret (evm_default project planned_start planned_end)
  end.

Section Ensemble.
Context `{SortValues}.

Definition month_le (a b : HistoryRow) : bool := (h_month a <=? h_month b)%Z.

(** the mean of the regression line of [ys] against 0..n-1 over the
    next [horizon] months: [np.mean(model.predict(future_months))] *)
Definition avg_future (ys : list num) (horizon : nat) : exn + Q :=
  let n := length ys in
  match LinReg.fit (qrange 0 n) ys with
  | inl e => inl e
  | inr model =>
      match LinReg.predict model (qrange n horizon) with
      | inl e => inl e
      | inr forecasted => inr (Stats.mean_of forecasted)
      end
  end.

(** the SPI half of the trend step (lines 2406-2425) *)
Definition trend_date (cfg : Config) (evm : EvmVars)
    (history_sorted : list HistoryRow) : ST Ensemble (option Q) :=
  let* avg_future_spi :=
    lift (avg_future (map h_spi history_sorted) (forecast_horizon cfg)) in
  if Qlt_bool 0 avg_future_spi then
    match v_span evm with
    | None => raise NameError
    | Some (planned_duration, elapsed_days) =>
        let remaining_duration :=
          inject_Z (planned_duration - elapsed_days) / avg_future_spi in
        modify (append_model "Linear Regression") ;;
        ret (Some (v_planned_start evm
                   + (inject_Z elapsed_days + remaining_duration)))
    end
  else ret None.

(** the CPI half (lines 2427-2442); [future_months] exists only if the
    SPI half ran *)
Definition trend_cost (cfg : Config) (project : Project)
    (h : History) (history_sorted : list HistoryRow)
  : ST Ensemble (option num) :=
  match has_cpi h, budget project, actual_cost project with
  | true, Some budget_v, Some actual_cost_v =>
      let* model :=
        lift (LinReg.fit (qrange 0 (length history_sorted))
                         (map h_cpi history_sorted)) in
      if has_spi h then
        let* forecasted_cpi :=
          lift (LinReg.predict model
                  (qrange (length history_sorted) (forecast_horizon cfg))) in
        let avg_future_cpi := Stats.mean_of forecasted_cpi in
        if Qlt_bool 0 avg_future_cpi then
          let remaining_budget := nsub budget_v actual_cost_v in
          let adjusted_remaining := ndiv remaining_budget (Some avg_future_cpi) in
          ret (Some (nadd actual_cost_v adjusted_remaining))
        else ret None
      else raise NameError
  | _, _, _ => ret None
  end.

(** lines 2392-2446: the trend forecast, used when the history has at
    least three rows; any exception in it cancels both results *)
Definition trend_step (cfg : Config) (project : Project)
    (history_df : option History) (evm : EvmVars)
  : ST Ensemble (option Q * option num) :=
  match history_df with
  | Some h =>
      if (3 <=? length (history_rows h))%nat then
        try_catch
          (let history_sorted := sort_values month_le (history_rows h) in
           let* ml_completion_date :=
             (if has_spi h then trend_date cfg evm history_sorted
              else ret None) in
           let* ml_final_cost := trend_cost cfg project h history_sorted in
           ret (ml_completion_date, ml_final_cost))
          (fun _ => ret (None, None))
      else ret (None, None)
  | None => ret (None, None)
  end.

(** lines 2448-2473: the blend and the result fields, assigned one
    after the other *)
Definition blend_step (evm : EvmVars) (ml : option Q * option num)
  : ST Ensemble unit :=
  let* dc :=
    match fst ml with
    | Some ml_completion_date =>
        let* a := lift (timestamp_mul ml_completion_date (75#100)) in
        let* b := lift (timestamp_mul (evm_completion_date evm) (25#100)) in
        ret (a + b, 8#10)
    | None => ret (evm_completion_date evm, 6#10)
    end in
  let* final_cost_v :=
    match snd ml with
    | Some ml_final_cost =>
        let* a := lift (py_mul (Some ml_final_cost) (75#100)) in
        let* b := lift (py_mul (evm_final_cost evm) (25#100)) in
        ret (Some (nadd a b))
    | None => ret (evm_final_cost evm)
    end in
  let completion_buffer :=
    inject_Z (days (v_planned_end evm - v_planned_start evm)) * (15#100) in
  modify (set_completion_date (fst dc)) ;;
  modify (set_completion_date_best (fst dc - completion_buffer / 2)) ;;
  modify (set_completion_date_worst (fst dc + completion_buffer)) ;;
  modify (set_final_cost final_cost_v) ;;
  let* best := lift (py_mul final_cost_v (95#100)) in
  modify (set_final_cost_best best) ;;
  let* worst := lift (py_mul final_cost_v (12#10)) in
  modify (set_final_cost_worst worst) ;;
  modify (set_confidence (snd dc)).

(** [generate_ensemble_forecast(project, tasks_df, history_df)], up to
    the assignment of [results['confidence']].  What follows in the
    source only builds [results['risk_factors']], inside the same
    [try]; it changes none of the fields kept here. *)
Definition generate_ensemble_forecast (cfg : Config) (now : Q)
    (project : Project) (history_df : option History) : Ensemble :=
  snd (try_catch
         (let* start := lift (read_planned (planned_start project)) in
          match start with
          | None => ret tt
          | Some planned_start =>
              let* stop := lift (read_planned (planned_end project)) in
              match stop with
              | None => ret tt
              | Some planned_end =>
                  let* evm := evm_step now project planned_start planned_end in
                  let* ml := trend_step cfg project history_df evm in
                  blend_step evm ml
              end
          end)
         (fun _ => ret tt)
         initial_results).

End Ensemble.


(** ** [generate_project_forecasts] *)

(** a forecast with the insights and the anomaly flags added to it *)
Record BatchEntry : Type := mkBatchEntry {
  entry_forecast : Forecast;
  entry_insights : list string;
  entry_is_anomaly : bool;
  entry_anomaly_score : num
}.

(** the part of [st.session_state] the function reads and writes; times
    are in days, like all timestamps here.  [anomalies] is the anomaly
    table by project id when one has been stored. *)
Record Session : Type := mkSession {
  data_loaded : bool;
  projects_df : list Project;
  project_forecasts : option (gmap Z BatchEntry);
  forecast_generated_at : option Q;
  anomalies : option (gmap Z (bool * num))
}.

Definition seconds_per_day : Q := 86400.

(** [(a - b).total_seconds()] *)
Definition total_seconds (a b : Q) : Q := (a - b) * seconds_per_day.

Section Batch.
(** [generate_nlp_insights], which catches its own exceptions and
    returns a list of sentences *)
Variable generate_nlp_insights : Project -> list string.

Variable cfg : Config.

(** the cache test of lines 2257-2260: a non-empty stored dictionary
    with a timestamp less than an hour old *)
Definition cached_forecasts (now : Q) (st : Session)
  : option (gmap Z BatchEntry) :=
  match project_forecasts st, forecast_generated_at st with
  | Some cached, Some generated_at =>
      if bool_decide (cached = ∅) then None
      else if Qlt_bool (total_seconds now generated_at) 3600 then Some cached
      else None
  | _, _ => None
  end.

(** the body of the loop over [projects_df.iterrows()] *)
Definition forecast_entry (now : Q) (st : Session) (project : Project)
  : BatchEntry :=
  let forecast := forecast_project_completion cfg now project in
  let insights := generate_nlp_insights project in
  match anomalies st with
  | Some anomaly_df =>
      match anomaly_df !! project_id project with
      | Some (flag, score) => mkBatchEntry forecast insights flag score
      | None => mkBatchEntry forecast insights false (Some 0)
      end
  | None => mkBatchEntry forecast insights false (Some 0)
  end.

Definition forecast_all (now : Q) (st : Session) : gmap Z BatchEntry :=
  foldl (fun forecasts project =>
           <[project_id project := forecast_entry now st project]> forecasts)
        ∅ (projects_df st).

(** returns the dictionary and the session state after the call *)
Definition generate_project_forecasts (now : Q) (st : Session)
  : gmap Z BatchEntry * Session :=
  if negb (data_loaded st) then (∅, st)
  else
    match cached_forecasts now st with
    | Some cached => (cached, st)
    | None =>
        let forecasts := forecast_all now st in
        (forecasts,
         mkSession (data_loaded st) (projects_df st) (Some forecasts)
                   (Some now) (anomalies st))
    end.

End Batch.

End App.
(** * utils/advanced_analytics.py *)

Module AdvancedAnalytics.

Section Anomalies.
Context `{Sklearn}.

Definition default_metrics : list string :=
  ["spi"; "cpi"; "budget_variance_pct"; "schedule_variance_days"]%string.

(** [col in df.columns and np.issubdtype(df[col].dtype, np.number)] *)
Definition is_numeric_col (f : DataFrame) (c : string) : bool :=
  match df_get f c with
  | Some (NumCol _) => true
  | _ => false
  end.

Definition detect_project_anomalies (projects_df : loc)
    (metrics : option (list string)) (contamination : Q) : M loc :=
  let* p := read projects_df in
  if df_empty p then ret projects_df
  else
    let metrics := match metrics with
                   | None => default_metrics
                   | Some ms => ms
                   end in
    let valid_metrics := filter (fun c => is_numeric_col p c = true) metrics in
    match valid_metrics with
    | [] => ret projects_df
    | _ =>
        let* result_df := df_copy projects_df in
        let* r := read result_df in
        let* picked := lift (df_select r valid_metrics) in
        let* sel := alloc picked in
        let* filled := lift (fillna_mean picked) in
        let* X := alloc filled in
        let* Xm := lift (df_matrix filled) in
        let* X_scaled := lift (standard_scaler Xm) in
        let* ps := lift (isolation_forest contamination X_scaled) in
        df_setitem result_df "anomaly_score"
          (NumCol (map (fun z => Some (inject_Z z)) (fst ps))) ;;
        df_setitem result_df "is_anomaly"
          (BoolCol (map (Z.eqb (-1)) (fst ps))) ;;
        ret result_df
    end.

End Anomalies.


(** ** [forecast_project_completion] *)

Record Results : Type := mkResults {
  forecast_completion_date : option Q;
  forecast_final_cost : option num;
  schedule_variance_days : option Z;
  cost_variance : option num;
  completion_confidence : option Z
}.

Definition empty_results : Results := mkResults None None None None None.

Definition total (f : Task -> Q) (tasks : Tasks) : Q :=
  Stats.qsum (map f (task_rows tasks)).

(** SPI and CPI from the task totals *)
Definition spi_cpi (total_planned_value total_earned_value total_actual_cost : Q)
  : Q * Q :=
  if Qlt_bool 0 total_planned_value then
    (total_earned_value / total_planned_value,
     if Qlt_bool 0 total_actual_cost
     then total_earned_value / total_actual_cost else 1)
  else (1, 1).

(** [project_data[key]] for a date that is then used in arithmetic:
    only a Timestamp will do *)
Definition stamp_of (f : field date_cell) : exn + Q :=
  match f with
  | None => inl KeyError
  | Some (Stamp t) => inr t
  | Some NaT => inl ValueError
  | Some (DateStr _) => inl TypeError
  end.

Definition require {A} (f : field A) : exn + A :=
  match f with
  | None => inl KeyError
  | Some a => inr a
  end.

(** [forecast_project_completion(project_data, tasks_data,
    historical_data)]; there is no [try] here, an exception leaves the
    function.  [project_data] is [None] when no project is given. *)
Definition forecast_project_completion (now : Q) (project_data : option Project)
    (tasks_data : Tasks) : exn + Results :=
  match project_data with
  | None => inr empty_results
  | Some project =>
      match task_rows tasks_data with
      | [] => inr empty_results
      | _ =>
          let total_planned_value := total planned_cost tasks_data in
          let total_earned_value :=
            if has_earned_value tasks_data then total earned_value tasks_data
            else 0 in
          let total_actual_cost :=
            if has_actual_cost tasks_data then total task_actual_cost tasks_data
            else 0 in
          let '(spi_v, cpi_v) :=
            spi_cpi total_planned_value total_earned_value total_actual_cost in
          match stamp_of (planned_end project), stamp_of (planned_start project) with
          | inl e, _ => inl e
          | _, inl e => inl e
          | inr p_end, inr p_start =>
              let planned_duration := days (p_end - p_start) in
              let elapsed_days := days (now - p_start) in
              let remaining_duration :=
                if Qlt_bool 0 spi_v
                then inject_Z (planned_duration - elapsed_days) / spi_v
                else inject_Z (planned_duration - elapsed_days) in
              let forecast_completion :=
                p_start + (inject_Z elapsed_days + remaining_duration) in
              match require (budget project) with
              | inl e => inl e
              | inr budget_v =>
                  let forecast_cost :=
                    if Qlt_bool 0 cpi_v
                    then nadd (Some total_actual_cost)
                              (ndiv (nsub budget_v (Some total_earned_value))
                                    (Some cpi_v))
                    else nmul budget_v (Some (15#10)) in
                  let spi_factor := Qmin 1 spi_v in
                  let cpi_factor := Qmin 1 cpi_v in
                  let confidence :=
                    (spi_factor * (1#2) + cpi_factor * (1#2)) * 100 in
                  inr (mkResults (Some forecast_completion)
                         (Some forecast_cost)
                         (Some (days (forecast_completion - p_end)))
                         (Some (nsub forecast_cost budget_v))
                         (Some (py_int confidence)))
              end
          end
      end
  end.

End AdvancedAnalytics.
(** * utils/predictive_analytics.py *)

Module PredictiveAnalytics.

Section Anomalies.
Context `{Sklearn}.

Definition lower_ascii (c : ascii) : ascii :=
  let n := nat_of_ascii c in
  if (65 <=? n)%nat && (n <=? 90)%nat then ascii_of_nat (n + 32) else c.

(** [str.lower()] on ASCII *)
Fixpoint lower (s : string) : string :=
  match s with
  | EmptyString => EmptyString
  | String c r => String (lower_ascii c) (lower r)
  end.

(** [needle in hay] *)
Fixpoint contains (needle hay : string) : bool :=
  String.prefix needle hay ||
  match hay with
  | EmptyString => false
  | String _ r => contains needle r
  end.

(** the numeric columns whose name mentions neither id, date nor month *)
Definition feature_columns (f : DataFrame) : list string :=
  map fst
    (filter (fun p : string * column =>
               match snd p with
               | NumCol _ =>
                   negb (contains "id" (lower (fst p)))
                   && negb (contains "date" (lower (fst p)))
                   && negb (contains "month" (lower (fst p)))
               | _ => false
               end = true)
            (df_columns f)).

(** [np.mean(np.abs(scaled), axis=1)], the matrix given by columns *)
Definition row_abs_mean (cols : list (list num)) (i : nat) : num :=
  match mapM (fun col : list num => mjoin (col !! i)) cols with
  | Some (x :: xs) =>
      Some (Stats.qsum (map Qabs (x :: xs)) / Stats.qlen (x :: xs))
  | _ => None
  end.

Definition z_scores (cols : list (list num)) (n : nat) : list num :=
  map (row_abs_mean cols) (seq 0 n).

Definition detect_anomalies (project_data : loc) (method : string)
    (contamination : Q) : M loc :=
  let* p := read project_data in
  if df_empty p then ret project_data
  else
    let features := feature_columns p in
    match features with
    | [] => ret project_data
    | _ =>
        let* result_df := df_copy project_data in
        let* r := read result_df in
        let* picked := lift (df_select r features) in
        let* sel := alloc picked in
        let* filled := lift (fillna_mean picked) in
        let* X := alloc filled in
        let* Xm := lift (df_matrix filled) in
        if String.eqb method "isolation_forest" then
          let* ps := lift (isolation_forest contamination Xm) in
          df_setitem result_df "anomaly_score"
            (NumCol (map (fun z => Some (inject_Z z)) (fst ps))) ;;
          df_setitem result_df "is_anomaly"
            (BoolCol (map (Z.eqb (-1)) (fst ps))) ;;
          ret result_df
        else if String.eqb method "zscore" then
          let* scaled_data := lift (standard_scaler Xm) in
          let zs := z_scores scaled_data (df_len filled) in
          df_setitem result_df "anomaly_score" (NumCol zs) ;;
          df_setitem result_df "is_anomaly"
            (BoolCol (map (fun z => ngt z (25 # 10)) zs)) ;;
          ret result_df
        else ret result_df
    end.

End Anomalies.


(** ** [predict_project_completion] *)

Record Prediction : Type := mkPrediction {
  forecast_completion_date : Q;
  schedule_variance_days : Z;
  forecast_cost : num;
  cost_variance : num;
  schedule_confidence : Z;
  cost_confidence : Z;
  overall_confidence : Q;
  progress_percentage : Q
}.

Definition stamp_of (f : field date_cell) : exn + Q :=
  match f with
  | None => inl KeyError
  | Some (Stamp t) => inr t
  | Some NaT => inl ValueError
  | Some (DateStr _) => inl TypeError
  end.

Definition total (f : Task -> Q) (tasks : Tasks) : Q :=
  Stats.qsum (map f (task_rows tasks)).

(** progress, SPI and CPI (lines 113-130); the three cost columns are
    read without a test for their presence *)
Definition progress_spi_cpi (tasks_data : Tasks)
    (planned_duration elapsed_days : Z) : exn + Q * Q * Q :=
  match task_rows tasks_data with
  | [] =>
      inr (if (0 <? planned_duration)%Z
           then inject_Z elapsed_days / inject_Z planned_duration else 0, 1, 1)
  | _ =>
      if has_earned_value tasks_data && has_actual_cost tasks_data then
        let total_planned_cost := total planned_cost tasks_data in
        let total_earned_value := total earned_value tasks_data in
        let total_actual_cost := total task_actual_cost tasks_data in
        if Qlt_bool 0 total_planned_cost then
          inr (total_earned_value / total_planned_cost,
               total_earned_value / total_planned_cost,
               if Qlt_bool 0 total_actual_cost
               then total_earned_value / total_actual_cost else 1)
        else inr (0, 1, 1)
      else inl KeyError
  end.

(** [min(100, int(100 * (1 - 0.5 * abs(1 - x))))] *)
Definition index_confidence (x : Q) : Z :=
  Z.min 100 (py_int (100 * (1 - (1#2) * Qabs (1 - x)))).

Definition predict_project_completion (now : Q) (project_data : Project)
    (tasks_data : Tasks) : exn + Prediction :=
  match stamp_of (planned_end project_data),
        stamp_of (planned_start project_data) with
  | inl e, _ => inl e
  | _, inl e => inl e
  | inr p_end, inr p_start =>
      let planned_duration := days (p_end - p_start) in
      let elapsed_days := days (now - p_start) in
      match progress_spi_cpi tasks_data planned_duration elapsed_days with
      | inl e => inl e
      | inr (progress0, spi_v, cpi_v) =>
      let progress_pct := Qmin 1 progress0 in
      let remaining_duration := (planned_duration - elapsed_days)%Z in
      let adjusted_remaining :=
        Qmax 0 (if Qlt_bool 0 spi_v
                then inject_Z remaining_duration / spi_v
                else inject_Z remaining_duration * 2) in
      let remaining_days := py_int adjusted_remaining in
      let forecast_completion :=
        p_start + inject_Z (elapsed_days + remaining_days) in
      let schedule_variance := (remaining_days - remaining_duration)%Z in
      match budget project_data with
      | None => inl KeyError
      | Some budget_v =>
          let spent := nmul budget_v (Some progress_pct) in
          let eac :=
            if Qlt_bool 0 cpi_v
            then nadd spent (ndiv (nsub budget_v spent) (Some cpi_v))
            else nmul budget_v (Some 2) in
          let spi_confidence := index_confidence spi_v in
          let cpi_confidence := index_confidence cpi_v in
          inr (mkPrediction forecast_completion schedule_variance eac
                 (nsub eac budget_v) spi_confidence cpi_confidence
                 (inject_Z (spi_confidence + cpi_confidence) / 2)
                 (progress_pct * 100))
      end
      end
  end.

End PredictiveAnalytics.
(** * utils/data_processor.py *)

Module DataProcessor.

(** a row of [projects_df] as this module uses it: the frame brings no
    SPI or CPI column of its own, the two come from the merge *)
Record ProjectRow : Type := mkProjectRow {
  row_id : Z;
  row_status : string
}.

(** a row of the result: the project with the merged metrics and the
    combined risk score *)
Record AttentionRow : Type := mkAttentionRow {
  att_project : ProjectRow;
  att_spi : Q;
  att_cpi : Q;
  risk_score : Q
}.

Section Attention.
Context `{SortValues}.

Definition month_le (a b : HistoryRow) : bool := (h_month a <=? h_month b)%Z.

(** [x.sort_values('month').iloc[-1]] for the rows of one project *)
Definition latest_of (pid : Z) (history_df : list HistoryRow)
  : option HistoryRow :=
  last (sort_values month_le
          (filter (fun r => h_project r = pid) history_df)).

(** the left merge with the latest performance, then [fillna(1.0)] *)
Definition merged_metrics (history_df : list HistoryRow) (p : ProjectRow)
  : Q * Q :=
  match latest_of (row_id p) history_df with
  | Some r =>
      (match h_spi r with Some v => v | None => 1 end,
       match h_cpi r with Some v => v | None => 1 end)
  | None => (1, 1)
  end.

Definition needs_attention (spi_threshold cpi_threshold : Q)
    (p : ProjectRow) (m : Q * Q) : bool :=
  Qlt_bool (fst m) spi_threshold
  || Qlt_bool (snd m) cpi_threshold
  || bool_decide (row_status p ∈ ["At Risk"; "Delayed"]%string).

Definition attention_row (p : ProjectRow) (m : Q * Q) : AttentionRow :=
  mkAttentionRow p (fst m) (snd m)
    ((1 - fst m) * (1#2) + (1 - snd m) * (1#2)).

(** the filtered rows with their risk score, still in input order *)
Definition attention_rows (projects_df : list ProjectRow)
    (history_df : list HistoryRow) (spi_threshold cpi_threshold : Q)
  : list AttentionRow :=
  map (fun p => attention_row p (merged_metrics history_df p))
      (filter (fun p => needs_attention spi_threshold cpi_threshold p
                          (merged_metrics history_df p) = true)
              projects_df).

(** descending order of the risk score *)
Definition risk_ge (a b : AttentionRow) : bool :=
  Qle_bool (risk_score b) (risk_score a).

Definition get_projects_needing_attention (projects_df : list ProjectRow)
    (history_df : list HistoryRow) (spi_threshold cpi_threshold : Q)
  : list AttentionRow :=
  sort_values risk_ge
    (attention_rows projects_df history_df spi_threshold cpi_threshold).

End Attention.


(** ** [calculate_project_metrics] and [prepare_forecast_data] *)

(** the keys of the project Series the two functions read; the dates are
    Timestamps (in days) when the key is there *)
Record ProjectInfo : Type := mkProjectInfo {
  info_budget : field num;
  start_date : field Q;
  planned_end_date : field Q
}.

(** [Timestamp.date()]: the calendar day *)
Definition date_of (t : Q) : Z := Qfloor t.

(** [series[key]] *)
Definition require {A} (f : field A) : exn + A :=
  match f with
  | None => inl KeyError
  | Some a => inr a
  end.

Record ProjectMetrics : Type := mkProjectMetrics {
  m_spi : num;
  m_cpi : num;
  m_spi_change : num;
  m_cpi_change : num;
  m_actual_cost : Q;
  spend_percentage : Q;
  schedule_progress : Q;
  days_remaining : Z
}.

(** the result of [prepare_forecast_data]; a cost may be [float('inf')] *)
Inductive amount : Type :=
| Finite (x : num)
| Infinite.

Record ForecastData : Type := mkForecastData {
  historical_dates : list Z;
  historical_spi : list num;
  historical_cpi : list num;
  forecast_dates : list Z;
  forecast_spi : list num;
  forecast_cpi : list num;
  avg_spi : num;
  avg_cpi : num;
  schedule_variance_days : Z;
  forecast_end_date : Z;
  forecast_cost : amount
}.

(** what [prepare_forecast_data] can raise: an exception of a lookup or
    of the month parser, or the OverflowError of [int(float('inf'))] *)
Inductive error : Type :=
| Raised (e : exn)
| OverflowError.

(** [np.linspace(1, 3, n)] *)
Definition linspace_1_3 (n : nat) : list Q :=
  match n with
  | 1%nat => [1]
  | _ => map (fun i => qnat i * (2 / (qnat n - 1)) + 1) (seq 0 n)
  end.

(** [weights / weights.sum()] *)
Definition normalized (weights : list Q) : list Q :=
  map (fun w => w / Stats.qsum weights) weights.

(** [np.average(xs, weights=weights)]: NaN as soon as one value is NaN *)
Definition np_average (xs : list num) (weights : list Q) : num :=
  match LinReg.all_present xs with
  | Some vs => Some (Stats.qsum (zip_with Qmult vs weights) / Stats.qsum weights)
  | None => None
  end.

(** the body of [for i in range(3)]: regression towards 1 *)
Definition regressed (avg : num) (i : nat) : num :=
  let regression_factor := (2#10) * (qnat i + 1) in
  nadd (nmul avg (Some (1 - regression_factor))) (Some (1 * regression_factor)).

(** [x > 0] for a number that may be NaN, giving the number *)
Definition positive_num (x : num) : option Q :=
  match x with
  | Some q => if Qlt_bool 0 q then Some q else None
  | None => None
  end.

Section Metrics.
Context `{SortValues}.

(** lines 93-111: the latest SPI and CPI and their change against the
    month before *)
Definition latest_and_change (project_history : History)
  : exn + (num * num * num * num) :=
  match history_rows project_history with
  | [] => inr (Some 1, Some 1, Some 0, Some 0)
  | r0 :: rest =>
      let sorted := sort_values month_le (r0 :: rest) in
      let latest_performance := List.last sorted r0 in
      if has_spi project_history then
        let spi := h_spi latest_performance in
        if has_cpi project_history then
          let cpi := h_cpi latest_performance in
          match rest with
          | _ :: _ =>
              let previous_performance :=
                nth (length sorted - 2) sorted r0 in
              inr (spi, cpi, nsub spi (h_spi previous_performance),
                   nsub cpi (h_cpi previous_performance))
          | [] => inr (spi, cpi, Some 0, Some 0)
          end
        else inl KeyError
      else inl KeyError
  end.

(** [project_tasks['actual_cost'].sum() if not project_tasks.empty
    else 0] *)
Definition actual_cost_of (project_tasks : Tasks) : exn + Q :=
  match task_rows project_tasks with
  | [] => inr 0
  | rows =>
      if has_actual_cost project_tasks
      then inr (Stats.qsum (map task_actual_cost rows))
      else inl KeyError
  end.

Definition calculate_project_metrics (now : Q) (project_df : ProjectInfo)
    (project_tasks : Tasks) (project_history : History)
  : exn + ProjectMetrics :=
  match latest_and_change project_history with
  | inl e => inl e
  | inr (spi, cpi, spi_change, cpi_change) =>
  match require (info_budget project_df) with
  | inl e => inl e
  | inr budget =>
  match actual_cost_of project_tasks with
  | inl e => inl e
  | inr actual_cost =>
      let spend_percentage :=
        match budget with
        | Some b => if Qlt_bool 0 b then (actual_cost / b) * 100 else 0
        | None => 0
        end in
      let today := date_of now in
      match require (start_date project_df) with
      | inl e => inl e
      | inr sd =>
      let start_date := date_of sd in
      match require (planned_end_date project_df) with
      | inl e => inl e
      | inr pe =>
      let end_date := date_of pe in
      let total_days :=
        if (start_date <? end_date)%Z then (end_date - start_date)%Z
        else 1%Z in
      let days_passed := (Z.min today end_date - start_date)%Z in
      let days_remaining :=
        if (today <? end_date)%Z then (end_date - today)%Z else 0%Z in
      let schedule_progress :=
        if (0 <? total_days)%Z
        then (inject_Z days_passed / inject_Z total_days) * 100
        else 0 in
      inr (mkProjectMetrics spi cpi spi_change cpi_change actual_cost
             spend_percentage schedule_progress days_remaining)
      end
      end
  end
  end
  end.

End Metrics.

Section Forecast.
Context `{SortValues}.

(** [datetime.strptime(month, '%Y-%m').date()], on the month of a
    history row *)
Variable strptime : Z -> exn + Z.

Definition prepare_forecast_data (project_df : ProjectInfo)
    (project_history : History) : error + ForecastData :=
  match require (start_date project_df) with
  | inl e => inl (Raised e)
  | inr sd =>
  let start_date := date_of sd in
  match require (planned_end_date project_df) with
  | inl e => inl (Raised e)
  | inr pe =>
  let planned_end_date := date_of pe in
  match require (info_budget project_df) with
  | inl e => inl (Raised e)
  | inr budget =>
  match history_rows project_history with
  | [] =>
      inr (mkForecastData [] [] [] [] [] [] (Some 1) (Some 1) 0
             planned_end_date (Finite budget))
  | r0 :: rest =>
      let sorted := sort_values month_le (r0 :: rest) in
      match collect (map (fun r => strptime (h_month r)) sorted) with
      | inl e => inl (Raised e)
      | inr historical_months =>
          if has_spi project_history then
            let historical_spi := map h_spi sorted in
            if has_cpi project_history then
              let historical_cpi := map h_cpi sorted in
              let weights := normalized (linspace_1_3 (length sorted)) in
              let avg_spi := np_average historical_spi weights in
              let avg_cpi := np_average historical_cpi weights in
              let last_date := List.last historical_months 0%Z in
              let forecast_months :=
                map (fun i => (last_date + 30 * Z.of_nat i)%Z) (seq 1 3) in
              let forecast_spi_values := map (regressed avg_spi) (seq 0 3) in
              let forecast_cpi_values := map (regressed avg_cpi) (seq 0 3) in
              let total_duration := (planned_end_date - start_date)%Z in
              match positive_num avg_spi with
              | Some a =>
                  let forecasted_duration := inject_Z total_duration / a in
                  let schedule_variance_days :=
                    py_int (forecasted_duration - inject_Z total_duration) in
                  let forecast_end_date :=
                    (start_date + py_int forecasted_duration)%Z in
                  let forecast_cost :=
                    match positive_num avg_cpi with
                    | Some c => Finite (ndiv budget (Some c))
                    | None => Infinite
                    end in
                  inr (mkForecastData historical_months historical_spi
                         historical_cpi forecast_months forecast_spi_values
                         forecast_cpi_values avg_spi avg_cpi
                         schedule_variance_days forecast_end_date
                         forecast_cost)
              | None => inl OverflowError
              end
            else inl (Raised KeyError)
          else inl (Raised KeyError)
      end
  end
  end
  end
  end.

End Forecast.

End DataProcessor.
(** ** Reading results *)

(** every column is as long as the index *)
Definition wf_df (f : DataFrame) : Prop :=
  Forall (fun p : string * column => col_len (snd p) = df_len f) (df_columns f).

(** the frame a computation returns, read from the final store *)
Definition result_frame (m : M loc) (s : store) : option DataFrame :=
  match m s with
  | (inr l, s') => s' !! l
  | (inl _, _) => None
  end.

Definition is_anomaly_at (f : DataFrame) (i : nat) : option bool :=
  match df_get f "is_anomaly" with
  | Some (BoolCol bs) => bs !! i
  | _ => None
  end.

Definition anomaly_score_at (f : DataFrame) (i : nat) : option num :=
  match df_get f "anomaly_score" with
  | Some (NumCol xs) => xs !! i
  | _ => None
  end.

(** an installation without scikit-learn: both calls raise *)
Definition no_sklearn : Sklearn :=
  {| standard_scaler := fun _ => inl ValueError;
     isolation_forest := fun _ _ => inl ValueError |}.

(** ** Vocabulary of the statements *)

(** [s'] still holds every object of [s], unchanged *)
Definition agree (s s' : store) : Prop :=
  forall l, is_Some (s !! l) -> s' !! l = s !! l.

(** the result frame while the loop over the metric columns runs *)
Definition anomalies_frame (idx : list Z) (bs : list bool) (sc : list num)
  : DataFrame :=
  mkDF idx [("is_anomaly", BoolCol bs); ("anomaly_score", NumCol sc)].

Definition incr1 (x : num) : num := nlift2 Qplus x (Some 1).

Definition outliers_of (c : column) : list bool :=
  match col_nums c with
  | inr xs => map (Stats.outlier (Stats.series_mean xs) (Stats.series_var xs)) xs
  | inl _ => []
  end.

(** the columns processed so far, the selections being drawn from the
    outlier flags of each column *)
Inductive flagged : list column -> list bool -> list num ->
                    list bool -> list num -> Prop :=
| flagged_nil bs sc : flagged [] bs sc bs sc
| flagged_cons c cs sel bs sc bs' sc' :
    (forall b, b ∈ sel -> b ∈ outliers_of c) ->
    flagged cs (mask (fun _ => true) sel bs) (mask incr1 sel sc) bs' sc' ->
    flagged (c :: cs) bs sc bs' sc'.


(** flag and score of one row agree, the score bounded by [k] *)
Definition consistent (k : Q) (b : bool) (x : num) : Prop :=
  exists q, x = Some q /\ 0 <= q /\ (b = true <-> 1 <= q) /\ q <= k.

(** ** Sample data *)

(** nine projects; the last one's SPI is far away from the other eight *)
Definition nine_projects : DataFrame :=
  mkDF [101; 102; 103; 104; 105; 106; 107; 108; 109]%Z
       [("project_name",
         StrCol ["A"; "B"; "C"; "D"; "E"; "F"; "G"; "H"; "I"]%string)].

Definition nine_metrics : DataFrame :=
  mkDF [101; 102; 103; 104; 105; 106; 107; 108; 109]%Z
       [("spi", NumCol (map Some [95#100; 1; 105#100; 9#10; 11#10; 1;
                                  98#100; 102#100; 50]));
        ("cpi", NumCol [Some 1; None; Some (9#10); Some 1; Some (11#10);
                        Some 1; Some 1; Some (95#100); Some 1])].

Definition nine_store : store :=
  <[2%positive := nine_metrics]> (<[1%positive := nine_projects]> ∅).

(** [m], started in a store that still agrees with [D], ends in such a
    store, and what it returns satisfies [post] *)
Definition quiet (D : store) {A} (m : M A) (post : A -> Prop) : Prop :=
  forall s, agree D s ->
    agree D (snd (m s)) /\ forall a, fst (m s) = inr a -> post a.

(** a location [D] does not hold: a new object *)
Definition new_in (D : store) (l : loc) : Prop := D !! l = None.


(** a project on which only the cost fields matter *)
Definition cost_project (b c ac : Q) : Project :=
  mkProject 1 "On Track" (Some (Stamp 0)) (Some (Stamp 100))
            (Some (Some 1)) (Some (Some c)) (Some (Some b)) (Some (Some ac))
            None None.

(** one task with the given planned cost, earned value and actual cost *)
Definition one_task (pv ev ac : Q) : Tasks :=
  mkTasks [mkTask pv ev ac] true true.

Definition sample_config : App.Config := App.mkConfig (9#10) (9#10) 3.

(** a project whose planned start is a string no date can be read from,
    and one without planned dates *)
Definition garbled_project : Project :=
  mkProject 7 "At Risk" (Some (DateStr None)) (Some (Stamp 100))
            (Some (Some (8#10))) (Some (Some (1#2))) (Some (Some 100))
            (Some (Some 50)) None None.

Definition undated_project : Project :=
  mkProject 8 "On Track" None (Some NaT)
            (Some (Some (8#10))) (Some (Some (1#2))) (Some (Some 100))
            (Some (Some 50)) None None.

Definition no_insights (p : Project) : list string := [].

Definition sample_session : App.Session :=
  App.mkSession true [cost_project 200 1 120; garbled_project; undated_project]
                None None None.

(** the session right after [initialize_session_state]: nothing loaded,
    an empty forecast dictionary, no timestamp *)
Definition initial_session : App.Session :=
  App.mkSession false [] (Some ∅) None None.

(** a non-empty cached dictionary with its timestamp less than 3600
    seconds before [now] *)
Definition fresh_cache (now : Q) (st : App.Session)
    (cached : gmap Z App.BatchEntry) : Prop :=
  App.project_forecasts st = Some cached /\ cached <> ∅ /\
  exists generated_at,
    App.forecast_generated_at st = Some generated_at /\
    App.total_seconds now generated_at < 3600.

(** ** Two sorting routines

    Insertion sort, which keeps rows with equal keys in input order, and
    the same run over the reversed input, which turns them around.  Both
    rearrange into key order. *)
Fixpoint insert_by {A} (le : A -> A -> bool) (x : A) (l : list A) : list A :=
  match l with
  | [] => [x]
  | y :: r => if le x y then x :: y :: r else y :: insert_by le x r
  end.

Definition insertion_sort {A} (le : A -> A -> bool) (l : list A) : list A :=
  foldr (insert_by le) [] l.


(** a scikit-learn stand-in for the examples: no scaling, every row
    classified as an outlier with decision value -1/10 *)
Definition toy_sklearn : Sklearn :=
  {| standard_scaler := fun X => inr X;
     isolation_forest := fun _ X =>
       inr (map (fun _ => (-1)%Z) (hd [] X), map (fun _ => - (1#10)) (hd [] X)) |}.

Definition two_rows : DataFrame :=
  mkDF [0; 1]%Z [("spi", NumCol [Some 1; None]);
                 ("project_id", NumCol [Some 7; Some 8])].

(** two results that differ at most in [forecast_models] *)
Definition same_fields (r r' : App.Ensemble) : Prop :=
  App.completion_date r' = App.completion_date r /\
  App.completion_date_best r' = App.completion_date_best r /\
  App.completion_date_worst r' = App.completion_date_worst r /\
  App.final_cost r' = App.final_cost r /\
  App.final_cost_best r' = App.final_cost_best r /\
  App.final_cost_worst r' = App.final_cost_worst r /\
  App.confidence r' = App.confidence r.

(** the blended cost: 75% trend, 25% EVM *)
Definition blended_cost (ml_cost : option num) (evm_cost : option num)
  : option num :=
  match ml_cost with
  | Some c =>
      match evm_cost with
      | Some e => Some (nadd (nmul c (Some (75#100))) (nmul e (Some (25#100))))
      | None => None
      end
  | None => evm_cost
  end.

(** a project on schedule data only, and three months of history *)
Definition trend_project : Project :=
  mkProject 3 "On Track" (Some (Stamp 0)) (Some (Stamp 100))
            (Some (Some (8#10))) (Some (Some (9#10))) (Some (Some 1000))
            (Some (Some 400)) None None.

Definition rising_history : History :=
  mkHistory [mkHistoryRow 3 202403 (Some (9#10)) (Some 1);
             mkHistoryRow 3 202401 (Some (7#10)) (Some (9#10));
             mkHistoryRow 3 202402 (Some (8#10)) (Some (95#100))]
            true true.





Definition sample_evm : App.EvmVars :=
  App.mkEvmVars 0 100 (Some (100, 50)%Z) 110 (Some (Some 1100)).

(** the three projects of the example: SPI 0.70, 0.95, 1.05 and
    CPI 1.00, 0.80, 1.00 *)
Definition three_projects : list DataProcessor.ProjectRow :=
  [DataProcessor.mkProjectRow 1 "On Track";
   DataProcessor.mkProjectRow 2 "On Track";
   DataProcessor.mkProjectRow 3 "On Track"].

Definition three_histories : list HistoryRow :=
  [mkHistoryRow 1 202401 (Some (70#100)) (Some 1);
   mkHistoryRow 2 202401 (Some (95#100)) (Some (80#100));
   mkHistoryRow 3 202401 (Some (105#100)) (Some 1)].



(** ** Vocabulary of the further properties *)

(** the Timestamp a planned date stands for, when there is one *)
Definition date_value (f : field date_cell) : option Q :=
  match f with
  | Some (Stamp t) => Some t
  | Some (DateStr (Some t)) => Some t
  | _ => None
  end.

(** whole days elapsed since the planned start, never negative *)
Definition elapsed_since (now start : Q) : Z :=
  if Qlt_bool now start then 0%Z else days (now - start).


(** the task totals as [AdvancedAnalytics.forecast_project_completion]
    takes them: a missing column counts as 0 *)
Definition earned_total (tasks : Tasks) : Q :=
  if has_earned_value tasks then AdvancedAnalytics.total earned_value tasks else 0.

Definition actual_total (tasks : Tasks) : Q :=
  if has_actual_cost tasks then AdvancedAnalytics.total task_actual_cost tasks
  else 0.

Definition planned_total (tasks : Tasks) : Q :=
  AdvancedAnalytics.total planned_cost tasks.

(** a project record for [DataProcessor]: budget 200, start on day 0,
    planned end on day 100 *)
Definition sample_info : DataProcessor.ProjectInfo :=
  DataProcessor.mkProjectInfo (Some (Some 200)) (Some 0) (Some 100).

Definition no_history : History := mkHistory [] true true.

(** three months of history, given out of order *)
Definition mixed_history : History :=
  mkHistory [mkHistoryRow 3 202403 (Some (9#10)) (Some 1);
             mkHistoryRow 3 202401 (Some (7#10)) (Some (9#10));
             mkHistoryRow 3 202402 (Some (8#10)) (Some (95#100))]
            true true.

(** a month parser for the examples: month number 2024mm to day 30 * mm *)
Definition toy_strptime (m : Z) : exn + Z := inr (30 * (m - 202400))%Z.

(** * Properties *)

(** ** Arithmetic *)

Lemma Qlt_bool_iff (x y : Q) : Qlt_bool x y = true <-> x < y.
Proof.
  unfold Qlt_bool. rewrite negb_true_iff.
  split; intros H.
  - apply Qnot_le_lt. intros Hle. apply Qle_bool_iff in Hle. congruence.
  - destruct (Qle_bool y x) eqn:E; [|reflexivity].
    apply Qle_bool_iff in E. exfalso. apply (Qlt_not_le _ _ H E).
Qed.

Lemma Qlt_bool_false_iff (x y : Q) : Qlt_bool x y = false <-> y <= x.
Proof.
  unfold Qlt_bool. rewrite negb_false_iff. apply Qle_bool_iff.
Qed.


Module StatsFacts.
Import Stats.

Lemma sq_nonneg x : 0 <= sq x.
Proof. unfold sq. nra. Qed.

Lemma qlen_cons x l : qlen (x :: l) == 1 + qlen l.
Proof.
  unfold qlen. cbn [length]. rewrite Nat2Z.inj_succ, <- Z.add_1_l.
  rewrite inject_Z_plus. reflexivity.
Qed.

Lemma qlen_nonneg l : 0 <= qlen l.
Proof. unfold qlen. change 0 with (inject_Z 0). rewrite <- Zle_Qle. lia. Qed.

Lemma qsum_app l1 l2 : qsum (l1 ++ l2) == qsum l1 + qsum l2.
Proof. induction l1 as [|a l1 IH]; cbn; [ring | rewrite IH; ring]. Qed.

Lemma qlen_app l1 l2 : qlen (l1 ++ l2) == qlen l1 + qlen l2.
Proof. induction l1 as [|a l1 IH]. - cbn. unfold qlen at 2. cbn. ring.
  - change ((a :: l1) ++ l2) with (a :: (l1 ++ l2)). rewrite !qlen_cons, IH. ring. Qed.

Lemma ssd_nonneg m l : 0 <= ssd m l.
Proof.
  unfold ssd. induction l as [|a l IH]; cbn; [lra|].
  pose proof (sq_nonneg (a - m)). lra.
Qed.

(** sum of deviations *)
Lemma ssd_shift (m t : Q) (l : list Q) :
  ssd (m + t) l == ssd m l - 2 * t * (qsum l - qlen l * m) + qlen l * sq t.
Proof.
  induction l as [|a l IH].
  - unfold ssd, qlen; cbn. ring.
  - rewrite qlen_cons. unfold ssd in *. cbn [map qsum].
    rewrite IH. unfold sq. ring.
Qed.

Lemma qsum_sq_shift (d : Q) (ds : list Q) :
  qsum (map (fun e => sq (e - d)) ds)
  == qsum (map sq ds) - 2 * d * qsum ds + qlen ds * sq d.
Proof.
  induction ds as [|a l IH].
  - unfold qlen; cbn. ring.
  - rewrite qlen_cons. cbn [map qsum]. rewrite IH. unfold sq. ring.
Qed.

Lemma qsum_sq_nonneg (f : Q -> Q) (ds : list Q) : 0 <= qsum (map (fun e => sq (f e)) ds).
Proof.
  induction ds as [|a l IH]; cbn; [lra|].
  pose proof (sq_nonneg (f a)). lra.
Qed.

(** Cauchy-Schwarz against the constant vector *)
Lemma sq_qsum_le (ds : list Q) : sq (qsum ds) <= qlen ds * qsum (map sq ds).
Proof.
  induction ds as [|a l IH].
  - unfold qlen, sq; cbn. lra.
  - rewrite qlen_cons. cbn [map qsum].
    pose proof (qsum_sq_shift a l) as E.
    pose proof (qsum_sq_nonneg (fun e => e - a) l) as P.
    cbn beta in P. rewrite E in P.
    unfold sq in *.
    set (S := qsum (map (fun x => x * x) l)) in *.
    set (D := qsum l) in *. set (K := qlen l) in *.
    assert (X : (a + D) * (a + D) == a * a + 2 * a * D + D * D) by ring.
    assert (Y : (1 + K) * (a * a + S) == K * S + (S - 2 * a * D + K * (a * a)) + 2 * a * D + a * a) by ring.
    rewrite X, Y. lra.
Qed.

Lemma qsum_dev (m : Q) (l : list Q) :
  qsum (map (fun y => y - m) l) == qsum l - qlen l * m.
Proof.
  induction l as [|a l IH].
  - unfold qlen; cbn. ring.
  - rewrite qlen_cons. cbn [map qsum]. rewrite IH. ring.
Qed.

Lemma qlen_map (f : Q -> Q) l : qlen (map f l) = qlen l.
Proof. unfold qlen. now rewrite length_map. Qed.

Lemma qlen_cases (l : list Q) :
  (1 <= length l <= 9)%nat ->
  qlen l == 1 \/ qlen l == 2 \/ qlen l == 3 \/ qlen l == 4 \/ qlen l == 5 \/
  qlen l == 6 \/ qlen l == 7 \/ qlen l == 8 \/ qlen l == 9.
Proof.
  unfold qlen. intros [H1 H2].
  destruct (length l) as [|[|[|[|[|[|[|[|[|[|k]]]]]]]]]]; try lia;
    cbn; intuition reflexivity.
Qed.

(** Samuelson's bound, in the form needed here: among at most ten
    observations none lies more than three sample deviations from their
    mean. *)
Lemma dev_bound (l1 l2 : list Q) (x : Q) :
  (2 <= length (l1 ++ x :: l2) <= 10)%nat ->
  sq (x - mean_of (l1 ++ x :: l2)) <= 9 * var_of (l1 ++ x :: l2).
Proof.
  intros Hlen.
  set (l := l1 ++ x :: l2) in *.
  set (rest := l1 ++ l2).
  assert (Hk : (1 <= length rest <= 9)%nat).
  { subst l rest. rewrite length_app in *. cbn [length] in Hlen. lia. }
  assert (Hn : qlen l == 1 + qlen rest).
  { subst l rest. rewrite !qlen_app, qlen_cons. ring. }
  assert (Hs : qsum l == x + qsum rest).
  { subst l rest. rewrite !qsum_app. cbn [qsum]. ring. }
  set (m := mean_of l).
  assert (Hm : qlen l * m == qsum l).
  { subst m. unfold mean_of. field. rewrite Hn.
    pose proof (qlen_nonneg rest). lra. }
  assert (Hss : ssd m l == sq (x - m) + ssd m rest).
  { subst l rest. unfold ssd. rewrite !map_app, !qsum_app. cbn [map qsum]. ring. }
  set (ds := map (fun y => y - m) rest).
  assert (Hds : qsum ds == - (x - m)).
  { subst ds. rewrite qsum_dev. rewrite Hn in Hm. lra. }
  assert (Hsq : ssd m rest = qsum (map sq ds)).
  { subst ds. unfold ssd. now rewrite map_map. }
  pose proof (sq_qsum_le ds) as CS.
  assert (Hq : qlen ds = qlen rest) by (subst ds; apply qlen_map).
  rewrite Hq, <- Hsq in CS.
  assert (Hd : sq (qsum ds) == sq (x - m)).
  { unfold sq. rewrite Hds. ring. }
  rewrite Hd in CS.
  unfold var_of. fold m. rewrite Hss, Hn.
  pose proof (sq_nonneg (x - m)) as Ha.
  pose proof (ssd_nonneg m rest) as Hr.
  set (a := sq (x - m)) in *. set (R := ssd m rest) in *.
  assert (Hpos : 0 < qlen rest).
  { destruct (qlen_cases rest Hk) as [E|[E|[E|[E|[E|[E|[E|[E|E]]]]]]]];
      rewrite E; lra. }
  assert (G : a * qlen rest <= 9 * (a + R)).
  { destruct (qlen_cases rest Hk) as [E|[E|[E|[E|[E|[E|[E|[E|E]]]]]]]];
      rewrite E in *; lra. }
  assert (E : 9 * ((a + R) / (1 + qlen rest - 1)) == 9 * (a + R) / qlen rest)
    by (field; lra).
  rewrite E. apply Qle_shift_div_l; assumption.
Qed.

End StatsFacts.

(** ** The small-sample anomaly fallback *)

Section OutlierFacts.
Import Stats StatsFacts.

Lemma length_present (xs : list num) : (length (present xs) <= length xs)%nat.
Proof.
  unfold present. induction xs as [|[q|] xs IH]; cbn; lia.
Qed.

Lemma elem_of_present (q : Q) (xs : list num) : Some q ∈ xs -> q ∈ present xs.
Proof.
  intros Hin. unfold present. apply list_elem_of_omap. exists (Some q). auto.
Qed.

(** With at most ten rows the 3-sigma test of the fallback is never
    met. *)
Lemma no_outlier (xs : list num) (x : num) :
  (length xs <= 10)%nat -> x ∈ xs ->
  outlier (series_mean xs) (series_var xs) x = false.
Proof.
  intros Hlen Hin.
  pose proof (length_present xs) as Hp.
  unfold outlier, series_mean, series_var.
  destruct (present xs) as [|y0 [|y1 ys]] eqn:E; try reflexivity.
  destruct x as [q|]; [|reflexivity].
  apply elem_of_present in Hin. rewrite E in Hin.
  apply list_elem_of_split in Hin as (l1 & l2 & Hl).
  rewrite Hl.
  assert (B : sq (q - mean_of (l1 ++ q :: l2)) <= 9 * var_of (l1 ++ q :: l2)).
  { apply dev_bound. rewrite <- Hl. cbn [length] in *. lia. }
  apply Qlt_bool_false_iff in B.
  unfold above3, below3. rewrite B, !andb_false_r. reflexivity.
Qed.

Lemma outliers_all_false (xs : list num) :
  (length xs <= 10)%nat ->
  map (outlier (series_mean xs) (series_var xs)) xs
  = replicate (length xs) false.
Proof.
  intros Hlen.
  assert (G : forall ys, (forall y, y ∈ ys -> y ∈ xs) ->
    map (outlier (series_mean xs) (series_var xs)) ys
    = replicate (length ys) false).
  { induction ys as [|y ys IH]; intros Hsub; [reflexivity|].
    cbn. rewrite no_outlier by (auto; apply Hsub; left).
    f_equal. apply IH. intros z Hz. apply Hsub. now right. }
  apply G. auto.
Qed.

End OutlierFacts.

(** *** The comparison against three deviations, over the reals *)

Section RealComparison.
Import Rdefinitions Raxioms RIneq R_sqrt Qreals.
Import Stats StatsFacts.
Local Open Scope R_scope.

Lemma Q2R_nine : Q2R 9 = 9.
Proof. unfold Q2R. cbn. Lra.lra. Qed.

Lemma above3_real (m v x : Q) :
  (0 <= v)%Q ->
  above3 m v x = true <-> Q2R m + 3 * sqrt (Q2R v) < Q2R x.
Proof.
  intros Hv. unfold above3. rewrite andb_true_iff, !Qlt_bool_iff.
  assert (Hv' : 0 <= Q2R v)
    by (replace 0 with (Q2R 0) by Lra.lra; now apply Qle_Rle).
  pose proof (sqrt_pos (Q2R v)) as Hs.
  pose proof (sqrt_sqrt (Q2R v) Hv') as Hss.
  set (s := sqrt (Q2R v)) in *.
  split.
  - intros [Hm Hq]. apply Qlt_Rlt in Hm, Hq.
    unfold sq in Hq. rewrite !Q2R_mult, Q2R_minus, Q2R_nine in Hq.
    Lra.nra.
  - intros Hr. split; apply Rlt_Qlt.
    + Lra.nra.
    + unfold sq. rewrite !Q2R_mult, Q2R_minus, Q2R_nine. Lra.nra.
Qed.

Lemma below3_real (m v x : Q) :
  (0 <= v)%Q ->
  below3 m v x = true <-> Q2R x < Q2R m - 3 * sqrt (Q2R v).
Proof.
  intros Hv. unfold below3. rewrite andb_true_iff, !Qlt_bool_iff.
  assert (Hv' : 0 <= Q2R v)
    by (replace 0 with (Q2R 0) by Lra.lra; now apply Qle_Rle).
  pose proof (sqrt_pos (Q2R v)) as Hs.
  pose proof (sqrt_sqrt (Q2R v) Hv') as Hss.
  set (s := sqrt (Q2R v)) in *.
  split.
  - intros [Hm Hq]. apply Qlt_Rlt in Hm, Hq.
    unfold sq in Hq. rewrite !Q2R_mult, Q2R_minus, Q2R_nine in Hq.
    Lra.nra.
  - intros Hr. split; apply Rlt_Qlt.
    + Lra.nra.
    + unfold sq. rewrite !Q2R_mult, Q2R_minus, Q2R_nine. Lra.nra.
Qed.

End RealComparison.

(** the variance a column reports is not negative, so its root exists *)
Lemma series_var_nonneg (xs : list num) (v : Q) :
  Stats.series_var xs = Some v -> 0 <= v.
Proof.
  unfold Stats.series_var.
  destruct (Stats.present xs) as [|y0 [|y1 ys]] eqn:E; try discriminate.
  intros [= <-]. unfold Stats.var_of.
  pose proof (StatsFacts.ssd_nonneg (Stats.mean_of (y0 :: y1 :: ys)) (y0 :: y1 :: ys)) as Hs.
  pose proof (StatsFacts.qlen_nonneg ys) as Hl.
  rewrite !StatsFacts.qlen_cons.
  apply Qle_shift_div_l; lra.
Qed.

Section FallbackLoop.
Import Stats.

Lemma elem_of_positions_of lbl key flags b :
  b ∈ positions_of lbl key flags -> b ∈ flags.
Proof.
  unfold positions_of. intros Hb.
  apply list_elem_of_fmap in Hb as ([k b'] & -> & Hin).
  apply list_elem_of_filter in Hin as [_ Hin].
  apply list_elem_of_In in Hin. apply in_combine_r in Hin.
  now apply list_elem_of_In.
Qed.

Lemma align_mask_elem target key flags sel b :
  align_mask target key flags = inr sel -> b ∈ sel -> b ∈ flags.
Proof.
  unfold align_mask. intros Ha Hb.
  destruct (decide (target = key)); [congruence|].
  destruct (existsb _ _); [discriminate|].
  destruct (Nat.eqb _ _); [|discriminate].
  injection Ha as <-.
  apply list_elem_of_In, in_concat in Hb as (h & Hh & Hb).
  apply list_elem_of_In in Hh, Hb.
  apply list_elem_of_fmap in Hh as (lbl & -> & _).
  eapply elem_of_positions_of; eauto.
Qed.

(** One column: other objects are untouched; a normal return rewrites
    both result columns under one and the same selection, drawn from
    the column's outlier flags. *)
Lemma flag_column_spec a key c s r s' idx bs sc :
  s !! a = Some (anomalies_frame idx bs sc) ->
  App.flag_column a key c s = (r, s') ->
  (forall l, l <> a -> s' !! l = s !! l) /\
  (r = inr tt ->
   exists sel, (forall b, b ∈ sel -> b ∈ outliers_of c) /\
     s' !! a = Some (anomalies_frame idx (mask (fun _ => true) sel bs)
                                          (mask incr1 sel sc))).
Proof.
  intros Ha Hrun.
  unfold App.flag_column, loc_set_true, loc_incr, bind, lift, read, write,
    raise, ret in Hrun.
  unfold outliers_of.
  destruct (col_nums c) as [e|xs]; [injection Hrun as <- <-; split; [auto|discriminate]|].
  rewrite Ha in Hrun. cbn [df_index anomalies_frame] in Hrun.
  destruct (align_mask idx key _) as [e|sel] eqn:Hal;
    [injection Hrun as <- <-; split; [auto|discriminate]|].
  cbn in Hrun. rewrite lookup_insert_eq in Hrun. cbn in Hrun.
  rewrite Hal in Hrun. cbn in Hrun.
  injection Hrun as <- <-. split.
  - intros l Hl. now rewrite !lookup_insert_ne by congruence.
  - intros _. exists sel. split.
    + intros b Hb. eapply align_mask_elem; eauto.
    + rewrite lookup_insert_eq. reflexivity.
Qed.

End FallbackLoop.

(** ** Stores: what a computation leaves alone *)

Lemma agree_refl s : agree s s.
Proof. intros l _. reflexivity. Qed.

Lemma agree_trans s1 s2 s3 : agree s1 s2 -> agree s2 s3 -> agree s1 s3.
Proof.
  intros H12 H23 l Hl. rewrite H23, H12; auto. rewrite H12; auto.
Qed.

Lemma fresh_unused (s : store) : s !! fresh (dom s) = None.
Proof. apply not_elem_of_dom. apply is_fresh. Qed.

Lemma agree_alloc s f : agree s (<[fresh (dom s) := f]> s).
Proof.
  intros l [x Hl]. rewrite lookup_insert_ne; [reflexivity|].
  intros <-. rewrite fresh_unused in Hl. discriminate.
Qed.

(** writes confined to an object that [s] does not hold *)
Lemma agree_outside s s1 s2 a :
  agree s s1 -> s !! a = None ->
  (forall l, l <> a -> s2 !! l = s1 !! l) -> agree s s2.
Proof.
  intros H1 Ha Hout l Hl. rewrite Hout, H1; auto.
  intros ->. rewrite Ha in Hl. destruct Hl; discriminate.
Qed.

Lemma agree_unused s s' l : agree s s' -> s' !! l = None -> s !! l = None.
Proof.
  intros Hag Hl. destruct (s !! l) eqn:E; [|reflexivity].
  rewrite Hag in Hl by eauto. congruence.
Qed.

Section FallbackRun.
Import Stats.

Lemma for_each_flag_spec a key cs : forall s r s' idx bs sc,
  s !! a = Some (anomalies_frame idx bs sc) ->
  for_each (App.flag_column a key) cs s = (r, s') ->
  (forall l, l <> a -> s' !! l = s !! l) /\
  (r = inr tt ->
   exists bs' sc', s' !! a = Some (anomalies_frame idx bs' sc') /\
                   flagged cs bs sc bs' sc').
Proof.
  induction cs as [|c cs IH]; intros s r s' idx bs sc Ha Hrun.
  - cbn in Hrun. injection Hrun as <- <-. split; [auto|].
    intros _. exists bs, sc. split; [assumption|constructor].
  - cbn [for_each] in Hrun. unfold bind in Hrun.
    destruct (App.flag_column a key c s) as [[e|[]] s1] eqn:Hc.
    + injection Hrun as <- <-.
      destruct (flag_column_spec _ _ _ _ _ _ _ _ _ Ha Hc) as [Hfr _].
      split; [assumption|discriminate].
    + destruct (flag_column_spec _ _ _ _ _ _ _ _ _ Ha Hc) as [Hfr Hok].
      destruct (Hok eq_refl) as (sel & Hsel & Ha1).
      destruct (IH _ _ _ _ _ _ Ha1 Hrun) as [Hfr' Hok'].
      split.
      * intros l Hl. rewrite Hfr', Hfr; auto.
      * intros Hr. destruct (Hok' Hr) as (bs' & sc' & Ha' & Hfl).
        exists bs', sc'. split; [assumption|].
        econstructor; eauto.
Qed.

Lemma fillna_mean_index f g : fillna_mean f = inr g -> df_index g = df_index f.
Proof.
  unfold fillna_mean. destruct (collect _); [discriminate|].
  intros [= <-]. reflexivity.
Qed.

End FallbackRun.

Section SmallSample.
Context `{Sklearn}.
Import Stats.

Lemma init_anomalies idx :
  let f0 := mkDF idx [] in
  let f1 := df_with f0 "is_anomaly" (BoolCol (replicate (df_len f0) false)) in
  df_with f1 "anomaly_score" (NumCol (replicate (df_len f1) (Some 0)))
  = anomalies_frame idx (replicate (length idx) false)
                        (replicate (length idx) (Some 0)).
Proof. reflexivity. Qed.

Lemma detect_small_run s p m c pf mf :
  s !! p = Some pf -> s !! m = Some mf -> (df_len mf < 10)%nat ->
  exists l s' f,
    App.detect_project_anomalies p m c s = (inr l, s') /\
    s' !! l = Some f /\ agree s s' /\
    (f = empty_df \/
     exists filled bs sc,
       fillna_mean mf = inr filled /\
       f = anomalies_frame (df_index pf) bs sc /\
       flagged (map snd (df_columns filled))
               (replicate (df_len pf) false)
               (replicate (df_len pf) (Some 0)) bs sc).
Proof.
  intros Hp Hm Hlen.
  unfold App.detect_project_anomalies, try_catch.
  unfold bind at 1. unfold read at 1. rewrite Hp.
  unfold bind at 1. unfold read at 1. rewrite Hm.
  destruct (df_empty pf || df_empty mf).
  { eexists _, _, _. split; [reflexivity|]. split; [apply lookup_insert_eq|].
    split; [apply agree_alloc|]. now left. }
  unfold bind at 1. unfold df_copy, bind at 1. unfold read at 1. rewrite Hm.
  unfold alloc at 1. cbv zeta.
  set (l1 := fresh (dom s)). set (s1 := <[l1 := mf]> s).
  assert (A1 : agree s s1) by apply agree_alloc.
  unfold bind at 1. unfold read at 1. subst s1. rewrite lookup_insert_eq.
  set (s1 := <[l1 := mf]> s) in *.
  unfold bind at 1.
  destruct (fillna_mean mf) as [e|filled] eqn:Hfill; cbn [lift].
  { unfold raise. eexists _, _, _. split; [reflexivity|].
    split; [apply lookup_insert_eq|].
    split; [eapply agree_trans; [exact A1|apply agree_alloc]|]. now left. }
  unfold ret at 1. unfold bind at 1. unfold alloc at 1. cbv zeta.
  set (l2 := fresh (dom s1)). set (s2 := <[l2 := filled]> s1).
  assert (A2 : agree s s2) by (eapply agree_trans; [exact A1|apply agree_alloc]).
  unfold bind at 1. unfold read at 1. subst s2. rewrite lookup_insert_eq.
  set (s2 := <[l2 := filled]> s1) in *.
  assert (Hl : (df_len filled <? 10)%nat = true).
  { apply Nat.ltb_lt. unfold df_len in *.
    now rewrite (fillna_mean_index _ _ Hfill). }
  rewrite Hl.
  unfold bind at 1. unfold alloc at 1. cbv zeta.
  set (a := fresh (dom s2)).
  assert (Ha2 : s2 !! a = None) by apply fresh_unused.
  assert (Ha : s !! a = None) by (eapply agree_unused; eauto).
  set (s3 := <[a := _]> s2).
  assert (A3 : agree s s3) by (eapply agree_trans; [exact A2|apply agree_alloc]).
  unfold bind at 1. unfold df_setitem_bool, bind at 1, read at 1.
  subst s3. rewrite lookup_insert_eq. unfold write at 1.
  unfold bind at 1. unfold df_setitem_num, bind at 1, read at 1.
  rewrite lookup_insert_eq. unfold write at 1.
  rewrite !insert_insert_eq.
  pose proof (init_anomalies (df_index pf)) as Hinit. cbv zeta in Hinit.
  rewrite Hinit. clear Hinit.
  set (s3 := <[a := _]> s2).
  assert (Ha3 : s3 !! a = Some (anomalies_frame (df_index pf)
             (replicate (length (df_index pf)) false)
             (replicate (length (df_index pf)) (Some 0))))
    by apply lookup_insert_eq.
  assert (A3' : agree s s3).
  { eapply agree_outside; [exact A2|exact Ha|].
    intros l Hne. subst s3. now rewrite lookup_insert_ne by congruence. }
  unfold bind at 1.
  destruct (for_each _ _ s3) as [[e|[]] s4] eqn:Hloop.
  - destruct (for_each_flag_spec _ _ _ _ _ _ _ _ _ Ha3 Hloop) as [Hfr _].
    eexists _, _, _. split; [reflexivity|]. split; [apply lookup_insert_eq|].
    split; [|now left].
    eapply agree_trans; [|apply agree_alloc].
    eapply agree_outside; [exact A3'|exact Ha|exact Hfr].
  - destruct (for_each_flag_spec _ _ _ _ _ _ _ _ _ Ha3 Hloop) as [Hfr Hok].
    destruct (Hok eq_refl) as (bs' & sc' & Ha4 & Hfl).
    unfold ret. eexists _, _, _. split; [reflexivity|]. split; [exact Ha4|].
    split; [eapply agree_outside; [exact A3'|exact Ha|exact Hfr]|].
    right. exists filled, bs', sc'. split; [reflexivity|]. split; [reflexivity|].
    exact Hfl.
Qed.

End SmallSample.

Section FallbackInvariant.
Import Stats.

Lemma qnat_succ n : qnat (S n) == qnat n + 1.
Proof.
  unfold qnat. rewrite Nat2Z.inj_succ, <- Z.add_1_r, inject_Z_plus. reflexivity.
Qed.

Lemma consistent_mono k k' b x : k <= k' -> consistent k b x -> consistent k' b x.
Proof.
  intros Hk (q & -> & H0 & Hb & Hq). exists q. repeat split; try tauto.
  eapply Qle_trans; eauto.
Qed.

Lemma mask_step k sel : forall bs sc,
  Forall2 (consistent k) bs sc ->
  Forall2 (consistent (k + 1)) (mask (fun _ => true) sel bs) (mask incr1 sel sc).
Proof.
  induction sel as [|b sel IH]; intros bs sc HF.
  - destruct bs, sc; cbn; try (inversion HF; fail); [constructor|].
    eapply Forall2_impl; [exact HF|].
    intros b0 x. apply consistent_mono. lra.
  - destruct HF as [|b0 x0 bs sc H0 HF]; [constructor|].
    cbn. constructor; [|auto].
    destruct b.
    + destruct H0 as (q & -> & Hq0 & Hb & Hq).
      exists (q + 1). cbn. repeat split; try lra.
    + revert H0. apply consistent_mono. lra.
Qed.

Lemma flagged_consistent cs : forall k bs sc bs' sc',
  flagged cs bs sc bs' sc' ->
  Forall2 (consistent k) bs sc ->
  Forall2 (consistent (k + qnat (length cs))) bs' sc'.
Proof.
  induction cs as [|c cs IH]; intros k bs sc bs' sc' Hfl HF.
  - inversion Hfl; subst. eapply Forall2_impl; [exact HF|].
    intros b x. apply consistent_mono. change (qnat (length [])) with 0. lra.
  - inversion Hfl as [|? ? sel ? ? ? ? Hsel Hrest]; subst.
    apply (mask_step k sel) in HF.
    apply (IH _ _ _ _ _ Hrest) in HF.
    eapply Forall2_impl; [exact HF|].
    intros b x. apply consistent_mono.
    cbn [length]. rewrite qnat_succ. lra.
Qed.

Lemma initial_consistent n :
  Forall2 (consistent 0) (replicate n false) (replicate n (Some 0)).
Proof.
  induction n as [|n IH]; cbn; constructor; [|assumption].
  exists 0. repeat split; try lra; try discriminate.
Qed.

Lemma length_collect {A} (l : list (exn + A)) r :
  collect l = inr r -> length r = length l.
Proof.
  revert r. induction l as [|[e|a] l IH]; intros r Hc; cbn in Hc.
  - now injection Hc as <-.
  - discriminate.
  - destruct (collect l); [discriminate|]. injection Hc as <-.
    cbn. f_equal. now apply IH.
Qed.

Lemma fillna_mean_ncols f g :
  fillna_mean f = inr g -> length (df_columns g) = length (df_columns f).
Proof.
  unfold fillna_mean. destruct (collect _) as [|cols] eqn:E; [discriminate|].
  intros [= <-]. cbn. apply length_collect in E. now rewrite length_map in E.
Qed.

Lemma mask_all_false {A} (f : A -> A) sel : forall l,
  (forall b, b ∈ sel -> b = false) -> mask f sel l = l.
Proof.
  induction sel as [|b sel IH]; intros l Hsel; destruct l as [|x l]; cbn; auto.
  rewrite (Hsel b) by left. f_equal. apply IH. intros b' Hb'. apply Hsel. now right.
Qed.

Lemma flagged_unflagged cs : forall bs sc bs' sc',
  flagged cs bs sc bs' sc' ->
  (forall c b, c ∈ cs -> b ∈ outliers_of c -> b = false) ->
  bs' = bs /\ sc' = sc.
Proof.
  induction cs as [|c cs IH]; intros bs sc bs' sc' Hfl Hno.
  - inversion Hfl; subst. auto.
  - inversion Hfl as [|? ? sel ? ? ? ? Hsel Hrest]; subst.
    assert (Hf : forall b, b ∈ sel -> b = false).
    { intros b Hb. apply (Hno c); [left|auto]. }
    rewrite !mask_all_false in Hrest by assumption.
    apply IH; [assumption|]. intros c' b Hc'. apply Hno. now right.
Qed.

Lemma outliers_of_short c :
  (col_len c <= 10)%nat -> forall b, b ∈ outliers_of c -> b = false.
Proof.
  intros Hlen b Hb. unfold outliers_of in Hb.
  destruct c as [xs|bl|sl]; cbn in Hb, Hlen.
  - rewrite outliers_all_false in Hb by assumption.
    now apply elem_of_replicate_inv in Hb.
  - rewrite outliers_all_false in Hb by (now rewrite length_map).
    now apply elem_of_replicate_inv in Hb.
  - inversion Hb.
Qed.

Lemma collect_elem {A B} (g : A -> exn + B) (l : list A) r y :
  collect (map g l) = inr r -> y ∈ r -> exists x, x ∈ l /\ g x = inr y.
Proof.
  revert r. induction l as [|x l IH]; intros r Hc Hy; cbn in Hc.
  - injection Hc as <-. inversion Hy.
  - destruct (g x) as [e|b] eqn:Eg; [discriminate|].
    destruct (collect (map g l)) as [e|r'] eqn:Er; [discriminate|].
    injection Hc as <-. apply elem_of_cons in Hy as [->|Hy].
    + exists x. split; [left|assumption].
    + destruct (IH _ eq_refl Hy) as (x' & Hx' & Hg). exists x'. split; [now right|assumption].
Qed.

Lemma fillna_mean_col_len f g c :
  wf_df f -> fillna_mean f = inr g ->
  c ∈ map snd (df_columns g) -> col_len c = df_len f.
Proof.
  intros Hwf Hfill Hc. unfold fillna_mean in Hfill.
  destruct (collect _) as [|cols] eqn:E; [discriminate|].
  injection Hfill as <-. cbn in Hc.
  apply list_elem_of_fmap in Hc as ([n c'] & -> & Hin).
  destruct (collect_elem _ _ _ _ E Hin) as ([n0 c0] & Hin0 & Hg).
  cbn in Hg. unfold wf_df in Hwf. rewrite Forall_forall in Hwf.
  specialize (Hwf _ Hin0). cbn in Hwf.
  destruct c0 as [xs|bl|sl]; cbn in Hg; try discriminate;
    injection Hg as <- <-; cbn in *; [|assumption].
  unfold fillna. now rewrite length_map.
Qed.

End FallbackInvariant.

Section FallbackTheorems.
Context `{Sklearn}.

(** C10.  In the small-sample fallback of [App.detect_project_anomalies]
    the call returns a frame in which, for every row, [is_anomaly] is
    True exactly when [anomaly_score] is at least 1, and the score never
    exceeds the number of metric columns. *)
Theorem fallback_flag_score_consistent s p m c pf mf :
  s !! p = Some pf -> s !! m = Some mf -> (df_len mf < 10)%nat ->
  exists f,
    result_frame (App.detect_project_anomalies p m c) s = Some f /\
    forall i b, is_anomaly_at f i = Some b ->
      exists q, anomaly_score_at f i = Some (Some q) /\
                (b = true <-> 1 <= q) /\
                q <= qnat (length (df_columns mf)).
Proof.
  intros Hp Hm Hlen.
  destruct (detect_small_run s p m c pf mf Hp Hm Hlen)
    as (l & s' & f & Hrun & Hf & _ & Hshape).
  exists f. unfold result_frame. rewrite Hrun. split; [exact Hf|].
  intros i b Hb.
  destruct Hshape as [->|(filled & bs & sc & Hfill & -> & Hfl)].
  - discriminate.
  - apply (flagged_consistent _ 0) in Hfl; [|apply initial_consistent].
    unfold is_anomaly_at, anomaly_score_at in *. cbn in *.
    destruct (Forall2_lookup_l _ _ _ _ _ Hfl Hb) as (x & Hx & (q & -> & _ & Hiff & Hq)).
    exists q. split; [assumption|]. split; [assumption|].
    rewrite length_map, (fillna_mean_ncols _ _ Hfill) in Hq. lra.
Qed.

(** C1.  With fewer than ten rows the fallback of
    [App.detect_project_anomalies] never flags anything: mean and
    deviation are taken over the whole column, the row under test
    included, and no value of at most ten lies more than three sample
    deviations from their mean.  Every returned row has
    [is_anomaly = False] and [anomaly_score = 0]. *)
Theorem small_sample_never_flags s p m c pf mf :
  s !! p = Some pf -> s !! m = Some mf -> wf_df mf -> (df_len mf < 10)%nat ->
  exists f,
    result_frame (App.detect_project_anomalies p m c) s = Some f /\
    forall i, (i < df_len f)%nat ->
      is_anomaly_at f i = Some false /\ anomaly_score_at f i = Some (Some 0).
Proof.
  intros Hp Hm Hwf Hlen.
  destruct (detect_small_run s p m c pf mf Hp Hm Hlen)
    as (l & s' & f & Hrun & Hf & _ & Hshape).
  exists f. unfold result_frame. rewrite Hrun. split; [exact Hf|].
  intros i Hi.
  destruct Hshape as [->|(filled & bs & sc & Hfill & -> & Hfl)].
  - cbn in Hi. lia.
  - apply flagged_unflagged in Hfl as [-> ->].
    + unfold is_anomaly_at, anomaly_score_at. cbn in *.
      split; apply lookup_replicate_2; exact Hi.
    + intros c0 b Hc0. apply outliers_of_short.
      rewrite (fillna_mean_col_len _ _ _ Hwf Hfill Hc0). lia.
Qed.

End FallbackTheorems.

Lemma nine_wf : wf_df nine_metrics.
Proof. repeat constructor. Qed.

(** the fallback on nine projects, one of them far off: nothing is
    flagged *)
Lemma small_sample_never_flags_witness :
  exists f,
    result_frame
      (App.detect_project_anomalies (H := no_sklearn) 1%positive 2%positive (1#10))
      nine_store = Some f /\
    forall i, (i < df_len f)%nat ->
      is_anomaly_at f i = Some false /\ anomaly_score_at f i = Some (Some 0).
Proof.
  apply (small_sample_never_flags (H := no_sklearn) nine_store 1%positive 2%positive
           (1#10) nine_projects nine_metrics).
  - reflexivity.
  - reflexivity.
  - exact nine_wf.
  - vm_compute. lia.
Defined.

(** The ninth project's SPI of 50 lies hundreds of deviations away from
    the other eight (mean 1, deviation below 0.07), yet its row comes
    back unflagged like all others. *)
Example nine_projects_outlier_unflagged :
  result_frame
    (App.detect_project_anomalies (H := no_sklearn) 1%positive 2%positive (1#10))
    nine_store
  = Some (anomalies_frame (df_index nine_projects)
            (replicate 9 false) (replicate 9 (Some 0))).
Proof. vm_compute. reflexivity. Qed.

Lemma fallback_flag_score_consistent_witness :
  exists f,
    result_frame
      (App.detect_project_anomalies (H := no_sklearn) 1%positive 2%positive (1#10))
      nine_store = Some f /\
    forall i b, is_anomaly_at f i = Some b ->
      exists q, anomaly_score_at f i = Some (Some q) /\
                (b = true <-> 1 <= q) /\
                q <= qnat (length (df_columns nine_metrics)).
Proof.
  apply (fallback_flag_score_consistent (H := no_sklearn) nine_store 1%positive
           2%positive (1#10) nine_projects nine_metrics).
  - reflexivity.
  - reflexivity.
  - vm_compute. lia.
Defined.

(** ** Frame rules *)

Section Quiet.
Variable D : store.

Lemma quiet_ret {A} (a : A) (post : A -> Prop) : post a -> quiet D (ret a) post.
Proof. intros Hp s Hs. cbn. split; [assumption|]. now intros ? [= <-]. Qed.

Lemma quiet_raise {A} e (post : A -> Prop) : quiet D (raise e) post.
Proof. intros s Hs. cbn. split; [assumption|]. discriminate. Qed.

Lemma quiet_lift {A} (r : exn + A) (post : A -> Prop) :
  (forall a, r = inr a -> post a) -> quiet D (lift r) post.
Proof.
  intros Hp. destruct r; cbn; [apply quiet_raise|apply quiet_ret; auto].
Qed.

Lemma quiet_weaken {A} (m : M A) (P Q : A -> Prop) :
  quiet D m P -> (forall a, P a -> Q a) -> quiet D m Q.
Proof.
  intros Hm HPQ s Hs. destruct (Hm s Hs) as [Hag Hp]. split; auto.
Qed.

Lemma quiet_bind {A B} (m : M A) (k : A -> M B) (P : A -> Prop) (Q : B -> Prop) :
  quiet D m P -> (forall a, P a -> quiet D (k a) Q) -> quiet D (bind m k) Q.
Proof.
  intros Hm Hk s Hs. unfold bind.
  destruct (Hm s Hs) as [Hag Hp].
  destruct (m s) as [[e|a] s1]; cbn in *.
  - split; [assumption|discriminate].
  - apply Hk; auto.
Qed.

Lemma quiet_try {A} (body : M A) (h : exn -> M A) (Q : A -> Prop) :
  quiet D body Q -> (forall e, quiet D (h e) Q) -> quiet D (try_catch body h) Q.
Proof.
  intros Hb Hh s Hs. unfold try_catch.
  destruct (Hb s Hs) as [Hag Hp].
  destruct (body s) as [[e|a] s1]; cbn in *.
  - apply Hh; assumption.
  - split; auto.
Qed.

Lemma quiet_read l : quiet D (read l) (fun _ => True).
Proof.
  intros s Hs. unfold read. destruct (s !! l); cbn; auto.
Qed.

Lemma quiet_alloc f : quiet D (alloc f) (new_in D).
Proof.
  intros s Hs. unfold alloc. cbn. split.
  - eapply agree_trans; [exact Hs|apply agree_alloc].
  - intros a [= <-]. eapply agree_unused; [exact Hs|apply fresh_unused].
Qed.

Lemma quiet_write l f : new_in D l -> quiet D (write l f) (fun _ => True).
Proof.
  intros Hl s Hs. unfold write. cbn. split; [|auto].
  eapply agree_outside; [exact Hs|exact Hl|].
  intros l' Hne. now rewrite lookup_insert_ne by congruence.
Qed.

Lemma quiet_copy l : quiet D (df_copy l) (new_in D).
Proof.
  unfold df_copy. eapply quiet_bind; [apply quiet_read|].
  intros f _. apply quiet_alloc.
Qed.

Lemma quiet_setitem l c v : new_in D l -> quiet D (df_setitem l c v) (fun _ => True).
Proof.
  intros Hl. unfold df_setitem. eapply quiet_bind; [apply quiet_read|].
  intros f _. destruct (Nat.eqb _ _); [now apply quiet_write|apply quiet_raise].
Qed.

Lemma quiet_setitem_bool l c b :
  new_in D l -> quiet D (df_setitem_bool l c b) (fun _ => True).
Proof.
  intros Hl. unfold df_setitem_bool. eapply quiet_bind; [apply quiet_read|].
  intros f _. now apply quiet_write.
Qed.

Lemma quiet_setitem_num l c q :
  new_in D l -> quiet D (df_setitem_num l c q) (fun _ => True).
Proof.
  intros Hl. unfold df_setitem_num. eapply quiet_bind; [apply quiet_read|].
  intros f _. now apply quiet_write.
Qed.

Lemma quiet_loc_set_true l key flags c :
  new_in D l -> quiet D (loc_set_true l key flags c) (fun _ => True).
Proof.
  intros Hl. unfold loc_set_true. eapply quiet_bind; [apply quiet_read|].
  intros f _. eapply quiet_bind; [apply quiet_lift; intros; exact I|].
  intros sel _. destruct (df_get f c) as [[| |]|];
    try apply quiet_raise. now apply quiet_write.
Qed.

Lemma quiet_loc_incr l key flags c :
  new_in D l -> quiet D (loc_incr l key flags c) (fun _ => True).
Proof.
  intros Hl. unfold loc_incr. eapply quiet_bind; [apply quiet_read|].
  intros f _. eapply quiet_bind; [apply quiet_lift; intros; exact I|].
  intros sel _. destruct (df_get f c) as [[| |]|];
    try apply quiet_raise. now apply quiet_write.
Qed.

Lemma quiet_for_each {A} (body : A -> M unit) (l : list A) :
  (forall x, quiet D (body x) (fun _ => True)) ->
  quiet D (for_each body l) (fun _ => True).
Proof.
  intros Hb. induction l as [|x l IH]; cbn [for_each].
  - now apply quiet_ret.
  - eapply quiet_bind; [apply Hb|]. intros _ _. exact IH.
Qed.

End Quiet.

Section QuietPrograms.
Context `{Sklearn}.
Variable D : store.

Lemma quiet_lift_any {A} (r : exn + A) : quiet D (lift r) (fun _ => True).
Proof. apply quiet_lift. auto. Qed.

Ltac quiet_head :=
  first [ apply quiet_read | apply quiet_alloc | apply quiet_copy
        | apply quiet_lift_any
        | apply quiet_setitem; assumption
        | apply quiet_setitem_bool; assumption
        | apply quiet_setitem_num; assumption
        | apply quiet_loc_set_true; assumption
        | apply quiet_loc_incr; assumption ].

Ltac quiet_steps :=
  repeat first
    [ apply quiet_ret; exact I
    | apply quiet_raise
    | eapply quiet_weaken; [quiet_head|intros; exact I]
    | eapply quiet_bind; [quiet_head|intros ? ?] ].

Lemma quiet_flag_column a key c :
  new_in D a -> quiet D (App.flag_column a key c) (fun _ => True).
Proof. intros Ha. unfold App.flag_column. quiet_steps. Qed.

Lemma quiet_app_detect p m c :
  quiet D (App.detect_project_anomalies p m c) (fun _ => True).
Proof.
  unfold App.detect_project_anomalies. apply quiet_try.
  - quiet_steps. destruct (_ || _); quiet_steps.
    destruct (_ <? _)%nat; quiet_steps.
    eapply quiet_bind; [|intros ? ?; quiet_steps].
    apply quiet_for_each. intros x. now apply quiet_flag_column.
  - intros e. quiet_steps.
Qed.

Lemma quiet_advanced_detect p ms c :
  quiet D (AdvancedAnalytics.detect_project_anomalies p ms c) (fun _ => True).
Proof.
  unfold AdvancedAnalytics.detect_project_anomalies. quiet_steps.
  destruct (df_empty _); quiet_steps.
  destruct (filter _ _); quiet_steps.
Qed.

Lemma quiet_predictive_detect p method c :
  quiet D (PredictiveAnalytics.detect_anomalies p method c) (fun _ => True).
Proof.
  unfold PredictiveAnalytics.detect_anomalies. quiet_steps.
  destruct (df_empty _); quiet_steps.
  destruct (PredictiveAnalytics.feature_columns _); quiet_steps.
  destruct (String.eqb _ _); quiet_steps.
  destruct (String.eqb _ _); quiet_steps.
Qed.

(** C9.  None of the three anomaly-detection entry points changes a
    DataFrame that existed before the call, its arguments included:
    scores, flags and mean-filled cells go to copies and to frames made
    during the call. *)
Theorem anomaly_detection_keeps_inputs :
  (forall p m c, agree D (snd (App.detect_project_anomalies p m c D))) /\
  (forall p ms c,
      agree D (snd (AdvancedAnalytics.detect_project_anomalies p ms c D))) /\
  (forall p method c,
      agree D (snd (PredictiveAnalytics.detect_anomalies p method c D))).
Proof.
  repeat split; intros.
  - apply (quiet_app_detect p m c D (agree_refl D)).
  - apply (quiet_advanced_detect p ms c D (agree_refl D)).
  - apply (quiet_predictive_detect p method c D (agree_refl D)).
Qed.

End QuietPrograms.

(** the scores and flags land in the copy: the frame handed in is still
    what it was, the frame handed back has the two new columns and its
    NaN untouched (only the matrix given to the model was mean-filled) *)
Example advanced_detect_writes_to_copy :
  let s := <[1%positive := two_rows]> (∅ : store) in
  let out := AdvancedAnalytics.detect_project_anomalies (H := toy_sklearn)
               1%positive None (1#10) s in
  fst out = inr 2%positive /\
  snd out !! 1%positive = Some two_rows /\
  snd out !! 2%positive
  = Some (mkDF [0; 1]%Z
            [("spi", NumCol [Some 1; None]);
             ("project_id", NumCol [Some 7; Some 8]);
             ("anomaly_score", NumCol [Some (-1); Some (-1)]);
             ("is_anomaly", BoolCol [true; true])]).
Proof. vm_compute. repeat split. Qed.

(** ** The EVM forecasters *)

Section AppForecast.
Import App.



Lemma forecast_cost_skipped p f :
  (forall c, known (cpi p) = Some c -> c <= 0) ->
  forecast_cost p f = (inr tt, f).
Proof.
  intros Hc. unfold forecast_cost.
  destruct (known (budget p)); [|reflexivity].
  destruct (known (cpi p)) as [c|]; [|reflexivity].
  specialize (Hc c eq_refl). apply Qlt_bool_false_iff in Hc. now rewrite Hc.
Qed.

Lemma forecast_risks_keeps cfg p f :
  exists r, forecast_risks cfg p f = (inr tt, set_risk_factors r f).
Proof. unfold forecast_risks, modify. eauto. Qed.


Lemma forecast_schedule_keeps_cost now p f r f' :
  forecast_schedule now p f = (r, f') ->
  forecast_final_cost f' = forecast_final_cost f.
Proof.
  unfold forecast_schedule.
  destruct (known_date (planned_end p)) as [pe|]; [|now intros [= <- <-]].
  destruct (known_date (planned_start p)) as [ps|]; [|now intros [= <- <-]].
  destruct (known (spi p)) as [v|]; [|now intros [= <- <-]].
  destruct (Qlt_bool 0 v); [|now intros [= <- <-]].
  unfold bind, lift.
  destruct (to_timestamp ps) as [e|ts]; [now intros [= <- <-]|].
  destruct (to_timestamp pe) as [e|te]; now intros [= <- <-].
Qed.

(** no cost forecast without a positive CPI *)
Lemma app_no_eac cfg now p :
  (forall c, known (cpi p) = Some c -> c <= 0) ->
  forecast_final_cost (forecast_project_completion cfg now p) = None.
Proof.
  intros Hc.
  unfold forecast_project_completion, try_catch, bind.
  destruct (forecast_schedule now p initial_forecast) as [[e|[]] f1] eqn:E;
    apply forecast_schedule_keeps_cost in E.
  - exact E.
  - rewrite (forecast_cost_skipped p f1 Hc).
    destruct (forecast_risks_keeps cfg p f1) as (r & ->). exact E.
Qed.

End AppForecast.

Section CostFormulas.


Lemma predictive_cost now p tasks r b :
  PredictiveAnalytics.predict_project_completion now p tasks = inr r ->
  budget p = Some b ->
  let pstart := match planned_start p with Some (Stamp t) => t | _ => 0 end in
  let pend := match planned_end p with Some (Stamp t) => t | _ => 0 end in
  exists progress spi_v cpi_v,
    PredictiveAnalytics.progress_spi_cpi tasks (days (pend - pstart))
      (days (now - pstart)) = inr (progress, spi_v, cpi_v) /\
    PredictiveAnalytics.forecast_cost r
    = (if Qlt_bool 0 cpi_v
       then nadd (nmul b (Some (Qmin 1 progress)))
                 (ndiv (nsub b (nmul b (Some (Qmin 1 progress)))) (Some cpi_v))
       else nmul b (Some 2)).
Proof.
  intros Hrun Hb. cbv zeta.
  unfold PredictiveAnalytics.predict_project_completion in Hrun.
  destruct (planned_end p) as [[|te|]|]; try discriminate.
  destruct (planned_start p) as [[|ts|]|]; try discriminate.
  cbn [PredictiveAnalytics.stamp_of] in Hrun.
  destruct (PredictiveAnalytics.progress_spi_cpi _ _ _) as [e|[[pr s] c]] eqn:E;
    [discriminate|].
  rewrite Hb in Hrun. injection Hrun as <-.
  exists pr, s, c. split; [reflexivity|]. reflexivity.
Qed.


End CostFormulas.




(** C5, as the code has it.  With a CPI that is not positive no
    forecaster divides by it, and each has its own way out: the
    forecaster of advanced_analytics returns budget * 1.5, the one of
    predictive_analytics budget * 2, the EVM step of the ensemble
    budget * 1.1, and [App.forecast_project_completion] makes no cost
    forecast at all ([forecast_final_cost] stays [None]).  The first two
    return a number whenever the planned dates are Timestamps and the
    budget is a number. *)
Theorem cpi_fallbacks :
  (forall now p tasks ts te b,
      planned_start p = Some (Stamp ts) -> planned_end p = Some (Stamp te) ->
      budget p = Some (Some b) -> task_rows tasks <> [] ->
      let pv := AdvancedAnalytics.total planned_cost tasks in
      let ev := if has_earned_value tasks
                then AdvancedAnalytics.total earned_value tasks else 0 in
      let ac := if has_actual_cost tasks
                then AdvancedAnalytics.total task_actual_cost tasks else 0 in
      snd (AdvancedAnalytics.spi_cpi pv ev ac) <= 0 ->
      exists r,
        AdvancedAnalytics.forecast_project_completion now (Some p) tasks = inr r /\
        AdvancedAnalytics.forecast_final_cost r = Some (Some (b * (15#10)))) /\
  (forall now p tasks ts te b progress spi_v cpi_v,
      planned_start p = Some (Stamp ts) -> planned_end p = Some (Stamp te) ->
      budget p = Some (Some b) ->
      PredictiveAnalytics.progress_spi_cpi tasks (days (te - ts)) (days (now - ts))
      = inr (progress, spi_v, cpi_v) ->
      cpi_v <= 0 ->
      exists r,
        PredictiveAnalytics.predict_project_completion now p tasks = inr r /\
        PredictiveAnalytics.forecast_cost r = Some (b * 2)) /\
  (forall now p ps pe r s c b,
      spi p = Some (Some s) -> 0 < s -> cpi p = Some (Some c) -> c <= 0 ->
      budget p = Some (Some b) ->
      exists evm r',
        App.evm_step now p ps pe r = (inr evm, r') /\
        App.evm_final_cost evm = Some (Some (b * (11#10)))) /\
  (forall cfg now p,
      (forall c, known (cpi p) = Some c -> c <= 0) ->
      App.forecast_final_cost (App.forecast_project_completion cfg now p) = None).
Proof.
  split; [|split; [|split]].
  - intros now p tasks ts te b Hs He Hb Hne pv ev ac Hc.
    unfold AdvancedAnalytics.forecast_project_completion.
    destruct (task_rows tasks) as [|t rest] eqn:Et; [congruence|].
    fold pv ev ac.
    destruct (AdvancedAnalytics.spi_cpi pv ev ac) as [spi_v cpi_v] eqn:Esc.
    rewrite Hs, He, Hb. cbn [AdvancedAnalytics.stamp_of AdvancedAnalytics.require].
    cbn [snd] in Hc. apply Qlt_bool_false_iff in Hc. rewrite Hc.
    eexists. split; reflexivity.
  - intros now p tasks ts te b progress spi_v cpi_v Hs He Hb Hp Hc.
    unfold PredictiveAnalytics.predict_project_completion.
    rewrite Hs, He. cbn [PredictiveAnalytics.stamp_of]. rewrite Hp, Hb.
    apply Qlt_bool_false_iff in Hc. rewrite Hc.
    eexists. split; reflexivity.
  - intros now p ps pe r s c b Hs Hspos Hc Hcle Hb.
    unfold App.evm_step. rewrite Hs, Hc, Hb. cbn [App.positive_num].
    apply Qlt_bool_iff in Hspos. rewrite Hspos.
    unfold bind, modify, ngt. apply Qlt_bool_false_iff in Hcle. rewrite Hcle.
    eexists _, _. split; reflexivity.
  - intros cfg now p Hc. now apply app_no_eac.
Qed.

Lemma cpi_fallbacks_witness :
  exists r,
    AdvancedAnalytics.forecast_project_completion 50
      (Some (cost_project 200 1 50)) (one_task 100 0 50) = inr r /\
    AdvancedAnalytics.forecast_final_cost r = Some (Some (200 * (15#10))).
Proof.
  apply (proj1 cpi_fallbacks 50 (cost_project 200 1 50) (one_task 100 0 50)
           0 100 200).
  - reflexivity.
  - reflexivity.
  - reflexivity.
  - discriminate.
  - vm_compute. discriminate.
Defined.

(** One task with planned cost 100, nothing earned and 50 spent: the CPI
    is 0.  On a budget of 200 the forecaster of predictive_analytics
    returns 400, twice the budget, where C5 promises 1.5 times the
    budget, 300. *)
Lemma predictive_fallback_counterexample :
  exists r c,
    PredictiveAnalytics.predict_project_completion 50
      (cost_project 200 1 50) (one_task 100 0 50) = inr r /\
    PredictiveAnalytics.forecast_cost r = Some c /\
    c == 400 /\ ~ c == 200 * (15#10).
Proof.
  eexists _, _. split; [reflexivity|]. split; [reflexivity|].
  split; [reflexivity|]. intros H. discriminate H.
Qed.

(** and [App.forecast_project_completion] returns no cost forecast for
    a project with CPI 0 *)
Example app_cpi_zero_no_cost :
  App.forecast_final_cost
    (App.forecast_project_completion sample_config 50 (cost_project 200 0 50))
  = None.
Proof. reflexivity. Qed.

(** ** Sorting routines *)

Section SortingFacts.
Context {A : Type} (le : A -> A -> bool).

Lemma insert_by_perm x l : Permutation (x :: l) (insert_by le x l).
Proof.
  induction l as [|y l IH]; cbn; [reflexivity|].
  destruct (le x y); [reflexivity|].
  rewrite perm_swap. now constructor.
Qed.

Lemma insertion_sort_perm l : Permutation l (insertion_sort le l).
Proof.
  induction l as [|x l IH]; cbn; [constructor|].
  rewrite <- insert_by_perm. now constructor.
Qed.

Hypothesis le_total : forall a b, le a b = true \/ le b a = true.
Hypothesis le_trans : forall a b c, le a b = true -> le b c = true -> le a c = true.

Lemma insert_by_sorted x l :
  StronglySorted (fun a b => le a b = true) l ->
  StronglySorted (fun a b => le a b = true) (insert_by le x l).
Proof.
  induction 1 as [|y l Hs IH Hy]; cbn.
  - repeat constructor.
  - destruct (le x y) eqn:E.
    + constructor; [now constructor|].
      constructor; [assumption|].
      rewrite List.Forall_forall in *. intros z Hz. eauto.
    + constructor; [assumption|].
      rewrite List.Forall_forall in *. intros z Hz.
      apply (Permutation_in _ (Permutation_sym (insert_by_perm x l))) in Hz.
      destruct Hz as [<-|Hz]; [|auto].
      destruct (le_total x y); congruence.
Qed.

Lemma insertion_sort_sorted l :
  StronglySorted (fun a b => le a b = true) (insertion_sort le l).
Proof.
  induction l as [|x l IH]; cbn; [constructor|]. now apply insert_by_sorted.
Qed.

End SortingFacts.

Definition insertion_sort_values : SortValues.
Proof.
  refine {| sort_values := @insertion_sort |}.
  - intros. apply insertion_sort_perm.
  - intros. now apply insertion_sort_sorted.
Defined.


(** ** The forecast batch and its cache *)

Section BatchFacts.
Import App.
Variable generate_nlp_insights : Project -> list string.
Variable cfg : Config.

Lemma foldl_entries now st (l : list Project) : forall (acc : gmap Z BatchEntry) k,
  foldl (fun forecasts project =>
           <[project_id project :=
               forecast_entry generate_nlp_insights cfg now st project]> forecasts)
        acc l !! k
  = match last (filter (fun p => project_id p = k) l) with
    | Some p => Some (forecast_entry generate_nlp_insights cfg now st p)
    | None => acc !! k
    end.
Proof.
  induction l as [|p l IH] using rev_ind; intros acc k; [reflexivity|].
  rewrite foldl_app. cbn [foldl]. rewrite filter_app.
  destruct (decide (project_id p = k)) as [E|E].
  - rewrite filter_cons_True, filter_nil by assumption.
    rewrite last_snoc, E. apply lookup_insert_eq.
  - rewrite filter_cons_False, filter_nil, app_nil_r by assumption.
    rewrite lookup_insert_ne by assumption. apply IH.
Qed.

(** every project of the table has an entry, computed from a row with
    its id *)
Lemma forecast_all_covers now st p :
  p ∈ projects_df st ->
  exists q, q ∈ projects_df st /\ project_id q = project_id p /\
    forecast_all generate_nlp_insights cfg now st !! project_id p
    = Some (forecast_entry generate_nlp_insights cfg now st q).
Proof.
  intros Hin. unfold forecast_all. rewrite foldl_entries.
  destruct (last (filter (fun q => project_id q = project_id p) (projects_df st)))
    as [q|] eqn:El.
  - apply last_Some_elem_of in El.
    apply list_elem_of_filter in El as [Hid Hq]. eauto.
  - assert (El' : filter (fun q => project_id q = project_id p) (projects_df st) = [])
      by (destruct (filter _ _) as [|x l] using rev_ind;
          [reflexivity|now rewrite last_snoc in El]).
    clear El. rename El' into El.
    assert (Hp : p ∈ filter (fun q => project_id q = project_id p) (projects_df st))
      by (apply list_elem_of_filter; auto).
    rewrite El in Hp. inversion Hp.
Qed.

Lemma generate_recomputes now st :
  data_loaded st = true -> cached_forecasts now st = None ->
  generate_project_forecasts generate_nlp_insights cfg now st
  = (forecast_all generate_nlp_insights cfg now st,
     mkSession true (projects_df st)
       (Some (forecast_all generate_nlp_insights cfg now st)) (Some now)
       (anomalies st)).
Proof.
  intros Hl Hc. unfold generate_project_forecasts. rewrite Hl, Hc. reflexivity.
Qed.

Lemma generate_serves_cache now st cached :
  data_loaded st = true -> cached_forecasts now st = Some cached ->
  generate_project_forecasts generate_nlp_insights cfg now st = (cached, st).
Proof.
  intros Hl Hc. unfold generate_project_forecasts. rewrite Hl, Hc. reflexivity.
Qed.

Lemma cached_forecasts_Some now st cached :
  cached_forecasts now st = Some cached <->
  project_forecasts st = Some cached /\ cached <> ∅ /\
  exists generated_at,
    forecast_generated_at st = Some generated_at /\
    total_seconds now generated_at < 3600.
Proof.
  unfold cached_forecasts. split.
  - destruct (project_forecasts st) as [c|]; [|discriminate].
    destruct (forecast_generated_at st) as [g|]; [|discriminate].
    case_bool_decide; [discriminate|].
    destruct (Qlt_bool _ _) eqn:E; [|discriminate].
    intros [= <-]. apply Qlt_bool_iff in E. eauto.
  - intros (-> & Hne & g & -> & Hlt).
    rewrite bool_decide_eq_false_2 by assumption.
    apply Qlt_bool_iff in Hlt. now rewrite Hlt.
Qed.

End BatchFacts.

Section MissingDates.
Context `{SortValues}.
Import App.

Lemma ensemble_missing_dates cfg now p h :
  known_date (planned_start p) = None \/ known_date (planned_end p) = None ->
  generate_ensemble_forecast cfg now p h = initial_results.
Proof.
  intros Hmiss. unfold generate_ensemble_forecast, try_catch, bind, lift.
  destruct (planned_start p) as [[|ts|[ts|]]|] eqn:Es; cbn; try reflexivity;
    destruct Hmiss as [Hm|Hm]; try discriminate;
    destruct (planned_end p) as [[|te|[te|]]|]; cbn in *; try reflexivity;
    discriminate.
Qed.

Lemma forecast_missing_dates cfg now p :
  known_date (planned_start p) = None \/ known_date (planned_end p) = None ->
  forecast_completion_date (forecast_project_completion cfg now p) = None /\
  schedule_variance_days (forecast_project_completion cfg now p) = 0%Z /\
  completion_confidence (forecast_project_completion cfg now p) = 0%Z.
Proof.
  intros Hmiss.
  assert (Hs : forecast_schedule now p initial_forecast = (inr tt, initial_forecast)).
  { unfold forecast_schedule.
    destruct (known_date (planned_end p)); [|reflexivity].
    destruct (known_date (planned_start p)); [|reflexivity].
    destruct Hmiss; discriminate. }
  unfold forecast_project_completion, try_catch, bind. rewrite Hs.
  unfold forecast_cost.
  destruct (known (budget p)) as [b|]; [destruct (known (cpi p)) as [c|];
    [destruct (Qlt_bool 0 c)|]|]; cbn; auto.
Qed.

End MissingDates.

(** C7.  A project whose planned start or planned end is missing (key
    absent or value null) gets an empty forecast and no exception:
    [App.generate_ensemble_forecast] returns its all-null initial result,
    [App.forecast_project_completion] returns with no completion date, no
    schedule variance and no confidence.  The batch loop of
    [App.generate_project_forecasts], whenever it runs, files an entry
    under the id of every project of the table, whatever exceptions were
    caught while forecasting. *)
Theorem missing_dates_do_not_abort `{SortValues} :
  (forall cfg now p h,
      known_date (planned_start p) = None \/ known_date (planned_end p) = None ->
      App.generate_ensemble_forecast cfg now p h = App.initial_results) /\
  (forall cfg now p,
      known_date (planned_start p) = None \/ known_date (planned_end p) = None ->
      App.forecast_completion_date (App.forecast_project_completion cfg now p) = None /\
      App.schedule_variance_days (App.forecast_project_completion cfg now p) = 0%Z /\
      App.completion_confidence (App.forecast_project_completion cfg now p) = 0%Z) /\
  (forall insights cfg now st p,
      App.data_loaded st = true -> App.cached_forecasts now st = None ->
      p ∈ App.projects_df st ->
      exists q, q ∈ App.projects_df st /\ project_id q = project_id p /\
        fst (App.generate_project_forecasts insights cfg now st) !! project_id p
        = Some (App.forecast_entry insights cfg now st q)).
Proof.
  split; [|split].
  - intros. now apply ensemble_missing_dates.
  - intros. now apply forecast_missing_dates.
  - intros insights cfg now st p Hl Hc Hin.
    rewrite (generate_recomputes insights cfg now st Hl Hc). cbn [fst].
    now apply forecast_all_covers.
Qed.

Lemma missing_dates_do_not_abort_witness :
  App.generate_ensemble_forecast (H := insertion_sort_values) sample_config 50
    undated_project None = App.initial_results.
Proof.
  apply (proj1 (missing_dates_do_not_abort (H := insertion_sort_values))
           sample_config 50 undated_project None).
  left. reflexivity.
Defined.

(** a project whose planned start cannot be parsed makes
    [forecast_project_completion] catch an exception; the batch files
    its entry all the same *)
Example garbled_project_has_entry :
  is_Some (fst (App.generate_project_forecasts no_insights sample_config 50
                  sample_session) !! 7%Z).
Proof. vm_compute. eauto. Qed.

(** C8, as the code has it.  Once data is loaded,
    [App.generate_project_forecasts] returns the cached dictionary, and
    leaves the session alone, exactly when a non-empty cached dictionary
    exists whose timestamp is less than 3600 seconds before [now];
    otherwise it forecasts every project of the table anew and stores the
    new dictionary with [now] as its timestamp.  A dictionary generated
    an hour or more before the call is never returned from the cache. *)
Theorem forecast_cache_rule insights cfg now st :
  App.data_loaded st = true ->
  (forall cached,
      fresh_cache now st cached ->
      App.generate_project_forecasts insights cfg now st = (cached, st)) /\
  ((forall cached, ~ fresh_cache now st cached) ->
   App.generate_project_forecasts insights cfg now st
   = (App.forecast_all insights cfg now st,
      App.mkSession true (App.projects_df st)
        (Some (App.forecast_all insights cfg now st)) (Some now)
        (App.anomalies st)) /\
   forall p, p ∈ App.projects_df st ->
     is_Some (App.forecast_all insights cfg now st !! project_id p)) /\
  (forall generated_at,
      App.forecast_generated_at st = Some generated_at ->
      3600 <= App.total_seconds now generated_at ->
      forall cached, ~ fresh_cache now st cached).
Proof.
  intros Hl. split; [|split].
  - intros cached Hf. apply generate_serves_cache; [assumption|].
    now apply cached_forecasts_Some.
  - intros Hno. split.
    + apply generate_recomputes; [assumption|].
      destruct (App.cached_forecasts now st) as [c|] eqn:E; [|reflexivity].
      apply cached_forecasts_Some in E. now destruct (Hno c).
    + intros p Hp.
      destruct (forecast_all_covers insights cfg now st p Hp) as (q & _ & _ & ->).
      eauto.
  - intros g Hg Hold cached (_ & _ & g' & Hg' & Hlt).
    rewrite Hg in Hg'. injection Hg' as <-.
    apply (Qlt_not_le _ _ Hlt Hold).
Qed.

Lemma forecast_cache_rule_witness :
  App.generate_project_forecasts no_insights sample_config 50 sample_session
  = (App.forecast_all no_insights sample_config 50 sample_session,
     App.mkSession true (App.projects_df sample_session)
       (Some (App.forecast_all no_insights sample_config 50 sample_session))
       (Some 50) (App.anomalies sample_session)) /\
  forall p, p ∈ App.projects_df sample_session ->
    is_Some (App.forecast_all no_insights sample_config 50 sample_session
             !! project_id p).
Proof.
  apply (proj1 (proj2 (forecast_cache_rule no_insights sample_config 50
                         sample_session eq_refl))).
  intros cached (Hc & _). discriminate Hc.
Defined.

(** Before any data is loaded the function returns an empty dictionary
    and touches nothing: although no cached set is served, no forecast
    is computed and no generation timestamp is stored. *)
Lemma unloaded_session_counterexample :
  App.cached_forecasts 50 initial_session = None /\
  App.generate_project_forecasts no_insights sample_config 50 initial_session
  = (∅, initial_session) /\
  App.forecast_generated_at
    (snd (App.generate_project_forecasts no_insights sample_config 50
            initial_session)) <> Some 50.
Proof.
  split; [reflexivity|]. split; [reflexivity|]. discriminate.
Qed.

(** ** The ensemble forecast *)

Section EnsembleFacts.
Context `{SortValues}.
Import App.

Lemma same_fields_refl r : same_fields r r.
Proof. repeat split. Qed.

Lemma same_fields_trans r1 r2 r3 :
  same_fields r1 r2 -> same_fields r2 r3 -> same_fields r1 r3.
Proof.
  unfold same_fields. intros (?&?&?&?&?&?&?) (?&?&?&?&?&?&?).
  repeat split; congruence.
Qed.

Lemma same_fields_append name r : same_fields r (append_model name r).
Proof. repeat split. Qed.

Lemma evm_step_same now p ps pe r res r' :
  evm_step now p ps pe r = (res, r') -> same_fields r r'.
Proof.
  unfold evm_step, evm_default, bind, modify, ret, raise.
  destruct (spi p) as [s|]; [|intros [= <- <-]; apply same_fields_refl].
  destruct (cpi p) as [c|]; [|intros [= <- <-]; apply same_fields_refl].
  destruct (positive_num s); [|intros [= <- <-]; apply same_fields_refl].
  destruct (budget p); [destruct (ngt c 0)|];
    intros [= <- <-]; apply same_fields_append.
Qed.

Lemma trend_date_same cfg evm hs r res r' :
  trend_date cfg evm hs r = (res, r') -> same_fields r r'.
Proof.
  unfold trend_date, bind, lift, modify, ret, raise.
  destruct (avg_future _ _) as [e|avg]; [intros [= <- <-]; apply same_fields_refl|].
  destruct (Qlt_bool 0 avg); [|intros [= <- <-]; apply same_fields_refl].
  destruct (v_span evm) as [[pd el]|]; intros [= <- <-];
    [apply same_fields_append|apply same_fields_refl].
Qed.

Lemma trend_cost_same cfg p h hs r res r' :
  trend_cost cfg p h hs r = (res, r') -> r' = r.
Proof.
  unfold trend_cost, bind, lift, ret, raise.
  destruct (has_cpi h); [|now intros [= <- <-]].
  destruct (budget p); [|now intros [= <- <-]].
  destruct (actual_cost p); [|now intros [= <- <-]].
  destruct (LinReg.fit _ _); [now intros [= <- <-]|].
  destruct (has_spi h); [|now intros [= <- <-]].
  destruct (LinReg.predict _ _); [now intros [= <- <-]|].
  destruct (Qlt_bool _ _); now intros [= <- <-].
Qed.

Lemma trend_step_same cfg p h evm r res r' :
  trend_step cfg p h evm r = (res, r') -> same_fields r r'.
Proof.
  unfold trend_step.
  destruct h as [h|]; [|intros [= <- <-]; apply same_fields_refl].
  destruct (3 <=? _)%nat; [|intros [= <- <-]; apply same_fields_refl].
  unfold try_catch, bind.
  destruct (has_spi h).
  - destruct (trend_date _ _ _ r) as [[e|d] r1] eqn:Ed;
      apply trend_date_same in Ed.
    + intros [= <- <-]. exact Ed.
    + destruct (trend_cost _ _ _ _ r1) as [[e|c] r2] eqn:Ec;
        apply trend_cost_same in Ec; subst r2; intros [= <- <-]; exact Ed.
  - cbn. destruct (trend_cost _ _ _ _ r) as [[e|c] r2] eqn:Ec;
      apply trend_cost_same in Ec; subst r2; intros [= <- <-];
      apply same_fields_refl.
Qed.

(** the blend without a trend date: EVM date, confidence 0.6, and the
    cost blended 75/25 when there is a trend cost *)
Lemma blend_evm_only evm ml_cost r r' :
  blend_step evm (None, ml_cost) r = (inr tt, r') ->
  completion_date r' = Some (evm_completion_date evm) /\
  confidence r' = Some (6#10) /\
  final_cost r' = blended_cost ml_cost (evm_final_cost evm).
Proof.
  unfold blend_step, bind, lift, modify, ret, raise. cbn [fst snd].
  destruct ml_cost as [c|]; cbn [py_mul].
  - destruct (evm_final_cost evm) as [e|]; cbn; [|discriminate].
    intros [= <-]. cbn. auto.
  - destruct (evm_final_cost evm) as [e|]; cbn; [|discriminate].
    intros [= <-]. cbn. auto.
Qed.

(** whatever the blend does, the confidence it leaves is the old one,
    0.6 or 0.8 *)
Lemma blend_confidence evm ml r res r' :
  blend_step evm ml r = (res, r') ->
  confidence r' = confidence r \/
  (confidence r' = Some (6#10) /\ fst ml = None /\ res = inr tt) \/
  confidence r' = Some (8#10).
Proof.
  unfold blend_step, bind, lift, modify, ret, raise.
  destruct ml as [[d|] c]; cbn [fst snd timestamp_mul].
  - intros [= <- <-]. now left.
  - destruct c as [c|]; cbn [py_mul];
      (destruct (evm_final_cost evm) as [e|]; cbn;
       intros [= <- <-]; cbn; auto).
Qed.

End EnsembleFacts.

Section EnsembleRun.
Context `{SortValues}.
Import App.

(** the run of the function, step by step *)
Lemma ensemble_unfold cfg now p h :
  generate_ensemble_forecast cfg now p h
  = match read_planned (planned_start p), read_planned (planned_end p) with
    | inr (Some ps), inr (Some pe) =>
        match evm_step now p ps pe initial_results with
        | (inr evm, r1) =>
            match trend_step cfg p h evm r1 with
            | (inr ml, r2) => snd (blend_step evm ml r2)
            | (inl _, r2) => r2
            end
        | (inl _, r1) => r1
        end
    | _, _ => initial_results
    end.
Proof.
  unfold generate_ensemble_forecast, try_catch, bind, lift.
  destruct (read_planned (planned_start p)) as [e|[ps|]]; try reflexivity.
  destruct (read_planned (planned_end p)) as [e|[pe|]]; try reflexivity.
  cbn [ret].
  destruct (evm_step now p ps pe initial_results) as [[e|evm] r1]; try reflexivity.
  destruct (trend_step cfg p h evm r1) as [[e|ml] r2]; try reflexivity.
  destruct (blend_step evm ml r2) as [[e|[]] r3]; reflexivity.
Qed.

Lemma ensemble_run cfg now p h :
  let r := generate_ensemble_forecast cfg now p h in
  confidence r = None \/ confidence r = Some (8#10) \/
  (confidence r = Some (6#10) /\
   exists ps pe evm r1 ml_cost r2,
     read_planned (planned_start p) = inr (Some ps) /\
     read_planned (planned_end p) = inr (Some pe) /\
     evm_step now p ps pe initial_results = (inr evm, r1) /\
     trend_step cfg p h evm r1 = (inr (None, ml_cost), r2) /\
     completion_date r = Some (evm_completion_date evm) /\
     final_cost r = blended_cost ml_cost (evm_final_cost evm)).
Proof.
  cbv zeta. rewrite ensemble_unfold.
  destruct (read_planned (planned_start p)) as [e|[ps|]] eqn:Es;
    try (left; reflexivity).
  destruct (read_planned (planned_end p)) as [e|[pe|]] eqn:Ee;
    try (left; reflexivity).
  destruct (evm_step now p ps pe initial_results) as [[e|evm] r1] eqn:Eevm.
  { apply evm_step_same in Eevm as (_&_&_&_&_&_&Hc). left. exact Hc. }
  destruct (trend_step cfg p h evm r1) as [[e|ml] r2] eqn:Etr.
  { apply evm_step_same in Eevm as (_&_&_&_&_&_&Hc).
    apply trend_step_same in Etr as (_&_&_&_&_&_&Hc').
    cbn in *. left. congruence. }
  assert (Hc2 : confidence r2 = None).
  { pose proof (evm_step_same _ _ _ _ _ _ _ Eevm) as (_&_&_&_&_&_&Hc).
    pose proof (trend_step_same _ _ _ _ _ _ _ Etr) as (_&_&_&_&_&_&Hc').
    cbn in Hc. congruence. }
  destruct (blend_step evm ml r2) as [res r3] eqn:Ebl. cbn [snd].
  destruct (blend_confidence _ _ _ _ _ Ebl) as [Hc|[(Hc & Hml & ->)|Hc]].
  - left. congruence.
  - right. right. split; [exact Hc|].
    destruct ml as [d c]. cbn in Hml. subst d.
    destruct (blend_evm_only _ _ _ _ Ebl) as (Hd & _ & Hf).
    exists ps, pe, evm, r1, c, r2. repeat split; assumption || reflexivity.
  - right. left. exact Hc.
Qed.

End EnsembleRun.



(** With three months of rising SPI the trend date exists; the blend
    then multiplies a Timestamp by 0.75, the exception is caught, and the
    result comes back without dates, costs or confidence although both
    models are listed as used. *)
Example trend_blend_is_lost :
  App.generate_ensemble_forecast (H := insertion_sort_values)
    sample_config 50 trend_project (Some rising_history)
  = App.mkEnsemble None None None None None None None
      ["EVM"; "Linear Regression"]%string.
Proof. vm_compute. reflexivity. Qed.

(** ** Least squares *)

Section LeastSquares.
Import Stats StatsFacts LinReg.













End LeastSquares.

Section TrendFacts.
Context `{SortValues}.
Import App.










End TrendFacts.



(** three months of rising SPI (0.7, 0.8, 0.9, given out of order): the
    line projects 1.0, 1.1, 1.2, the mean 1.1 is positive, and the trend
    date is start + 50 + 50 / 1.1 *)
Example rising_trend_is_used :
  exists d c r',
    App.trend_step (H := insertion_sort_values) sample_config trend_project
      (Some rising_history) sample_evm App.initial_results
    = (inr (Some d, c), r') /\
    d == 50 + 50 / (11#10).
Proof.
  eexists _, _, _. split; [vm_compute; reflexivity|]. reflexivity.
Qed.

(** ** The attention filter *)

Section AttentionFacts.
Context `{SortValues}.
Import DataProcessor.



Lemma needs_attention_iff st ct p m :
  needs_attention st ct p m = true <->
  fst m < st \/ snd m < ct \/
  row_status p = "At Risk"%string \/ row_status p = "Delayed"%string.
Proof.
  unfold needs_attention. rewrite !orb_true_iff, !Qlt_bool_iff.
  rewrite bool_decide_eq_true, !elem_of_cons, elem_of_nil. tauto.
Qed.

Lemma attention_rows_elem projects history st ct row :
  row ∈ attention_rows projects history st ct <->
  exists p, p ∈ projects /\
    row = attention_row p (merged_metrics history p) /\
    (att_spi row < st \/ att_cpi row < ct \/
     row_status p = "At Risk"%string \/ row_status p = "Delayed"%string).
Proof.
  unfold attention_rows. rewrite list_elem_of_fmap. split.
  - intros (p & -> & Hp). apply list_elem_of_filter in Hp as [Hn Hp].
    exists p. split; [assumption|]. split; [reflexivity|].
    now apply needs_attention_iff in Hn.
  - intros (p & Hp & -> & Hn). exists p. split; [reflexivity|].
    apply list_elem_of_filter. split; [|assumption].
    now apply needs_attention_iff.
Qed.


End AttentionFacts.



(** SPI 0.70, 0.95, 1.05 and CPI 1.00, 0.80, 1.00 under thresholds 0.9:
    projects 1 and 2 qualify, with risk scores 0.15 and 0.125, in this
    order *)
Example attention_example :
  map (fun r => (DataProcessor.row_id (DataProcessor.att_project r),
                 Qred (DataProcessor.risk_score r)))
      (DataProcessor.get_projects_needing_attention (H := insertion_sort_values)
         three_projects three_histories (9#10) (9#10))
  = [(1%Z, 3#20); (2%Z, 1#8)].
Proof. vm_compute. reflexivity. Qed.


(** * Further properties *)

(** ** Rounding *)

Lemma py_int_floor (q : Q) : 0 <= q -> py_int q = Qfloor q.
Proof.
  intros Hq. destruct q as [n d]. unfold py_int, Qfloor. cbn.
  apply Z.quot_div_nonneg; [|lia].
  unfold Qle in Hq. cbn in Hq. lia.
Qed.

Lemma Qfloor_whole (q : Q) (z : Z) : q == inject_Z z -> Qfloor q = z.
Proof. intros E. rewrite E. apply Qfloor_Z. Qed.

Lemma Qmax_le_l a b : a <= Qmax a b.
Proof.
  unfold Qmax. destruct (Qlt_bool a b) eqn:E; [|lra].
  apply Qlt_bool_iff in E. lra.
Qed.

Lemma Qmax_le_r a b : b <= Qmax a b.
Proof.
  unfold Qmax. destruct (Qlt_bool a b) eqn:E; [lra|].
  apply Qlt_bool_false_iff in E. lra.
Qed.

Lemma Qmax_r a b : a <= b -> Qmax a b == b.
Proof.
  intros H. unfold Qmax. destruct (Qlt_bool a b) eqn:E; [reflexivity|].
  apply Qlt_bool_false_iff in E. lra.
Qed.

Lemma Qmax_l a b : b <= a -> Qmax a b == a.
Proof.
  intros H. unfold Qmax. destruct (Qlt_bool a b) eqn:E; [|reflexivity].
  apply Qlt_bool_iff in E. lra.
Qed.

Lemma Qmin_le_l a b : Qmin a b <= a.
Proof.
  unfold Qmin. destruct (Qlt_bool b a) eqn:E; [|lra].
  apply Qlt_bool_iff in E. lra.
Qed.


Lemma Qmin_glb a b c : c <= a -> c <= b -> c <= Qmin a b.
Proof. intros. unfold Qmin. destruct (Qlt_bool b a); assumption. Qed.

(** ** [App.forecast_project_completion], schedule half *)

Section ScheduleFacts.
Import App.

(** what the schedule half computes when both dates are Timestamps and
    SPI is positive *)
Lemma forecast_schedule_stamps now p ts te s f :
  planned_start p = Some (Stamp ts) -> planned_end p = Some (Stamp te) ->
  known (spi p) = Some s -> 0 < s ->
  let planned_duration := days (te - ts) in
  let elapsed_days := if Qlt_bool now ts then 0%Z else days (now - ts) in
  let remaining := Qmax 0 (inject_Z (planned_duration - elapsed_days) / s) in
  let date := ts + (inject_Z elapsed_days + remaining) in
  forecast_schedule now p f
  = (inr tt, set_schedule date (days (date - te))
               (if Qle_bool s 1 then py_int (70 * s) else 70%Z) f).
Proof.
  intros Hs He Hspi Hpos. cbv zeta. unfold forecast_schedule.
  rewrite Hs, He, Hspi. cbn [known_date].
  apply Qlt_bool_iff in Hpos. rewrite Hpos. reflexivity.
Qed.

(** the cost half and the risk factors leave the schedule fields alone *)
Lemma forecast_schedule_fields cfg now p f1 :
  forecast_schedule now p initial_forecast = (inr tt, f1) ->
  forecast_completion_date (forecast_project_completion cfg now p)
  = forecast_completion_date f1 /\
  schedule_variance_days (forecast_project_completion cfg now p)
  = schedule_variance_days f1 /\
  completion_confidence (forecast_project_completion cfg now p)
  = completion_confidence f1.
Proof.
  intros Hs. unfold forecast_project_completion, try_catch, bind. rewrite Hs.
  unfold forecast_cost.
  destruct (known (budget p)) as [b|]; [destruct (known (cpi p)) as [c|];
    [destruct (Qlt_bool 0 c)|]|]; cbn; auto.
Qed.

Lemma forecast_schedule_raises cfg now p e f1 :
  forecast_schedule now p initial_forecast = (inl e, f1) ->
  forecast_project_completion cfg now p = initial_forecast.
Proof.
  intros Hs. unfold forecast_project_completion, try_catch, bind. rewrite Hs.
  cbn. unfold forecast_schedule in Hs.
  destruct (known_date (planned_end p)); [|discriminate].
  destruct (known_date (planned_start p)); [|discriminate].
  destruct (known (spi p)) as [v|]; [|discriminate].
  destruct (Qlt_bool 0 v); [|discriminate].
  unfold bind, lift in Hs.
  destruct (to_timestamp d0); [now injection Hs as _ <-|].
  destruct (to_timestamp d); [now injection Hs as _ <-|]. discriminate.
Qed.

(** X1.  A project exactly on plan does not drift: with SPI 1, the clock
    at the planned start and a planned duration of a whole, non-negative
    number of days, the forecast completion date is the planned end and
    the schedule variance is 0 days. *)
Theorem on_plan_no_drift cfg p ts te s (d : Z) :
  planned_start p = Some (Stamp ts) -> planned_end p = Some (Stamp te) ->
  known (spi p) = Some s -> s == 1 ->
  te - ts == inject_Z d -> (0 <= d)%Z ->
  schedule_variance_days (forecast_project_completion cfg ts p) = 0%Z /\
  exists date,
    forecast_completion_date (forecast_project_completion cfg ts p) = Some date /\
    date == te.
Proof.
  intros Hs He Hspi H1 Hd Hd0.
  assert (Hpos : 0 < s) by (rewrite H1; lra).
  pose proof (forecast_schedule_stamps ts p ts te s initial_forecast Hs He Hspi Hpos)
    as Hrun. cbv zeta in Hrun.
  destruct (forecast_schedule_fields cfg ts p _ Hrun) as (Hdate & Hvar & _).
  rewrite Hdate, Hvar. cbn [set_schedule forecast_completion_date schedule_variance_days].
  assert (Hno : Qlt_bool ts ts = false) by (apply Qlt_bool_false_iff; lra).
  rewrite Hno.
  assert (Hdur : days (te - ts) = d) by (now apply Qfloor_whole).
  assert (Hel : days (ts - ts) = 0%Z) by (apply Qfloor_whole; cbn; ring).
  rewrite Hdur, Hel.
  assert (Hrem : Qmax 0 (inject_Z (d - 0) / s) == inject_Z d).
  { rewrite Z.sub_0_r. rewrite Qmax_r.
    - rewrite H1. field.
    - rewrite H1. assert (0 <= inject_Z d).
      { change 0 with (inject_Z 0). rewrite <- Zle_Qle. lia. }
      assert (E : inject_Z d / 1 == inject_Z d) by field.
      rewrite E. assumption. }
  assert (Hdate' : ts + (inject_Z 0 + Qmax 0 (inject_Z (d - 0) / s)) == te).
  { rewrite Hrem. change (inject_Z 0) with 0. lra. }
  split.
  - apply Qfloor_whole. rewrite Hdate'. cbn. ring.
  - eexists. split; [reflexivity|exact Hdate'].
Qed.

Lemma on_plan_no_drift_witness :
  schedule_variance_days
    (forecast_project_completion sample_config 0 (cost_project 200 1 120)) = 0%Z /\
  exists date,
    forecast_completion_date
      (forecast_project_completion sample_config 0 (cost_project 200 1 120))
    = Some date /\ date == 100.
Proof.
  apply (on_plan_no_drift sample_config (cost_project 200 1 120) 0 100 1 100).
  - reflexivity.
  - reflexivity.
  - reflexivity.
  - reflexivity.
  - reflexivity.
  - lia.
Defined.

End ScheduleFacts.

Section ScheduleOutcome.
Import App.

Lemma elapsed_since_nonneg now start : (0 <= elapsed_since now start)%Z.
Proof.
  unfold elapsed_since. destruct (Qlt_bool now start) eqn:E; [lia|].
  apply Qlt_bool_false_iff in E. unfold days.
  assert (H : (Qfloor 0 <= Qfloor (now - start))%Z) by (apply Qfloor_resp_le; lra).
  exact H.
Qed.

(** the schedule fields of the result: untouched, or computed from the
    two dates and a positive SPI *)
Lemma schedule_outcome cfg now p :
  let f := forecast_project_completion cfg now p in
  (forecast_completion_date f = None /\ schedule_variance_days f = 0%Z /\
   completion_confidence f = 0%Z) \/
  (exists ts te s,
     date_value (planned_start p) = Some ts /\
     date_value (planned_end p) = Some te /\
     known (spi p) = Some s /\ 0 < s /\
     let remaining :=
       Qmax 0 (inject_Z (days (te - ts) - elapsed_since now ts) / s) in
     let date := ts + (inject_Z (elapsed_since now ts) + remaining) in
     forecast_completion_date f = Some date /\
     schedule_variance_days f = days (date - te) /\
     completion_confidence f
     = (if Qle_bool s 1 then py_int (70 * s) else 70%Z)).
Proof.
  cbv zeta.
  destruct (forecast_schedule now p initial_forecast) as [[e|[]] f1] eqn:Hrun.
  { left. rewrite (forecast_schedule_raises cfg now p e f1 Hrun). auto. }
  destruct (forecast_schedule_fields cfg now p f1 Hrun) as (-> & -> & ->).
  unfold forecast_schedule in Hrun.
  destruct (known_date (planned_end p)) as [pe|] eqn:Ee;
    [|injection Hrun as <-; left; auto].
  destruct (known_date (planned_start p)) as [ps|] eqn:Es;
    [|injection Hrun as <-; left; auto].
  destruct (known (spi p)) as [s|] eqn:Espi; [|injection Hrun as <-; left; auto].
  destruct (Qlt_bool 0 s) eqn:Epos; [|injection Hrun as <-; left; auto].
  apply Qlt_bool_iff in Epos.
  unfold bind, lift in Hrun.
  destruct (to_timestamp ps) as [e|ts] eqn:Ets; [discriminate|].
  destruct (to_timestamp pe) as [e|te] eqn:Ete; [discriminate|].
  cbn in Hrun. injection Hrun as <-.
  right. exists ts, te, s.
  assert (Hs : date_value (planned_start p) = Some ts).
  { unfold known_date in Es. unfold date_value.
    destruct (planned_start p) as [[|t|[t|]]|]; try discriminate;
      injection Es as <-; cbn in Ets; congruence. }
  assert (He : date_value (planned_end p) = Some te).
  { unfold known_date in Ee. unfold date_value.
    destruct (planned_end p) as [[|t|[t|]]|]; try discriminate;
      injection Ee as <-; cbn in Ete; congruence. }
  repeat split; try assumption; reflexivity.
Qed.

(** X2.  The completion confidence of [App.forecast_project_completion]
    is a whole number between 0 and 70, whatever the project. *)
Theorem completion_confidence_bounds cfg now p :
  (0 <= completion_confidence (forecast_project_completion cfg now p) <= 70)%Z.
Proof.
  destruct (schedule_outcome cfg now p) as [(_ & _ & ->)|H]; [lia|].
  destruct H as (ts & te & s & _ & _ & _ & Hpos & _ & _ & ->).
  destruct (Qle_bool s 1) eqn:E; [|lia].
  apply Qle_bool_iff in E.
  rewrite py_int_floor by lra.
  assert (H0 : (Qfloor 0 <= Qfloor (70 * s))%Z) by (apply Qfloor_resp_le; lra).
  assert (H70 : (Qfloor (70 * s) <= Qfloor 70)%Z) by (apply Qfloor_resp_le; lra).
  change (Qfloor 0) with 0%Z in H0. change (Qfloor 70) with 70%Z in H70. lia.
Qed.

(** X3.  A forecast completion date, when there is one, is never before
    the planned start plus the whole days already elapsed; and when the
    planned start and end coincide (duration 0) nothing is divided by a
    zero duration: the date is the start plus the elapsed days and the
    variance is the number of elapsed days. *)
Theorem forecast_date_not_before_elapsed cfg now p date :
  forecast_completion_date (forecast_project_completion cfg now p) = Some date ->
  exists ts te,
    date_value (planned_start p) = Some ts /\
    date_value (planned_end p) = Some te /\
    ts + inject_Z (elapsed_since now ts) <= date /\
    ts <= date /\
    (te == ts ->
     date == ts + inject_Z (elapsed_since now ts) /\
     schedule_variance_days (forecast_project_completion cfg now p)
     = elapsed_since now ts).
Proof.
  intros Hdate.
  destruct (schedule_outcome cfg now p) as [(Hn & _)|H]; [congruence|].
  destruct H as (ts & te & s & Hs & He & _ & Hpos & Hd & Hv & _).
  cbv zeta in Hd, Hv. rewrite Hd in Hdate. injection Hdate as <-.
  exists ts, te. split; [assumption|]. split; [assumption|].
  pose proof (elapsed_since_nonneg now ts) as Hel.
  assert (Hel' : 0 <= inject_Z (elapsed_since now ts)).
  { change 0 with (inject_Z 0). rewrite <- Zle_Qle. exact Hel. }
  pose proof (Qmax_le_l 0 (inject_Z (days (te - ts) - elapsed_since now ts) / s))
    as Hrem.
  split; [|split].
  { set (r := Qmax 0 _) in *. lra. }
  { set (r := Qmax 0 _) in *. lra. }
  intros Heq.
  assert (Hdur : days (te - ts) = 0%Z).
  { apply Qfloor_whole. rewrite Heq. cbn. ring. }
  assert (Hzero : Qmax 0 (inject_Z (days (te - ts) - elapsed_since now ts) / s) == 0).
  { apply Qmax_l. rewrite Hdur.
    assert (Hneg : inject_Z (0 - elapsed_since now ts) <= inject_Z 0).
    { rewrite <- Zle_Qle. lia. }
    change (inject_Z 0) with 0 in Hneg.
    apply Qle_shift_div_r; [assumption|]. lra. }
  split.
  - rewrite Hzero. ring.
  - rewrite Hv. apply Qfloor_whole. rewrite Hzero, Heq. ring.
Qed.

Lemma forecast_date_not_before_elapsed_witness :
  exists ts te,
    date_value (planned_start (cost_project 200 1 120)) = Some ts /\
    date_value (planned_end (cost_project 200 1 120)) = Some te /\
    ts + inject_Z (elapsed_since 50 ts) <= 0 + (inject_Z 50 + Qmax 0 (inject_Z (100 - 50) / 1)) /\
    ts <= 0 + (inject_Z 50 + Qmax 0 (inject_Z (100 - 50) / 1)) /\
    (te == ts ->
     0 + (inject_Z 50 + Qmax 0 (inject_Z (100 - 50) / 1))
     == ts + inject_Z (elapsed_since 50 ts) /\
     schedule_variance_days
       (forecast_project_completion sample_config 50 (cost_project 200 1 120))
     = elapsed_since 50 ts).
Proof.
  apply (forecast_date_not_before_elapsed sample_config 50 (cost_project 200 1 120)).
  reflexivity.
Defined.

End ScheduleOutcome.

(** ** [App.forecast_project_completion], cost half and risk factors *)

Section CostAndRisk.
Import App.


Lemma div_by_fraction_grows x c : 0 <= x -> 0 < c -> c <= 1 -> x <= x / c.
Proof.
  intros Hx Hc Hc1. apply Qle_shift_div_l; [assumption|].
  assert (H : 0 <= x * (1 - c)) by (apply Qmult_le_0_compat; lra).
  lra.
Qed.

Lemma div_by_surplus_shrinks x c : 0 <= x -> 1 <= c -> x / c <= x.
Proof.
  intros Hx Hc. apply Qle_shift_div_r; [lra|].
  assert (H : 0 <= x * (c - 1)) by (apply Qmult_le_0_compat; lra).
  lra.
Qed.









(** X6.  One planned date that is a string [pd.to_datetime] cannot read
    costs the whole forecast: when both dates are present and SPI is
    positive, the exception is caught before anything was assigned, and
    the result is the initial dictionary, without cost forecast and
    without risk factors, whatever the other fields say. *)
Theorem garbled_date_loses_forecast cfg now p s :
  known_date (planned_start p) <> None -> known_date (planned_end p) <> None ->
  known (spi p) = Some s -> 0 < s ->
  planned_start p = Some (DateStr None) \/ planned_end p = Some (DateStr None) ->
  forecast_project_completion cfg now p = initial_forecast.
Proof.
  intros Hs He Hspi Hpos Hbad.
  destruct (forecast_schedule now p initial_forecast) as [[e|[]] f1] eqn:Hrun.
  { eapply forecast_schedule_raises; eauto. }
  exfalso. unfold forecast_schedule in Hrun.
  destruct (known_date (planned_end p)) as [pe|] eqn:Ee; [|congruence].
  destruct (known_date (planned_start p)) as [ps|] eqn:Es; [|congruence].
  rewrite Hspi in Hrun. apply Qlt_bool_iff in Hpos. rewrite Hpos in Hrun.
  unfold bind, lift in Hrun.
  destruct Hbad as [Hb|Hb]; rewrite Hb in *; cbn in *.
  - injection Es as <-. cbn in Hrun. discriminate.
  - injection Ee as <-. destruct (to_timestamp ps); cbn in Hrun; discriminate.
Qed.

Lemma garbled_date_loses_forecast_witness :
  forecast_project_completion sample_config 50 garbled_project = initial_forecast.
Proof.
  apply (garbled_date_loses_forecast sample_config 50 garbled_project (8#10)).
  - discriminate.
  - discriminate.
  - reflexivity.
  - reflexivity.
  - left. reflexivity.
Defined.

End CostAndRisk.

(** ** [PredictiveAnalytics.predict_project_completion] *)

Lemma py_int_nonpos (q : Q) : q <= 0 -> py_int q = (- Qfloor (- q))%Z.
Proof.
  intros Hq. destruct q as [n d]. unfold py_int, Qfloor, Qopp. cbn.
  unfold Qle in Hq. cbn in Hq.
  rewrite <- (Z.opp_involutive n) at 1.
  rewrite Z.quot_opp_l by lia. f_equal.
  apply Z.quot_div_nonneg; lia.
Qed.

Lemma py_int_nonneg (q : Q) : 0 <= q -> (0 <= py_int q)%Z.
Proof.
  intros Hq. rewrite py_int_floor by assumption.
  change 0%Z with (Qfloor 0). now apply Qfloor_resp_le.
Qed.

Lemma py_int_whole (q : Q) (z : Z) : q == inject_Z z -> py_int q = z.
Proof.
  intros E. destruct (Z.le_gt_cases 0 z) as [Hz|Hz].
  - rewrite py_int_floor; [now apply Qfloor_whole|].
    rewrite E. change 0 with (inject_Z 0). now rewrite <- Zle_Qle.
  - rewrite py_int_nonpos.
    + rewrite (Qfloor_whole (- q) (- z)); [lia|].
      rewrite E, inject_Z_opp. reflexivity.
    + rewrite E. change 0 with (inject_Z 0). rewrite <- Zle_Qle. lia.
Qed.

Section PredictiveForecast.
Import PredictiveAnalytics.

(** the run on Timestamps, a budget and usable task columns *)
Lemma predict_run now p tasks ts te b progress0 spi_v cpi_v :
  planned_start p = Some (Stamp ts) -> planned_end p = Some (Stamp te) ->
  budget p = Some b ->
  progress_spi_cpi tasks (days (te - ts)) (days (now - ts))
  = inr (progress0, spi_v, cpi_v) ->
  let planned_duration := days (te - ts) in
  let elapsed_days := days (now - ts) in
  let progress_pct := Qmin 1 progress0 in
  let remaining_duration := (planned_duration - elapsed_days)%Z in
  let remaining_days :=
    py_int (Qmax 0 (if Qlt_bool 0 spi_v
                    then inject_Z remaining_duration / spi_v
                    else inject_Z remaining_duration * 2)) in
  let spent := nmul b (Some progress_pct) in
  let eac := if Qlt_bool 0 cpi_v
             then nadd spent (ndiv (nsub b spent) (Some cpi_v))
             else nmul b (Some 2) in
  predict_project_completion now p tasks
  = inr (mkPrediction (ts + inject_Z (elapsed_days + remaining_days))
           (remaining_days - remaining_duration) eac (nsub eac b)
           (index_confidence spi_v) (index_confidence cpi_v)
           (inject_Z (index_confidence spi_v + index_confidence cpi_v) / 2)
           (progress_pct * 100)).
Proof.
  intros Hs He Hb Hp. cbv zeta. unfold predict_project_completion.
  rewrite Hs, He. cbn [stamp_of]. rewrite Hp, Hb. reflexivity.
Qed.

(** a result means Timestamps, a budget key and usable task columns *)
Lemma predict_returns now p tasks r :
  predict_project_completion now p tasks = inr r ->
  exists ts te b progress0 spi_v cpi_v,
    planned_start p = Some (Stamp ts) /\ planned_end p = Some (Stamp te) /\
    budget p = Some b /\
    progress_spi_cpi tasks (days (te - ts)) (days (now - ts))
    = inr (progress0, spi_v, cpi_v).
Proof.
  intros Hrun. unfold predict_project_completion in Hrun.
  destruct (planned_end p) as [[|te|]|]; try discriminate.
  destruct (planned_start p) as [[|ts|]|]; try discriminate.
  cbn [stamp_of] in Hrun.
  destruct (progress_spi_cpi _ _ _) as [e|[[pr s] c]] eqn:E; [discriminate|].
  destruct (budget p) as [b|]; [|discriminate].
  exists ts, te, b, pr, s, c. auto.
Qed.

Lemma index_confidence_le x : (index_confidence x <= 100)%Z.
Proof. unfold index_confidence. apply Z.le_min_l. Qed.

Lemma index_confidence_full x : index_confidence x = 100%Z <-> x == 1.
Proof.
  unfold index_confidence.
  set (v := 100 * (1 - (1#2) * Qabs (1 - x))).
  assert (Habs : 0 <= Qabs (1 - x)) by apply Qabs_nonneg.
  assert (Hv : v == 100 - 50 * Qabs (1 - x)) by (unfold v; ring).
  split.
  - intros H.
    assert (H100 : (100 <= py_int v)%Z) by lia.
    destruct (Qlt_le_dec v 0) as [Hneg|Hpos].
    { rewrite py_int_nonpos in H100 by lra.
      assert (0 <= Qfloor (- v))%Z
        by (change 0%Z with (Qfloor 0); apply Qfloor_resp_le; lra).
      lia. }
    rewrite py_int_floor in H100 by assumption.
    assert (Hf : inject_Z (Qfloor v) <= v) by apply Qfloor_le.
    assert (H' : inject_Z 100 <= inject_Z (Qfloor v)) by now rewrite <- Zle_Qle.
    change (inject_Z 100) with 100 in H'.
    assert (Hz : Qabs (1 - x) == 0) by lra.
    assert (Hle : Qabs (1 - x) <= 0) by (rewrite Hz; lra).
    apply Qabs_Qle_condition in Hle. lra.
  - intros E.
    assert (Hv1 : v == inject_Z 100).
    { unfold v. rewrite E. reflexivity. }
    rewrite (py_int_whole v 100 Hv1). reflexivity.
Qed.

Lemma total_nil f tasks : task_rows tasks = [] -> total f tasks == 0.
Proof. intros E. unfold total. rewrite E. reflexivity. Qed.

(** X7.  With an empty task table, Timestamps for both planned dates and
    a numeric budget, the predictive forecaster takes SPI = CPI = 1: the
    forecast cost is the budget, the cost variance 0, both confidences
    100, the completion date the planned start plus the larger of the
    elapsed and the planned whole days, and the schedule variance the
    number of days the project is overdue (0 when it is not). *)
Theorem predict_without_tasks now p tasks ts te b :
  task_rows tasks = [] ->
  planned_start p = Some (Stamp ts) -> planned_end p = Some (Stamp te) ->
  budget p = Some (Some b) ->
  exists r c v,
    predict_project_completion now p tasks = inr r /\
    forecast_cost r = Some c /\ c == b /\
    cost_variance r = Some v /\ v == 0 /\
    schedule_confidence r = 100%Z /\ cost_confidence r = 100%Z /\
    overall_confidence r == 100 /\
    forecast_completion_date r
    = ts + inject_Z (Z.max (days (now - ts)) (days (te - ts))) /\
    schedule_variance_days r = Z.max 0 (days (now - ts) - days (te - ts)).
Proof.
  intros Hrows Hs He Hb.
  set (pd := days (te - ts)). set (el := days (now - ts)).
  assert (Hp : exists pr, progress_spi_cpi tasks pd el = inr (pr, 1, 1)).
  { unfold progress_spi_cpi. rewrite Hrows. eauto. }
  destruct Hp as (pr & Hp).
  rewrite (predict_run now p tasks ts te (Some b) pr 1 1 Hs He Hb Hp).
  fold pd el. change (Qlt_bool 0 1) with true. cbv iota.
  assert (Hrem : py_int (Qmax 0 (inject_Z (pd - el) / 1)) = Z.max 0 (pd - el)).
  { destruct (Z.le_gt_cases (pd - el) 0) as [Hle|Hgt].
    - rewrite Z.max_l by assumption. apply py_int_whole.
      apply Qmax_l.
      assert (E : inject_Z (pd - el) / 1 == inject_Z (pd - el)) by field.
      rewrite E. change 0 with (inject_Z 0). now rewrite <- Zle_Qle.
    - rewrite Z.max_r by lia. apply py_int_whole.
      rewrite Qmax_r; [field|].
      assert (E : inject_Z (pd - el) / 1 == inject_Z (pd - el)) by field.
      rewrite E. change 0 with (inject_Z 0). rewrite <- Zle_Qle. lia. }
  rewrite Hrem. cbn [nmul nadd nsub ndiv nlift2].
  eexists _, _, _. split; [reflexivity|]. cbn.
  split; [reflexivity|]. split; [field|].
  split; [reflexivity|]. split; [field|].
  split; [reflexivity|]. split; [reflexivity|]. split; [reflexivity|].
  split; [f_equal; f_equal; lia|lia].
Qed.

Lemma predict_without_tasks_witness :
  exists r c v,
    predict_project_completion 130 (cost_project 200 1 50) (mkTasks [] true true)
    = inr r /\
    forecast_cost r = Some c /\ c == 200 /\
    cost_variance r = Some v /\ v == 0 /\
    schedule_confidence r = 100%Z /\ cost_confidence r = 100%Z /\
    overall_confidence r == 100 /\
    forecast_completion_date r
    = 0 + inject_Z (Z.max (days (130 - 0)) (days (100 - 0))) /\
    schedule_variance_days r = Z.max 0 (days (130 - 0) - days (100 - 0)).
Proof.
  apply (predict_without_tasks 130 (cost_project 200 1 50) (mkTasks [] true true)
           0 100 200); reflexivity.
Defined.

(** X8.  Whatever the predictive forecaster returns keeps these bounds:
    progress is at most 100 percent, each confidence at most 100, and the
    completion date lies less than a day before the moment of the call,
    however late the project is. *)
Theorem prediction_bounds now p tasks r :
  predict_project_completion now p tasks = inr r ->
  progress_percentage r <= 100 /\
  (schedule_confidence r <= 100)%Z /\ (cost_confidence r <= 100)%Z /\
  overall_confidence r <= 100 /\
  now - 1 < forecast_completion_date r.
Proof.
  intros Hrun.
  destruct (predict_returns now p tasks r Hrun)
    as (ts & te & b & pr & s & c & Hs & He & Hb & Hp).
  pose proof (predict_run now p tasks ts te b pr s c Hs He Hb Hp) as Hrun'.
  cbv zeta in Hrun'. set (el := days (now - ts)) in *.
  set (pd := days (te - ts)) in *.
  rewrite Hrun' in Hrun. injection Hrun as <-.
  cbn [progress_percentage schedule_confidence cost_confidence
       overall_confidence forecast_completion_date].
  pose proof (index_confidence_le s) as H1.
  pose proof (index_confidence_le c) as H2.
  split.
  { pose proof (Qmin_le_l 1 pr). lra. }
  split; [exact H1|]. split; [exact H2|]. split.
  { apply Qle_shift_div_r; [reflexivity|].
    change (100 * 2) with (inject_Z 200). rewrite <- Zle_Qle. lia. }
  set (adj := Qmax 0 _).
  assert (Hadj : (0 <= py_int adj)%Z) by (apply py_int_nonneg, Qmax_le_l).
  rewrite inject_Z_plus.
  pose proof (Qlt_floor (now - ts)) as Hfl.
  rewrite inject_Z_plus in Hfl. change (inject_Z 1) with 1 in Hfl.
  change (Qfloor (now - ts)) with el in Hfl.
  assert (Hq : 0 <= inject_Z (py_int adj))
    by (change 0 with (inject_Z 0); now rewrite <- Zle_Qle).
  lra.
Qed.

Lemma prediction_bounds_witness :
  exists r,
    predict_project_completion 130 (cost_project 200 1 50) (one_task 100 50 40)
    = inr r /\
    progress_percentage r <= 100 /\
    (schedule_confidence r <= 100)%Z /\ (cost_confidence r <= 100)%Z /\
    overall_confidence r <= 100 /\
    130 - 1 < forecast_completion_date r.
Proof.
  eexists. split; [reflexivity|].
  apply (prediction_bounds 130 (cost_project 200 1 50) (one_task 100 50 40)).
  reflexivity.
Defined.

Lemma index_confidence_negative x : 3 + (1#50) <= x -> (index_confidence x < 0)%Z.
Proof.
  intros Hx. unfold index_confidence.
  set (v := 100 * (1 - (1#2) * Qabs (1 - x))).
  assert (Ha : Qabs (1 - x) == x - 1).
  { rewrite Qabs_neg by lra. ring. }
  assert (Hv : v <= -1) by (unfold v; rewrite Ha; lra).
  rewrite py_int_nonpos by lra.
  assert (1 <= Qfloor (- v))%Z
    by (change 1%Z with (Qfloor 1); apply Qfloor_resp_le; lra).
  lia.
Qed.

(** X9.  The cost confidence of the predictive forecaster punishes a
    deviation of the CPI from 1 in either direction: for tasks with
    positive planned and actual totals it is 100 exactly when earned value
    equals actual cost, and it is negative once the earned value is 3.02
    times the actual cost or more. *)
Theorem cost_confidence_two_sided now p tasks r :
  predict_project_completion now p tasks = inr r ->
  task_rows tasks <> [] ->
  0 < total planned_cost tasks -> 0 < total task_actual_cost tasks ->
  (cost_confidence r = 100%Z <->
   total earned_value tasks == total task_actual_cost tasks) /\
  ((3 + (1#50)) * total task_actual_cost tasks <= total earned_value tasks ->
   (cost_confidence r < 0)%Z).
Proof.
  intros Hrun Hne Hpv Hac.
  destruct (predict_returns now p tasks r Hrun)
    as (ts & te & b & pr & s & c & Hs & He & Hb & Hp).
  rewrite (predict_run now p tasks ts te b pr s c Hs He Hb Hp) in Hrun.
  injection Hrun as <-. cbn [cost_confidence].
  unfold progress_spi_cpi in Hp.
  destruct (task_rows tasks) as [|t rest] eqn:Erows; [congruence|].
  destruct (has_earned_value tasks && has_actual_cost tasks); [|discriminate].
  apply Qlt_bool_iff in Hpv. rewrite Hpv in Hp.
  pose proof Hac as Hac'. apply Qlt_bool_iff in Hac'. rewrite Hac' in Hp.
  injection Hp as _ _ <-.
  set (ev := total earned_value tasks) in *.
  set (ac := total task_actual_cost tasks) in *.
  split.
  - rewrite index_confidence_full. split; intros E.
    + assert (E' : ev == (ev / ac) * ac) by (field; lra).
      rewrite E' , E. ring.
    + rewrite E. field. lra.
  - intros Hbig. apply index_confidence_negative.
    apply Qle_shift_div_l; assumption.
Qed.

Lemma cost_confidence_two_sided_witness :
  exists r,
    predict_project_completion 50 (cost_project 200 1 50) (one_task 100 80 20)
    = inr r /\
    (cost_confidence r = 100%Z <->
     total earned_value (one_task 100 80 20)
     == total task_actual_cost (one_task 100 80 20)) /\
    ((3 + (1#50)) * total task_actual_cost (one_task 100 80 20)
     <= total earned_value (one_task 100 80 20) ->
     (cost_confidence r < 0)%Z).
Proof.
  eexists. split; [reflexivity|].
  apply (cost_confidence_two_sided 50 (cost_project 200 1 50) (one_task 100 80 20)).
  - reflexivity.
  - discriminate.
  - reflexivity.
  - reflexivity.
Defined.


End PredictiveForecast.


(** ** [AdvancedAnalytics.forecast_project_completion] *)

Section AdvancedForecast.
Import AdvancedAnalytics.

Lemma advanced_run now p tasks ts te b :
  task_rows tasks <> [] ->
  planned_start p = Some (Stamp ts) -> planned_end p = Some (Stamp te) ->
  budget p = Some b ->
  let spi_v :=
    fst (spi_cpi (planned_total tasks) (earned_total tasks) (actual_total tasks)) in
  let cpi_v :=
    snd (spi_cpi (planned_total tasks) (earned_total tasks) (actual_total tasks)) in
  let planned_duration := days (te - ts) in
  let elapsed_days := days (now - ts) in
  let remaining_duration :=
    if Qlt_bool 0 spi_v
    then inject_Z (planned_duration - elapsed_days) / spi_v
    else inject_Z (planned_duration - elapsed_days) in
  let date := ts + (inject_Z elapsed_days + remaining_duration) in
  let cost :=
    if Qlt_bool 0 cpi_v
    then nadd (Some (actual_total tasks))
              (ndiv (nsub b (Some (earned_total tasks))) (Some cpi_v))
    else nmul b (Some (15#10)) in
  forecast_project_completion now (Some p) tasks
  = inr (mkResults (Some date) (Some cost) (Some (days (date - te)))
           (Some (nsub cost b))
           (Some (py_int ((Qmin 1 spi_v * (1#2) + Qmin 1 cpi_v * (1#2)) * 100)))).
Proof.
  intros Hne Hs He Hb. cbv zeta. unfold forecast_project_completion.
  destruct (task_rows tasks) as [|t rest] eqn:Erows; [congruence|].
  fold (planned_total tasks) (earned_total tasks) (actual_total tasks).
  destruct (spi_cpi _ _ _) as [s c].
  rewrite Hs, He, Hb. cbn [stamp_of require fst snd]. reflexivity.
Qed.

Lemma advanced_returns now p tasks r :
  forecast_project_completion now (Some p) tasks = inr r ->
  task_rows tasks <> [] ->
  exists ts te b,
    planned_start p = Some (Stamp ts) /\ planned_end p = Some (Stamp te) /\
    budget p = Some b.
Proof.
  intros Hrun Hne. unfold forecast_project_completion in Hrun.
  destruct (task_rows tasks) as [|t rest]; [congruence|].
  destruct (spi_cpi _ _ _) as [s c].
  destruct (planned_end p) as [[|te|]|]; try discriminate.
  destruct (planned_start p) as [[|ts|]|]; try discriminate.
  destruct (budget p) as [b|]; [|discriminate].
  exists ts, te, b. auto.
Qed.

(** X11.  The result of the advanced forecaster is all or nothing: with
    no project or an empty task table all five entries are [None] (and no
    date or budget is looked at, so nothing can raise); otherwise a
    returned result has all five entries set. *)
Theorem advanced_all_or_nothing now project tasks :
  (project = None \/ task_rows tasks = [] ->
   forecast_project_completion now project tasks = inr empty_results) /\
  (forall r,
      forecast_project_completion now project tasks = inr r ->
      project <> None -> task_rows tasks <> [] ->
      forecast_completion_date r <> None /\ forecast_final_cost r <> None /\
      schedule_variance_days r <> None /\ cost_variance r <> None /\
      completion_confidence r <> None).
Proof.
  split.
  - intros [->|E]; [reflexivity|].
    unfold forecast_project_completion. rewrite E. now destruct project.
  - intros r Hrun Hp Hne. destruct project as [p|]; [|congruence].
    destruct (advanced_returns now p tasks r Hrun Hne)
      as (ts & te & b & Hs & He & Hb).
    rewrite (advanced_run now p tasks ts te b Hne Hs He Hb) in Hrun.
    injection Hrun as <-. cbn. repeat split; discriminate.
Qed.

Lemma advanced_all_or_nothing_witness :
  forecast_project_completion 50 (Some garbled_project) (mkTasks [] true true)
  = inr empty_results.
Proof.
  apply (proj1 (advanced_all_or_nothing 50 (Some garbled_project)
                  (mkTasks [] true true))).
  right. reflexivity.
Defined.

Lemma spi_cpi_nonneg pv ev ac :
  0 <= ev -> 0 <= fst (spi_cpi pv ev ac) /\ 0 <= snd (spi_cpi pv ev ac).
Proof.
  intros Hev. unfold spi_cpi.
  destruct (Qlt_bool 0 pv) eqn:Epv; [|cbn; lra].
  apply Qlt_bool_iff in Epv. cbn [fst snd]. split.
  - apply Qle_shift_div_l; lra.
  - destruct (Qlt_bool 0 ac) eqn:Eac; [|lra].
    apply Qlt_bool_iff in Eac. apply Qle_shift_div_l; lra.
Qed.

(** X12.  The completion confidence of the advanced forecaster is never
    above 100, and it is not negative as long as the earned-value total
    is not negative. *)
Theorem advanced_confidence_range now p tasks r c :
  forecast_project_completion now (Some p) tasks = inr r ->
  completion_confidence r = Some c ->
  (c <= 100)%Z /\ (0 <= earned_total tasks -> (0 <= c)%Z).
Proof.
  intros Hrun Hc.
  destruct (task_rows tasks) as [|t rest] eqn:Erows.
  { unfold forecast_project_completion in Hrun. rewrite Erows in Hrun.
    injection Hrun as <-. discriminate. }
  assert (Hne : task_rows tasks <> []) by congruence.
  destruct (advanced_returns now p tasks r Hrun Hne)
    as (ts & te & b & Hs & He & Hb).
  rewrite (advanced_run now p tasks ts te b Hne Hs He Hb) in Hrun.
  injection Hrun as <-. cbn [completion_confidence] in Hc.
  injection Hc as <-.
  set (s := fst _). set (k := snd _).
  pose proof (Qmin_le_l 1 s) as Hs1. pose proof (Qmin_le_l 1 k) as Hk1.
  set (conf := (Qmin 1 s * (1#2) + Qmin 1 k * (1#2)) * 100).
  assert (Hup : conf <= 100) by (unfold conf; lra).
  split.
  - destruct (Qlt_le_dec conf 0) as [Hneg|Hpos].
    + rewrite py_int_nonpos by lra.
      assert (0 <= Qfloor (- conf))%Z
        by (change 0%Z with (Qfloor 0); apply Qfloor_resp_le; lra).
      lia.
    + rewrite py_int_floor by assumption.
      change 100%Z with (Qfloor 100). now apply Qfloor_resp_le.
  - intros Hev. apply py_int_nonneg.
    destruct (spi_cpi_nonneg (planned_total tasks) (earned_total tasks)
                (actual_total tasks) Hev) as [H0s H0k].
    fold s in H0s. fold k in H0k.
    pose proof (Qmin_glb 1 s 0 ltac:(lra) H0s).
    pose proof (Qmin_glb 1 k 0 ltac:(lra) H0k).
    unfold conf. lra.
Qed.

Lemma advanced_confidence_range_witness :
  (70 <= 100)%Z /\ (0 <= earned_total (one_task 100 40 40) -> (0 <= 70)%Z).
Proof.
  apply (advanced_confidence_range 50 (cost_project 200 1 50)
           (one_task 100 40 40) _ 70 eq_refl).
  reflexivity.
Defined.



(** X14.  With positive planned, earned and actual totals the cost
    forecast of the advanced forecaster is the textbook
    EAC = budget / CPI, that is budget * actual / earned. *)
Theorem advanced_eac_is_budget_over_cpi now p tasks r b :
  forecast_project_completion now (Some p) tasks = inr r ->
  budget p = Some (Some b) ->
  0 < planned_total tasks -> 0 < earned_total tasks -> 0 < actual_total tasks ->
  exists c, forecast_final_cost r = Some (Some c) /\
            c == b * actual_total tasks / earned_total tasks.
Proof.
  intros Hrun Hb Hpv Hev Hac.
  assert (Hne : task_rows tasks <> []).
  { intros E. unfold planned_total, total in Hpv. rewrite E in Hpv.
    cbn in Hpv. lra. }
  destruct (advanced_returns now p tasks r Hrun Hne)
    as (ts & te & b' & Hs & He & Hb').
  rewrite (advanced_run now p tasks ts te b' Hne Hs He Hb') in Hrun.
  injection Hrun as <-. cbn [forecast_final_cost].
  assert (b' = Some b) by congruence. subst b'.
  unfold spi_cpi. apply Qlt_bool_iff in Hpv as Hpv'. rewrite Hpv'.
  apply Qlt_bool_iff in Hac as Hac'. rewrite Hac'. cbn [fst snd].
  assert (Hcpi : 0 < earned_total tasks / actual_total tasks)
    by (apply Qlt_shift_div_l; lra).
  apply Qlt_bool_iff in Hcpi as Hcpi'. rewrite Hcpi'.
  cbn [nadd ndiv nsub nlift2].
  eexists. split; [reflexivity|]. field. split; lra.
Qed.

Lemma advanced_eac_is_budget_over_cpi_witness :
  exists r,
    forecast_project_completion 50 (Some (cost_project 200 1 50))
      (one_task 100 50 40) = inr r /\
    exists c, forecast_final_cost r = Some (Some c) /\
              c == 200 * actual_total (one_task 100 50 40)
                   / earned_total (one_task 100 50 40).
Proof.
  eexists. split; [reflexivity|].
  apply (advanced_eac_is_budget_over_cpi 50 (cost_project 200 1 50)
           (one_task 100 50 40)).
  - reflexivity.
  - reflexivity.
  - reflexivity.
  - reflexivity.
  - reflexivity.
Defined.

End AdvancedForecast.

(** ** [App.detect_project_anomalies], the whole run *)

Section DetectorRun.
Context `{Sklearn}.

(** symbolic execution of the call on two frames that are not empty *)
Lemma detect_unfold s p m c pf mf :
  s !! p = Some pf -> s !! m = Some mf -> df_empty pf || df_empty mf = false ->
  let s1 := <[fresh (dom s) := mf]> s in
  App.detect_project_anomalies p m c s
  = match fillna_mean mf with
    | inl _ => alloc empty_df s1
    | inr filled =>
        let s2 := <[fresh (dom s1) := filled]> s1 in
        let a := fresh (dom s2) in
        if (df_len filled <? 10)%nat then
          match for_each (App.flag_column a (df_index filled))
                  (map snd (df_columns filled))
                  (<[a := anomalies_frame (df_index pf)
                            (replicate (df_len pf) false)
                            (replicate (df_len pf) (Some 0))]> s2) with
          | (inl _, s4) => alloc empty_df s4
          | (inr _, s4) => (inr a, s4)
          end
        else
          match df_matrix filled with
          | inl _ => alloc empty_df s2
          | inr X =>
              match standard_scaler X with
              | inl _ => alloc empty_df s2
              | inr scaled =>
                  match isolation_forest c scaled with
                  | inl _ => alloc empty_df s2
                  | inr ps =>
                      if Nat.eqb (length (fst ps)) (df_len pf) then
                        if Nat.eqb (length (snd ps)) (df_len pf) then
                          (inr a,
                           <[a := anomalies_frame (df_index pf)
                                    (map (Z.eqb (-1)) (fst ps))
                                    (map (fun x => Some (Qabs x)) (snd ps))]> s2)
                        else
                          alloc empty_df
                            (<[a := mkDF (df_index pf)
                                      [("is_anomaly",
                                        BoolCol (map (Z.eqb (-1)) (fst ps)))]]> s2)
                      else alloc empty_df (<[a := mkDF (df_index pf) []]> s2)
                  end
              end
          end
    end.
Proof.
  intros Hp Hm Hne. cbv zeta.
  unfold App.detect_project_anomalies, try_catch.
  unfold bind at 1. unfold read at 1. rewrite Hp.
  unfold bind at 1. unfold read at 1. rewrite Hm. rewrite Hne.
  unfold bind at 1. unfold df_copy, bind at 1. unfold read at 1. rewrite Hm.
  unfold alloc at 1. cbv zeta.
  set (s1 := <[fresh (dom s) := mf]> s).
  unfold bind at 1. unfold read at 1. subst s1. rewrite lookup_insert_eq.
  set (s1 := <[fresh (dom s) := mf]> s).
  unfold bind at 1.
  destruct (fillna_mean mf) as [e|filled]; cbn [lift]; [reflexivity|].
  unfold ret at 1. unfold bind at 1. unfold alloc at 1. cbv zeta.
  set (s2 := <[fresh (dom s1) := filled]> s1).
  unfold bind at 1. unfold read at 1. subst s2. rewrite lookup_insert_eq.
  set (s2 := <[fresh (dom s1) := filled]> s1).
  destruct (df_len filled <? 10)%nat.
  - unfold bind at 1. unfold alloc at 1. cbv zeta.
    unfold bind at 1. unfold df_setitem_bool, bind at 1, read at 1.
    rewrite lookup_insert_eq. unfold write at 1.
    unfold bind at 1. unfold df_setitem_num, bind at 1, read at 1.
    rewrite lookup_insert_eq. unfold write at 1.
    rewrite !insert_insert_eq.
    pose proof (init_anomalies (df_index pf)) as Hinit. cbv zeta in Hinit.
    rewrite Hinit. clear Hinit.
    unfold bind at 1. fold (df_len pf).
    destruct (for_each _ _ _) as [[e|[]] s4]; reflexivity.
  - unfold bind at 1.
    destruct (df_matrix filled) as [e|X]; cbn [lift]; [reflexivity|].
    unfold ret at 1. unfold bind at 1.
    destruct (standard_scaler X) as [e|scaled]; cbn [lift]; [reflexivity|].
    unfold ret at 1. unfold bind at 1.
    destruct (isolation_forest c scaled) as [e|ps]; cbn [lift]; [reflexivity|].
    unfold ret at 1. unfold bind at 1. unfold alloc at 1. cbv zeta.
    unfold bind at 1. unfold df_setitem at 1. unfold bind at 1, read at 1.
    rewrite lookup_insert_eq.
    change (df_len (mkDF (df_index pf) [])) with (df_len pf).
    cbn [col_len]. rewrite length_map.
    destruct (Nat.eqb (length (fst ps)) (df_len pf)); [|reflexivity].
    unfold write at 1. rewrite insert_insert_eq.
    unfold bind at 1. unfold df_setitem at 1. unfold bind at 1, read at 1.
    rewrite lookup_insert_eq.
    change (df_len (df_with (mkDF (df_index pf) []) "is_anomaly"
                      (BoolCol (map (Z.eqb (-1)) (fst ps)))))
      with (df_len pf).
    cbn [col_len]. rewrite length_map.
    destruct (Nat.eqb (length (snd ps)) (df_len pf)); [|reflexivity].
    unfold write at 1. rewrite insert_insert_eq. reflexivity.
Qed.

Lemma positions_of_missing lbl key flags :
  lbl ∉ key -> positions_of lbl key flags = [].
Proof.
  intros Hno. unfold positions_of.
  destruct (filter _ _) as [|x r] eqn:E; [reflexivity|].
  assert (Hx : x ∈ filter (fun p : Z * bool => Z.eqb (fst p) lbl)
                      (combine key flags)) by (rewrite E; left).
  apply list_elem_of_filter in Hx as [Hx Hin].
  apply Is_true_true, Z.eqb_eq in Hx.
  apply list_elem_of_In in Hin. destruct x as [k b].
  apply in_combine_l, list_elem_of_In in Hin. cbn in Hx. congruence.
Qed.

Lemma align_mask_missing target key flags lbl :
  lbl ∈ target -> lbl ∉ key -> align_mask target key flags = inl IndexingError.
Proof.
  intros Hin Hno. unfold align_mask.
  destruct (decide (target = key)) as [->|_]; [contradiction|].
  destruct (existsb _ _) eqn:E; [reflexivity|].
  exfalso. apply Bool.not_true_iff_false in E. apply E.
  apply existsb_exists. exists []. split; [|reflexivity].
  apply in_map_iff. exists lbl. split; [now apply positions_of_missing|].
  now apply list_elem_of_In.
Qed.

Lemma flag_column_misaligned a key c s f lbl :
  s !! a = Some f -> lbl ∈ df_index f -> lbl ∉ key ->
  exists e, App.flag_column a key c s = (inl e, s).
Proof.
  intros Ha Hin Hno.
  unfold App.flag_column, loc_set_true, bind, lift, read, raise, ret.
  destruct (col_nums c) as [e|xs]; [eauto|].
  rewrite Ha. rewrite (align_mask_missing _ _ _ lbl Hin Hno). eauto.
Qed.

Lemma df_empty_false f :
  df_empty f = false -> df_index f <> [] /\ df_columns f <> [].
Proof.
  unfold df_empty. destruct (df_index f), (df_columns f); try discriminate.
  split; discriminate.
Qed.

(** X15.  In the small-sample path the boolean outlier Series carries the
    index of the metrics frame and is aligned with the index of the
    projects frame by [.loc]: if a project label does not occur in the
    metrics index the alignment fails, the exception is caught, and the
    call returns an empty DataFrame instead of flags. *)
Theorem misaligned_metrics_give_empty s p m c pf mf lbl :
  s !! p = Some pf -> s !! m = Some mf -> (df_len mf < 10)%nat ->
  lbl ∈ df_index pf -> lbl ∉ df_index mf ->
  result_frame (App.detect_project_anomalies p m c) s = Some empty_df.
Proof.
  intros Hp Hm Hlen Hin Hno. unfold result_frame.
  destruct (df_empty pf || df_empty mf) eqn:Hem.
  { unfold App.detect_project_anomalies, try_catch, bind, read.
    rewrite Hp, Hm, Hem. cbn. apply lookup_insert_eq. }
  rewrite (detect_unfold s p m c pf mf Hp Hm Hem). cbv zeta.
  destruct (fillna_mean mf) as [e|filled] eqn:Hfill.
  { cbn. apply lookup_insert_eq. }
  assert (Hl : (df_len filled <? 10)%nat = true).
  { apply Nat.ltb_lt. unfold df_len in *.
    now rewrite (fillna_mean_index _ _ Hfill). }
  rewrite Hl.
  apply Bool.orb_false_iff in Hem as [_ Hmf].
  apply df_empty_false in Hmf as [_ Hcols].
  assert (Hcols' : df_columns filled <> []).
  { intros E. apply (f_equal (@length _)) in E.
    rewrite (fillna_mean_ncols _ _ Hfill) in E.
    destruct (df_columns mf); [congruence|discriminate]. }
  destruct (df_columns filled) as [|[n col] rest]; [congruence|].
  cbn [map snd for_each]. unfold bind at 1.
  set (s3 := <[_ := anomalies_frame _ _ _]> _).
  destruct (flag_column_misaligned (fresh (dom (<[fresh (dom (<[fresh (dom s) := mf]> s))
                                             := filled]> (<[fresh (dom s) := mf]> s))))
              (df_index filled) col s3
              (anomalies_frame (df_index pf) (replicate (df_len pf) false)
                 (replicate (df_len pf) (Some 0))) lbl) as (e & ->).
  - apply lookup_insert_eq.
  - exact Hin.
  - now rewrite (fillna_mean_index _ _ Hfill).
  - cbn. apply lookup_insert_eq.
Qed.

End DetectorRun.

Lemma misaligned_metrics_give_empty_witness :
  result_frame
    (App.detect_project_anomalies (H := no_sklearn) 1%positive 2%positive (1#10))
    (<[2%positive := mkDF [0; 5]%Z [("spi", NumCol [Some 1; Some 2])]]>
       (<[1%positive := two_rows]> (∅ : store)))
  = Some empty_df.
Proof.
  apply (misaligned_metrics_give_empty (H := no_sklearn) _ 1%positive 2%positive
           (1#10) two_rows (mkDF [0; 5]%Z [("spi", NumCol [Some 1; Some 2])])
           1%Z).
  - reflexivity.
  - reflexivity.
  - cbn. lia.
  - apply (bool_decide_unpack _). reflexivity.
  - apply (bool_decide_unpack _). reflexivity.
Defined.

Section DetectorShape.
Context `{Sklearn}.

Lemma quiet_unit D {A} (m : M A) (post : Prop) :
  quiet D m (fun _ => True) -> post -> quiet D m (fun _ => post).
Proof. intros Hm Hp. eapply quiet_weaken; [exact Hm|auto]. Qed.

(** what the call hands back is an object of its own making *)
Lemma quiet_app_detect_new D p m c :
  quiet D (App.detect_project_anomalies p m c) (new_in D).
Proof.
  unfold App.detect_project_anomalies. apply quiet_try; [|intros e; apply quiet_alloc].
  eapply quiet_bind; [apply quiet_read|intros pf _].
  eapply quiet_bind; [apply quiet_read|intros mf _].
  destruct (_ || _); [apply quiet_alloc|].
  eapply quiet_bind; [apply quiet_copy|intros l1 H1].
  eapply quiet_bind; [apply quiet_read|intros m0 _].
  eapply quiet_bind; [apply quiet_lift_any|intros filled _].
  eapply quiet_bind; [apply quiet_alloc|intros l2 H2].
  eapply quiet_bind; [apply quiet_read|intros mf' _].
  destruct (_ <? _)%nat.
  - eapply quiet_bind; [apply quiet_alloc|intros a Ha].
    eapply quiet_bind; [now apply quiet_setitem_bool|intros _ _].
    eapply quiet_bind; [now apply quiet_setitem_num|intros _ _].
    eapply quiet_bind; [|intros _ _; now apply quiet_ret].
    apply quiet_for_each. intros x. now apply quiet_flag_column.
  - eapply quiet_bind; [apply quiet_lift_any|intros X _].
    eapply quiet_bind; [apply quiet_lift_any|intros scaled _].
    eapply quiet_bind; [apply quiet_lift_any|intros ps _].
    eapply quiet_bind; [apply quiet_alloc|intros a Ha].
    eapply quiet_bind; [now apply quiet_setitem|intros _ _].
    eapply quiet_bind; [now apply quiet_setitem|intros _ _].
    now apply quiet_ret.
Qed.

Lemma flagged_length cs : forall bs sc bs' sc',
  flagged cs bs sc bs' sc' -> length bs' = length bs /\ length sc' = length sc.
Proof.
  induction cs as [|c cs IH]; intros bs sc bs' sc' Hfl.
  - inversion Hfl; subst. auto.
  - inversion Hfl as [|? ? sel ? ? ? ? Hsel Hrest]; subst.
    destruct (IH _ _ _ _ Hrest) as [-> ->]. now rewrite !length_mask.
Qed.

Lemma consistent_scores k bs sc :
  Forall2 (consistent k) bs sc ->
  Forall (fun x : num => exists q, x = Some q /\ 0 <= q) sc.
Proof.
  induction 1 as [|b x bs sc (q & -> & Hq & _) _ IH]; constructor; eauto.
Qed.

(** X16.  [App.detect_project_anomalies] never raises and never hands
    back one of its arguments: the result is always a DataFrame object
    made during the call.  It is either the empty DataFrame or a frame
    over the index of [projects_df] with exactly the columns [is_anomaly]
    and [anomaly_score], both as long as the index, and no score in it
    is NaN or negative. *)
Theorem detect_result_shape s p m c :
  exists l s' f,
    App.detect_project_anomalies p m c s = (inr l, s') /\
    s !! l = None /\ s' !! l = Some f /\
    (f = empty_df \/
     exists pf bs sc,
       s !! p = Some pf /\ f = anomalies_frame (df_index pf) bs sc /\
       length bs = df_len pf /\ length sc = df_len pf /\
       Forall (fun x : num => exists q, x = Some q /\ 0 <= q) sc).
Proof.
  assert (Hshape : exists l s' f,
    App.detect_project_anomalies p m c s = (inr l, s') /\ s' !! l = Some f /\
    (f = empty_df \/
     exists pf bs sc,
       s !! p = Some pf /\ f = anomalies_frame (df_index pf) bs sc /\
       length bs = df_len pf /\ length sc = df_len pf /\
       Forall (fun x : num => exists q, x = Some q /\ 0 <= q) sc)).
  { destruct (s !! p) as [pf|] eqn:Hp.
    2:{ unfold App.detect_project_anomalies, try_catch, bind, read.
        rewrite Hp. cbn. eexists _, _, _. split; [reflexivity|].
        split; [apply lookup_insert_eq|now left]. }
    destruct (s !! m) as [mf|] eqn:Hm.
    2:{ unfold App.detect_project_anomalies, try_catch, bind, read.
        rewrite Hp, Hm. cbn. eexists _, _, _. split; [reflexivity|].
        split; [apply lookup_insert_eq|now left]. }
    destruct (Nat.lt_ge_cases (df_len mf) 10) as [Hlen|Hlen].
    - destruct (detect_small_run s p m c pf mf Hp Hm Hlen)
        as (l & s' & f & Hrun & Hf & _ & Hsh).
      exists l, s', f. split; [exact Hrun|]. split; [exact Hf|].
      destruct Hsh as [->|(filled & bs & sc & _ & -> & Hfl)]; [now left|].
      right. exists pf, bs, sc. split; [reflexivity|]. split; [reflexivity|].
      destruct (flagged_length _ _ _ _ _ Hfl) as [Hb Hs].
      rewrite length_replicate in Hb. rewrite length_replicate in Hs.
      split; [exact Hb|]. split; [exact Hs|].
      apply (flagged_consistent _ 0) in Hfl; [|apply initial_consistent].
      eapply consistent_scores; eauto.
    - destruct (df_empty pf || df_empty mf) eqn:Hem.
      { unfold App.detect_project_anomalies, try_catch, bind, read.
        rewrite Hp, Hm, Hem. cbn. eexists _, _, _. split; [reflexivity|].
        split; [apply lookup_insert_eq|now left]. }
      rewrite (detect_unfold s p m c pf mf Hp Hm Hem). cbv zeta.
      destruct (fillna_mean mf) as [e|filled] eqn:Hfill.
      { eexists _, _, _. split; [reflexivity|].
        split; [apply lookup_insert_eq|now left]. }
      assert (Hl : (df_len filled <? 10)%nat = false).
      { apply Nat.ltb_ge. unfold df_len in *.
        now rewrite (fillna_mean_index _ _ Hfill). }
      rewrite Hl.
      destruct (df_matrix filled) as [e|X].
      { eexists _, _, _. split; [reflexivity|].
        split; [apply lookup_insert_eq|now left]. }
      destruct (standard_scaler X) as [e|scaled].
      { eexists _, _, _. split; [reflexivity|].
        split; [apply lookup_insert_eq|now left]. }
      destruct (isolation_forest c scaled) as [e|ps].
      { eexists _, _, _. split; [reflexivity|].
        split; [apply lookup_insert_eq|now left]. }
      destruct (Nat.eqb (length (fst ps)) (df_len pf)) eqn:E1.
      2:{ eexists _, _, _. split; [reflexivity|].
          split; [apply lookup_insert_eq|now left]. }
      destruct (Nat.eqb (length (snd ps)) (df_len pf)) eqn:E2.
      2:{ eexists _, _, _. split; [reflexivity|].
          split; [apply lookup_insert_eq|now left]. }
      apply Nat.eqb_eq in E1, E2.
      eexists _, _, _. split; [reflexivity|].
      split; [apply lookup_insert_eq|]. right.
      eexists pf, _, _. split; [reflexivity|]. split; [reflexivity|].
      rewrite !length_map. split; [exact E1|]. split; [exact E2|].
      apply Forall_forall. intros x Hx.
      apply list_elem_of_fmap in Hx as (q & -> & _).
      exists (Qabs q). split; [reflexivity|apply Qabs_nonneg]. }
  destruct Hshape as (l & s' & f & Hrun & Hf & Hsh).
  exists l, s', f. split; [exact Hrun|]. split; [|split; assumption].
  destruct (quiet_app_detect_new s p m c s (agree_refl s)) as [_ Hnew].
  apply Hnew. now rewrite Hrun.
Qed.

End DetectorShape.

(** ** The detectors of the two analytics modules *)

Lemma get_set_col c c' v cols :
  get_col c (set_col c' v cols)
  = if String.eqb c c' then Some v else get_col c cols.
Proof.
  induction cols as [|[n w] cols IH]; cbn.
  - destruct (String.eqb c c'); reflexivity.
  - destruct (String.eqb c' n) eqn:E; cbn.
    + apply String.eqb_eq in E. subst n.
      destruct (String.eqb c c'); reflexivity.
    + destruct (String.eqb c n) eqn:E'; [|exact IH].
      apply String.eqb_eq in E'. subst n.
      destruct (String.eqb c c') eqn:E''; [|reflexivity].
      apply String.eqb_eq in E''. subst c'. rewrite String.eqb_refl in E.
      discriminate.
Qed.

Lemma fresh_insert_ne (s : store) l f : fresh (dom (<[l := f]> s)) <> l.
Proof.
  intros E. pose proof (fresh_unused (<[l := f]> s)) as Hf.
  rewrite E, lookup_insert_eq in Hf. discriminate.
Qed.

Lemma lookup_alloc (s : store) l f g :
  s !! l = Some f -> <[fresh (dom s) := g]> s !! l = Some f.
Proof.
  intros Hl. rewrite lookup_insert_ne; [assumption|].
  intros E. pose proof (fresh_unused s) as Hf. rewrite E in Hf. congruence.
Qed.

Section DetectorCopies.
Context `{Sklearn}.

(** X17.  The detectors of advanced_analytics and predictive_analytics
    hand back their very argument, not a copy, when there is nothing to
    do: for an empty frame, and for a frame without a usable numeric
    column.  Nothing is allocated or written in that case. *)
Theorem detectors_return_input s p pf :
  s !! p = Some pf ->
  (forall ms c,
      df_empty pf = true \/
      filter (fun n => AdvancedAnalytics.is_numeric_col pf n = true)
             (match ms with
              | None => AdvancedAnalytics.default_metrics
              | Some l => l
              end) = [] ->
      AdvancedAnalytics.detect_project_anomalies p ms c s = (inr p, s)) /\
  (forall method c,
      df_empty pf = true \/ PredictiveAnalytics.feature_columns pf = [] ->
      PredictiveAnalytics.detect_anomalies p method c s = (inr p, s)).
Proof.
  intros Hp. split.
  - intros ms c Hcase.
    unfold AdvancedAnalytics.detect_project_anomalies, bind, read. rewrite Hp.
    destruct (df_empty pf); [reflexivity|].
    destruct Hcase as [Hc|Hc]; [discriminate|]. rewrite Hc. reflexivity.
  - intros method c Hcase.
    unfold PredictiveAnalytics.detect_anomalies, bind, read. rewrite Hp.
    destruct (df_empty pf); [reflexivity|].
    destruct Hcase as [Hc|Hc]; [discriminate|]. rewrite Hc. reflexivity.
Qed.

(** a successful run of the detector of advanced_analytics on a frame
    with something to do *)
Lemma advanced_detect_copy s p ms c pf l s' :
  s !! p = Some pf -> df_empty pf = false ->
  filter (fun n => AdvancedAnalytics.is_numeric_col pf n = true)
         (match ms with
          | None => AdvancedAnalytics.default_metrics
          | Some l => l
          end) <> [] ->
  AdvancedAnalytics.detect_project_anomalies p ms c s = (inr l, s') ->
  exists preds,
    l = fresh (dom s) /\ length preds = df_len pf /\
    s' !! p = Some pf /\
    s' !! l
    = Some (df_with
              (df_with pf "anomaly_score"
                 (NumCol (map (fun z => Some (inject_Z z)) preds)))
              "is_anomaly" (BoolCol (map (Z.eqb (-1)) preds))).
Proof.
  intros Hp Hne Hvalid Hrun.
  unfold AdvancedAnalytics.detect_project_anomalies in Hrun.
  unfold bind at 1 in Hrun. unfold read at 1 in Hrun. rewrite Hp, Hne in Hrun.
  destruct (filter _ _) as [|v0 vs] eqn:Ev; [congruence|].
  unfold bind at 1 in Hrun. unfold df_copy, bind at 1 in Hrun.
  unfold read at 1 in Hrun. rewrite Hp in Hrun.
  unfold alloc at 1 in Hrun. cbv zeta in Hrun.
  set (l1 := fresh (dom s)) in *. set (s1 := <[l1 := pf]> s) in *.
  assert (Hl1 : s !! l1 = None) by apply fresh_unused.
  assert (Hpl : p <> l1) by congruence.
  unfold bind at 1 in Hrun. unfold read at 1 in Hrun.
  assert (E1 : s1 !! l1 = Some pf) by apply lookup_insert_eq.
  rewrite E1 in Hrun.
  unfold bind at 1 in Hrun.
  destruct (df_select pf (v0 :: vs)) as [e|picked]; [discriminate|].
  cbn [lift] in Hrun. unfold ret at 1 in Hrun.
  unfold bind at 1 in Hrun. unfold alloc at 1 in Hrun. cbv zeta in Hrun.
  set (l2 := fresh (dom s1)) in *. set (s2 := <[l2 := picked]> s1) in *.
  assert (P1 : s1 !! p = Some pf) by (now apply lookup_alloc).
  assert (E2 : s2 !! l1 = Some pf) by (now apply lookup_alloc).
  assert (P2 : s2 !! p = Some pf) by (now apply lookup_alloc).
  unfold bind at 1 in Hrun.
  destruct (fillna_mean picked) as [e|filled]; [discriminate|].
  cbn [lift] in Hrun. unfold ret at 1 in Hrun.
  unfold bind at 1 in Hrun. unfold alloc at 1 in Hrun. cbv zeta in Hrun.
  set (l3 := fresh (dom s2)) in *. set (s3 := <[l3 := filled]> s2) in *.
  assert (E3 : s3 !! l1 = Some pf) by (now apply lookup_alloc).
  assert (P3 : s3 !! p = Some pf) by (now apply lookup_alloc).
  unfold bind at 1 in Hrun.
  destruct (df_matrix filled) as [e|Xm]; [discriminate|].
  cbn [lift] in Hrun. unfold ret at 1 in Hrun. unfold bind at 1 in Hrun.
  destruct (standard_scaler Xm) as [e|Xs]; [discriminate|].
  cbn [lift] in Hrun. unfold ret at 1 in Hrun. unfold bind at 1 in Hrun.
  destruct (isolation_forest c Xs) as [e|ps]; [discriminate|].
  cbn [lift] in Hrun. unfold ret at 1 in Hrun.
  unfold bind at 1 in Hrun. unfold df_setitem at 1 in Hrun.
  unfold bind at 1 in Hrun. unfold read at 1 in Hrun. rewrite E3 in Hrun.
  cbn [col_len] in Hrun. rewrite length_map in Hrun.
  destruct (Nat.eqb (length (fst ps)) (df_len pf)) eqn:Elen; [|discriminate].
  apply Nat.eqb_eq in Elen.
  unfold write at 1 in Hrun.
  unfold bind at 1 in Hrun. unfold df_setitem at 1 in Hrun.
  unfold bind at 1 in Hrun. unfold read at 1 in Hrun.
  rewrite lookup_insert_eq in Hrun.
  cbn [col_len] in Hrun. rewrite length_map in Hrun.
  change (df_len (df_with pf "anomaly_score" _)) with (df_len pf) in Hrun.
  rewrite Elen, Nat.eqb_refl in Hrun.
  unfold write at 1 in Hrun. rewrite insert_insert_eq in Hrun.
  unfold ret in Hrun. injection Hrun as <- <-.
  exists (fst ps). split; [reflexivity|]. split; [exact Elen|].
  split; [|apply lookup_insert_eq].
  rewrite lookup_insert_ne by congruence. exact P3.
Qed.

(** X18.  When the detector of advanced_analytics has something to do
    and returns, the result is a new object: the frame handed in is still
    there unchanged, and the new frame has the same index, every column
    of the input other than the two result columns, and an [is_anomaly]
    flag on every row that is True exactly where [anomaly_score] (the
    prediction of the forest) is -1. *)
Theorem advanced_detect_result s p ms c pf l s' :
  s !! p = Some pf -> df_empty pf = false ->
  filter (fun n => AdvancedAnalytics.is_numeric_col pf n = true)
         (match ms with
          | None => AdvancedAnalytics.default_metrics
          | Some l => l
          end) <> [] ->
  AdvancedAnalytics.detect_project_anomalies p ms c s = (inr l, s') ->
  s !! l = None /\ s' !! p = Some pf /\
  exists f,
    s' !! l = Some f /\ df_index f = df_index pf /\
    (forall n, n <> "anomaly_score"%string -> n <> "is_anomaly"%string ->
               df_get f n = df_get pf n) /\
    forall i, (i < df_len pf)%nat ->
      exists b z,
        is_anomaly_at f i = Some b /\
        anomaly_score_at f i = Some (Some (inject_Z z)) /\
        (b = true <-> z = (-1)%Z).
Proof.
  intros Hp Hne Hvalid Hrun.
  destruct (advanced_detect_copy s p ms c pf l s' Hp Hne Hvalid Hrun)
    as (preds & -> & Hlen & Hp' & Hl).
  split; [apply fresh_unused|]. split; [exact Hp'|].
  eexists. split; [exact Hl|]. split; [reflexivity|]. split.
  - intros n Hn1 Hn2. unfold df_get, df_with. cbn [df_columns].
    rewrite !get_set_col.
    apply String.eqb_neq in Hn1, Hn2. now rewrite Hn1, Hn2.
  - intros i Hi. rewrite <- Hlen in Hi.
    destruct (lookup_lt_is_Some_2 preds i Hi) as [z Hz].
    exists (Z.eqb (-1) z), z.
    unfold is_anomaly_at, anomaly_score_at, df_get, df_with. cbn [df_columns].
    rewrite !get_set_col. cbn [String.eqb Ascii.eqb Bool.eqb andb].
    rewrite !list_lookup_fmap, Hz.
    split; [reflexivity|]. split; [reflexivity|].
    split; intros E; [apply Z.eqb_eq in E|apply Z.eqb_eq]; congruence.
Qed.

End DetectorCopies.

Lemma detectors_return_input_witness :
  AdvancedAnalytics.detect_project_anomalies (H := toy_sklearn) 1%positive None
    (1#10) (<[1%positive := nine_projects]> (∅ : store))
  = (inr 1%positive, <[1%positive := nine_projects]> (∅ : store)).
Proof.
  assert (Hp : (<[1%positive := nine_projects]> (∅ : store)) !! 1%positive
               = Some nine_projects) by reflexivity.
  apply (proj1 (detectors_return_input (H := toy_sklearn) _ _ _ Hp)).
  right. reflexivity.
Defined.

Lemma advanced_detect_result_witness :
  let s := <[1%positive := two_rows]> (∅ : store) in
  let out := AdvancedAnalytics.detect_project_anomalies (H := toy_sklearn)
               1%positive None (1#10) s in
  s !! 2%positive = None /\
  snd out !! 1%positive = Some two_rows /\
  exists f,
    snd out !! 2%positive = Some f /\ df_index f = df_index two_rows /\
    (forall n, n <> "anomaly_score"%string -> n <> "is_anomaly"%string ->
               df_get f n = df_get two_rows n) /\
    forall i, (i < df_len two_rows)%nat ->
      exists b z,
        is_anomaly_at f i = Some b /\
        anomaly_score_at f i = Some (Some (inject_Z z)) /\
        (b = true <-> z = (-1)%Z).
Proof.
  cbv zeta.
  apply (advanced_detect_result (H := toy_sklearn)
           (<[1%positive := two_rows]> (∅ : store)) 1%positive None (1#10)
           two_rows 2%positive).
  - reflexivity.
  - reflexivity.
  - discriminate.
  - vm_compute. reflexivity.
Defined.

(** ** [App.generate_project_forecasts], call after call *)

Section BatchCalls.
Import App.
Variable generate_nlp_insights : Project -> list string.
Variable cfg : Config.

Lemma forecast_all_nonempty now st :
  projects_df st <> [] -> forecast_all generate_nlp_insights cfg now st <> ∅.
Proof.
  intros Hne E. destruct (projects_df st) as [|p l] eqn:Ep; [congruence|].
  assert (Hin : p ∈ projects_df st) by (rewrite Ep; left).
  destruct (forecast_all_covers generate_nlp_insights cfg now st p Hin)
    as (q & _ & _ & Hq).
  rewrite E, lookup_empty in Hq. discriminate.
Qed.

(** X19.  A call that had to compute leaves a cache behind that the next
    call within the hour is served from: it returns the same dictionary
    and changes nothing.  An empty project table is the exception: the
    empty dictionary it yields is stored but never counts as a cache, so
    the next call computes again and moves the timestamp. *)
Theorem next_call_is_served now later st :
  data_loaded st = true ->
  cached_forecasts now st = None ->
  let first := generate_project_forecasts generate_nlp_insights cfg now st in
  (projects_df st <> [] -> total_seconds later now < 3600 ->
   generate_project_forecasts generate_nlp_insights cfg later (snd first) = first) /\
  (projects_df st = [] ->
   fst first = ∅ /\
   cached_forecasts later (snd first) = None /\
   forecast_generated_at
     (snd (generate_project_forecasts generate_nlp_insights cfg later (snd first)))
   = Some later).
Proof.
  intros Hl Hc. cbv zeta.
  rewrite (generate_recomputes generate_nlp_insights cfg now st Hl Hc).
  cbn [fst snd]. split.
  - intros Hne Hlt.
    rewrite (generate_serves_cache generate_nlp_insights cfg later _
               (forecast_all generate_nlp_insights cfg now st)); [reflexivity..|].
    apply cached_forecasts_Some. cbn.
    split; [reflexivity|]. split; [now apply forecast_all_nonempty|].
    exists now. split; [reflexivity|assumption].
  - intros Hempty.
    assert (E : forecast_all generate_nlp_insights cfg now st = ∅)
      by (unfold forecast_all; rewrite Hempty; reflexivity).
    rewrite E. split; [reflexivity|].
    assert (Hnone : cached_forecasts later
                      (mkSession true (projects_df st) (Some ∅) (Some now)
                         (anomalies st)) = None).
    { unfold cached_forecasts. cbn.
      now rewrite bool_decide_eq_true_2 by reflexivity. }
    split; [exact Hnone|].
    rewrite (generate_recomputes generate_nlp_insights cfg later
               (mkSession true (projects_df st) (Some ∅) (Some now) (anomalies st))
               eq_refl Hnone).
    reflexivity.
Qed.

(** X20.  The dictionary computed for a project table has exactly one
    entry per project id that occurs in the table, and where an id occurs
    on several rows the entry is that of the last such row. *)
Theorem forecast_all_entries now st k e :
  forecast_all generate_nlp_insights cfg now st !! k = Some e <->
  exists p, last (filter (fun q => project_id q = k) (projects_df st)) = Some p /\
            e = forecast_entry generate_nlp_insights cfg now st p.
Proof.
  unfold forecast_all. rewrite foldl_entries.
  destruct (last _) as [p|].
  - split.
    + intros [= <-]. eauto.
    + intros (q & [= <-] & ->). reflexivity.
  - rewrite lookup_empty. split; [discriminate|].
    intros (q & Hq & _). discriminate.
Qed.

End BatchCalls.

Lemma next_call_is_served_witness :
  let first := App.generate_project_forecasts no_insights sample_config 50
                 sample_session in
  (App.projects_df sample_session <> [] ->
   App.total_seconds (50 + (1#48)) 50 < 3600 ->
   App.generate_project_forecasts no_insights sample_config (50 + (1#48))
     (snd first) = first) /\
  (App.projects_df sample_session = [] ->
   fst first = ∅ /\
   App.cached_forecasts (50 + (1#48)) (snd first) = None /\
   App.forecast_generated_at
     (snd (App.generate_project_forecasts no_insights sample_config (50 + (1#48))
             (snd first)))
   = Some (50 + (1#48))).
Proof.
  apply (next_call_is_served no_insights sample_config 50 (50 + (1#48))
           sample_session).
  - reflexivity.
  - reflexivity.
Defined.

(** ** [App.generate_ensemble_forecast]: the blend *)

Section EnsembleBlend.
Context `{SortValues}.
Import App.

(** a trend date makes the blend multiply a Timestamp by 0.75 *)
Lemma blend_with_trend_date evm d c r :
  blend_step evm (Some d, c) r = (inl TypeError, r).
Proof. reflexivity. Qed.

(** X21.  The blend of the ensemble forecast never takes place.  As soon
    as the trend step delivers a completion date, the product of a
    Timestamp and 0.75 raises, the exception is caught by the outer
    [try], and no date, cost or confidence is assigned.  So the returned
    confidence is never 0.8: it is 0.6 (EVM date only) or absent. *)
Theorem ensemble_never_blends cfg now p h :
  let r := generate_ensemble_forecast cfg now p h in
  (confidence r = None \/ confidence r = Some (6#10)) /\
  (forall ps pe evm r1 d c r2,
      read_planned (planned_start p) = inr (Some ps) ->
      read_planned (planned_end p) = inr (Some pe) ->
      evm_step now p ps pe initial_results = (inr evm, r1) ->
      trend_step cfg p h evm r1 = (inr (Some d, c), r2) ->
      completion_date r = None /\ completion_date_best r = None /\
      completion_date_worst r = None /\ final_cost r = None /\
      final_cost_best r = None /\ final_cost_worst r = None /\
      confidence r = None).
Proof.
  cbv zeta. split.
  - destruct (ensemble_run cfg now p h) as [Hc|[Hc|[Hc _]]]; auto.
    exfalso. revert Hc. rewrite ensemble_unfold.
    destruct (read_planned (planned_start p)) as [e|[ps|]]; try discriminate.
    destruct (read_planned (planned_end p)) as [e|[pe|]]; try discriminate.
    destruct (evm_step now p ps pe initial_results) as [[e|evm] r1] eqn:Eevm.
    { apply evm_step_same in Eevm as (_&_&_&_&_&_&Hc). rewrite Hc. discriminate. }
    pose proof (evm_step_same _ _ _ _ _ _ _ Eevm) as (_&_&_&_&_&_&Hc1).
    destruct (trend_step cfg p h evm r1) as [[e|[[d|] c]] r2] eqn:Etr;
      pose proof (trend_step_same _ _ _ _ _ _ _ Etr) as (_&_&_&_&_&_&Hc2).
    + rewrite Hc2, Hc1. discriminate.
    + rewrite blend_with_trend_date. cbn [snd]. rewrite Hc2, Hc1. discriminate.
    + destruct (blend_step evm (None, c) r2) as [res r3] eqn:Ebl. cbn [snd].
      destruct (blend_confidence _ _ _ _ _ Ebl) as [Hc|[(Hc & _)|Hc]].
      * rewrite Hc, Hc2, Hc1. discriminate.
      * rewrite Hc. intros E. discriminate E.
      * exfalso. revert Ebl Hc.
        unfold blend_step, bind, lift, modify, ret, raise. cbn [fst snd].
        destruct c as [c|]; cbn [py_mul];
          (destruct (evm_final_cost evm) as [e|]; cbn;
           intros [= <- <-]; cbn; rewrite ?Hc2, ?Hc1; discriminate).
  - intros ps pe evm r1 d c r2 Hs He Hevm Htr.
    rewrite ensemble_unfold, Hs, He, Hevm, Htr, blend_with_trend_date.
    cbn [snd].
    pose proof (evm_step_same _ _ _ _ _ _ _ Hevm) as (A1&A2&A3&A4&A5&A6&A7).
    pose proof (trend_step_same _ _ _ _ _ _ _ Htr) as (B1&B2&B3&B4&B5&B6&B7).
    rewrite B1, B2, B3, B4, B5, B6, B7, A1, A2, A3, A4, A5, A6, A7.
    repeat split; reflexivity.
Qed.

End EnsembleBlend.

Lemma ensemble_never_blends_witness :
  let r := App.generate_ensemble_forecast (H := insertion_sort_values)
             sample_config 50 trend_project (Some rising_history) in
  App.completion_date r = None /\ App.completion_date_best r = None /\
  App.completion_date_worst r = None /\ App.final_cost r = None /\
  App.final_cost_best r = None /\ App.final_cost_worst r = None /\
  App.confidence r = None.
Proof.
  cbv zeta.
  eapply (proj2 (ensemble_never_blends (H := insertion_sort_values)
                   sample_config 50 trend_project (Some rising_history))).
  - reflexivity.
  - reflexivity.
  - cbv. reflexivity.
  - cbv. reflexivity.
Defined.

(** ** [DataProcessor.calculate_project_metrics] *)

Lemma ratio_le_1 (a b : Z) : (0 < b)%Z -> (a <= b)%Z -> inject_Z a / inject_Z b <= 1.
Proof.
  intros Hb Hab. apply Qle_shift_div_r.
  - change 0 with (inject_Z 0). now rewrite <- Zlt_Qlt.
  - rewrite Qmult_1_l. now rewrite <- Zle_Qle.
Qed.

Lemma ratio_lt_1 (a b : Z) : (0 < b)%Z -> (a < b)%Z -> inject_Z a / inject_Z b < 1.
Proof.
  intros Hb Hab. apply Qlt_shift_div_r.
  - change 0 with (inject_Z 0). now rewrite <- Zlt_Qlt.
  - rewrite Qmult_1_l. now rewrite <- Zlt_Qlt.
Qed.

Lemma ratio_neg (a b : Z) : (0 < b)%Z -> (a < 0)%Z -> inject_Z a / inject_Z b < 0.
Proof.
  intros Hb Ha. apply Qlt_shift_div_r.
  - change 0 with (inject_Z 0). now rewrite <- Zlt_Qlt.
  - rewrite Qmult_0_l. change 0 with (inject_Z 0). now rewrite <- Zlt_Qlt.
Qed.

Lemma ratio_same (a : Z) : (0 < a)%Z -> inject_Z a / inject_Z a == 1.
Proof.
  intros Ha.
  assert (0 < inject_Z a) by (change 0 with (inject_Z 0); now rewrite <- Zlt_Qlt).
  field. lra.
Qed.

Section MetricsFacts.
Context `{SortValues}.
Import DataProcessor.

Lemma metrics_returns now info tasks h r :
  calculate_project_metrics now info tasks h = inr r ->
  exists hist b ac sd pe,
    latest_and_change h = inr hist /\ info_budget info = Some b /\
    actual_cost_of tasks = inr ac /\
    start_date info = Some sd /\ planned_end_date info = Some pe /\
    let today := date_of now in
    let total_days :=
      if (date_of sd <? date_of pe)%Z then (date_of pe - date_of sd)%Z else 1%Z in
    schedule_progress r
    = (if (0 <? total_days)%Z
       then inject_Z (Z.min today (date_of pe) - date_of sd)
            / inject_Z total_days * 100
       else 0) /\
    days_remaining r
    = (if (today <? date_of pe)%Z then (date_of pe - today)%Z else 0%Z) /\
    m_actual_cost r = ac /\
    spend_percentage r
    = match b with
      | Some bq => if Qlt_bool 0 bq then ac / bq * 100 else 0
      | None => 0
      end /\
    (m_spi r, m_cpi r, m_spi_change r, m_cpi_change r) = hist.
Proof.
  unfold calculate_project_metrics. intros Hrun.
  destruct (latest_and_change h) as [e|[[[s c] ds] dc]]; [discriminate|].
  destruct (info_budget info) as [b|]; [|discriminate].
  destruct (actual_cost_of tasks) as [e|ac]; [discriminate|].
  destruct (start_date info) as [sd|]; [|discriminate].
  destruct (planned_end_date info) as [pe|]; [|discriminate].
  cbn [require] in Hrun. injection Hrun as <-.
  exists (s, c, ds, dc), b, ac, sd, pe. cbn. repeat split; reflexivity.
Qed.

(** X22.  The schedule figures of [calculate_project_metrics] keep
    their range on one side only: [days_remaining] is never negative and
    [schedule_progress] never above 100, reaching 100 once the planned
    end (later than the start) has come and staying below it while days
    remain; but before the start date the progress is negative. *)
Theorem schedule_progress_range now info tasks h r :
  calculate_project_metrics now info tasks h = inr r ->
  exists sd pe,
    start_date info = Some sd /\ planned_end_date info = Some pe /\
    (0 <= days_remaining r)%Z /\ schedule_progress r <= 100 /\
    ((0 < days_remaining r)%Z <-> (date_of now < date_of pe)%Z) /\
    ((0 < days_remaining r)%Z -> schedule_progress r < 100) /\
    ((date_of sd < date_of pe)%Z -> (date_of pe <= date_of now)%Z ->
     schedule_progress r == 100) /\
    ((date_of now < date_of sd)%Z -> schedule_progress r < 0).
Proof.
  intros Hrun.
  destruct (metrics_returns now info tasks h r Hrun)
    as (hist & b & ac & sd & pe & _ & _ & _ & Hs & He & Hprog & Hrem & _).
  exists sd, pe. split; [exact Hs|]. split; [exact He|].
  cbv zeta in Hprog. rewrite Hprog, Hrem. clear Hprog Hrem.
  set (today := date_of now). set (s := date_of sd). set (e := date_of pe).
  set (td := if (s <? e)%Z then (e - s)%Z else 1%Z).
  assert (Htd : (0 < td)%Z).
  { unfold td. destruct (Z.ltb_spec s e); lia. }
  assert (Etd : (0 <? td)%Z = true) by now apply Z.ltb_lt.
  rewrite Etd.
  assert (Hdp : (Z.min today e - s <= td)%Z).
  { unfold td. destruct (Z.ltb_spec s e); lia. }
  split.
  { destruct (Z.ltb_spec today e); lia. }
  split.
  { pose proof (ratio_le_1 _ _ Htd Hdp).
    set (q := inject_Z _ / inject_Z _) in *. lra. }
  split.
  { destruct (Z.ltb_spec today e); lia. }
  split.
  { intros Hpos.
    assert (Hlt : (today < e)%Z) by (destruct (Z.ltb_spec today e); lia).
    assert (Hdp' : (Z.min today e - s < td)%Z).
    { unfold td. destruct (Z.ltb_spec s e); lia. }
    pose proof (ratio_lt_1 _ _ Htd Hdp').
    set (q := inject_Z _ / inject_Z _) in *. lra. }
  split.
  { intros Hse Het.
    assert (E1 : (Z.min today e - s = e - s)%Z) by lia.
    assert (E2 : td = (e - s)%Z).
    { unfold td. destruct (Z.ltb_spec s e); lia. }
    rewrite E1, E2. rewrite ratio_same by lia. reflexivity. }
  intros Hbefore.
  assert (Hneg : (Z.min today e - s < 0)%Z) by lia.
  pose proof (ratio_neg _ _ Htd Hneg).
  set (q := inject_Z _ / inject_Z _) in *. lra.
Qed.

Lemma sort_values_single {A} (le : A -> A -> bool) (x : A) :
  sort_values le [x] = [x].
Proof.
  pose proof (sort_values_perm A le [x]) as Hp.
  now apply Permutation_length_1_inv in Hp.
Qed.

(** X23.  [calculate_project_metrics] raises nothing but KeyError, and
    returns exactly when every key it reads is there: the budget and both
    dates, the SPI and CPI columns unless the history is empty, the
    actual-cost column unless the task table is empty.  An empty history
    gives SPI = CPI = 1 with no change, a single month gives that month's
    values with no change, and a budget that is not positive gives a
    spend percentage of 0 rather than a division. *)
Theorem project_metrics_defaults now info tasks h :
  ((exists r, calculate_project_metrics now info tasks h = inr r) <->
   (history_rows h = [] \/ (has_spi h = true /\ has_cpi h = true)) /\
   info_budget info <> None /\
   (task_rows tasks = [] \/ has_actual_cost tasks = true) /\
   start_date info <> None /\ planned_end_date info <> None) /\
  (forall e, calculate_project_metrics now info tasks h = inl e -> e = KeyError) /\
  (forall r, calculate_project_metrics now info tasks h = inr r ->
     (history_rows h = [] ->
      m_spi r = Some 1 /\ m_cpi r = Some 1 /\
      m_spi_change r = Some 0 /\ m_cpi_change r = Some 0) /\
     (forall row, history_rows h = [row] ->
      m_spi r = h_spi row /\ m_cpi r = h_cpi row /\
      m_spi_change r = Some 0 /\ m_cpi_change r = Some 0) /\
     (task_rows tasks = [] -> m_actual_cost r = 0) /\
     ((forall b, info_budget info = Some (Some b) -> b <= 0) ->
      spend_percentage r = 0)).
Proof.
  split; [|split].
  - unfold calculate_project_metrics, latest_and_change, actual_cost_of, require.
    split.
    + intros [r Hrun].
      destruct (history_rows h) as [|r0 rest].
      * destruct (info_budget info); [|discriminate].
        destruct (task_rows tasks) as [|t ts].
        -- destruct (start_date info); [|discriminate].
           destruct (planned_end_date info); [|discriminate].
           repeat split; auto; discriminate.
        -- destruct (has_actual_cost tasks); [|discriminate].
           destruct (start_date info); [|discriminate].
           destruct (planned_end_date info); [|discriminate].
           repeat split; auto; discriminate.
      * destruct (has_spi h); [|discriminate].
        destruct (has_cpi h); [|discriminate].
        assert (Hrun' :
          match info_budget info with
          | Some _ =>
              match (match task_rows tasks with
                     | [] => inr 0
                     | _ :: _ => if has_actual_cost tasks
                                 then inr (Stats.qsum (map task_actual_cost
                                                         (task_rows tasks)))
                                 else @inl exn Q KeyError
                     end) with
              | inl _ => False
              | inr _ => start_date info <> None /\ planned_end_date info <> None
              end
          | None => False
          end).
        { destruct rest; destruct (info_budget info); try discriminate;
            (destruct (task_rows tasks) as [|t ts];
             [|destruct (has_actual_cost tasks); [|discriminate]]);
            (destruct (start_date info); [|discriminate]);
            (destruct (planned_end_date info); [|discriminate]);
            split; discriminate. }
        destruct (info_budget info); [|contradiction].
        destruct (task_rows tasks) as [|t ts].
        -- destruct Hrun' as [? ?]. repeat split; auto; discriminate.
        -- destruct (has_actual_cost tasks); [|contradiction].
           destruct Hrun' as [? ?]. repeat split; auto; discriminate.
    + intros (Hh & Hb & Ht & Hs & He).
      destruct (info_budget info) as [b|]; [|congruence].
      destruct (start_date info) as [sd|]; [|congruence].
      destruct (planned_end_date info) as [pe|]; [|congruence].
      assert (Hac : exists ac,
        match task_rows tasks with
        | [] => inr 0
        | _ :: _ => if has_actual_cost tasks
                    then inr (Stats.qsum (map task_actual_cost (task_rows tasks)))
                    else @inl exn Q KeyError
        end = inr ac).
      { destruct (task_rows tasks) as [|t ts]; [eauto|].
        destruct Ht as [Ht|Ht]; [discriminate|]. rewrite Ht. eauto. }
      destruct (history_rows h) as [|r0 rest].
      * destruct (task_rows tasks) as [|t ts]; [eauto|].
        destruct Ht as [Ht|Ht]; [discriminate|]. rewrite Ht. eauto.
      * destruct Hh as [Hh|[Hs1 Hc1]]; [discriminate|]. rewrite Hs1, Hc1.
        destruct rest; (destruct (task_rows tasks) as [|t ts]; [eauto|]);
          (destruct Ht as [Ht|Ht]; [discriminate|]); rewrite Ht; eauto.
  - intros e. unfold calculate_project_metrics, latest_and_change,
      actual_cost_of, require.
    destruct (history_rows h) as [|r0 rest].
    + destruct (info_budget info); [|now intros [= <-]].
      destruct (task_rows tasks) as [|t ts].
      * destruct (start_date info); [|now intros [= <-]].
        destruct (planned_end_date info); [discriminate|now intros [= <-]].
      * destruct (has_actual_cost tasks); [|now intros [= <-]].
        destruct (start_date info); [|now intros [= <-]].
        destruct (planned_end_date info); [discriminate|now intros [= <-]].
    + destruct (has_spi h); [|now intros [= <-]].
      destruct (has_cpi h); [|now intros [= <-]].
      destruct rest;
        (destruct (info_budget info); [|now intros [= <-]]);
        (destruct (task_rows tasks) as [|t ts];
         [|destruct (has_actual_cost tasks); [|now intros [= <-]]]);
        (destruct (start_date info); [|now intros [= <-]]);
        (destruct (planned_end_date info); [discriminate|now intros [= <-]]).
  - intros r Hrun.
    destruct (metrics_returns now info tasks h r Hrun)
      as (hist & b & ac & sd & pe & Hh & Hb & Hac & _ & _ & _ & _ & Hcost & Hsp & Hm).
    split; [|split; [|split]].
    + intros E. unfold latest_and_change in Hh. rewrite E in Hh.
      injection Hh as <-. injection Hm as -> -> -> ->. auto.
    + intros row E. unfold latest_and_change in Hh. rewrite E in Hh.
      rewrite sort_values_single in Hh. cbn [List.last] in Hh.
      destruct (has_spi h); [|discriminate].
      destruct (has_cpi h); [|discriminate].
      injection Hh as <-. injection Hm as -> -> -> ->. auto.
    + intros E. unfold actual_cost_of in Hac. rewrite E in Hac.
      injection Hac as <-. exact Hcost.
    + intros Hle. rewrite Hsp. destruct b as [bq|]; [|reflexivity].
      specialize (Hle bq Hb). apply Qlt_bool_false_iff in Hle.
      now rewrite Hle.
Qed.

End MetricsFacts.

Lemma schedule_progress_range_witness :
  exists r,
    DataProcessor.calculate_project_metrics (H := insertion_sort_values) 40
      sample_info (one_task 100 50 40) mixed_history = inr r /\
    exists sd pe,
      DataProcessor.start_date sample_info = Some sd /\
      DataProcessor.planned_end_date sample_info = Some pe /\
      (0 <= DataProcessor.days_remaining r)%Z /\
      DataProcessor.schedule_progress r <= 100 /\
      ((0 < DataProcessor.days_remaining r)%Z <->
       (DataProcessor.date_of 40 < DataProcessor.date_of pe)%Z) /\
      ((0 < DataProcessor.days_remaining r)%Z ->
       DataProcessor.schedule_progress r < 100) /\
      ((DataProcessor.date_of sd < DataProcessor.date_of pe)%Z ->
       (DataProcessor.date_of pe <= DataProcessor.date_of 40)%Z ->
       DataProcessor.schedule_progress r == 100) /\
      ((DataProcessor.date_of 40 < DataProcessor.date_of sd)%Z ->
       DataProcessor.schedule_progress r < 0).
Proof.
  eexists. split; [reflexivity|].
  apply (schedule_progress_range (H := insertion_sort_values) 40 sample_info
           (one_task 100 50 40) mixed_history).
  reflexivity.
Defined.

Lemma project_metrics_defaults_witness :
  exists r,
    DataProcessor.calculate_project_metrics (H := insertion_sort_values) 40
      sample_info (mkTasks [] false false) no_history = inr r.
Proof.
  apply (proj2 (proj1 (project_metrics_defaults (H := insertion_sort_values) 40
                         sample_info (mkTasks [] false false) no_history))).
  repeat split; try discriminate; left; reflexivity.
Defined.

(** ** [DataProcessor.prepare_forecast_data] *)

Section Weights.
Import Stats DataProcessor.

Lemma qnat_nonneg n : 0 <= qnat n.
Proof.
  unfold qnat. change 0 with (inject_Z 0). rewrite <- Zle_Qle. lia.
Qed.

Lemma linspace_length n : length (linspace_1_3 n) = n.
Proof.
  unfold linspace_1_3. destruct n as [|[|n]]; [reflexivity..|].
  now rewrite length_map, length_seq.
Qed.

Lemma linspace_ge_1 n : Forall (fun w => 1 <= w) (linspace_1_3 n).
Proof.
  unfold linspace_1_3. destruct n as [|[|n]].
  - constructor.
  - repeat constructor. lra.
  - apply Forall_forall. intros w Hw.
    apply list_elem_of_fmap in Hw as (i & -> & _).
    assert (Hn : 1 <= qnat (S (S n)) - 1).
    { unfold qnat. rewrite !Nat2Z.inj_succ, <- !Z.add_1_r, !inject_Z_plus.
      pose proof (qnat_nonneg n) as Hq. unfold qnat in Hq.
      change (inject_Z 1) with 1. lra. }
    assert (Hstep : 0 <= 2 / (qnat (S (S n)) - 1))
      by (apply Qle_shift_div_l; lra).
    pose proof (qnat_nonneg i).
    assert (0 <= qnat i * (2 / (qnat (S (S n)) - 1)))
      by (now apply Qmult_le_0_compat).
    lra.
Qed.

Lemma qsum_ge_1 ws : ws <> [] -> Forall (fun w => 1 <= w) ws -> 1 <= qsum ws.
Proof.
  intros Hne HF. destruct HF as [|w ws Hw HF]; [congruence|].
  cbn. assert (0 <= qsum ws).
  { clear Hne Hw. induction HF as [|x l Hx _ IH]; cbn; lra. }
  lra.
Qed.

Lemma normalized_length ws : length (normalized ws) = length ws.
Proof. unfold normalized. apply length_map. Qed.

Lemma normalized_pos ws :
  ws <> [] -> Forall (fun w => 1 <= w) ws -> Forall (fun w => 0 < w) (normalized ws).
Proof.
  intros Hne HF. pose proof (qsum_ge_1 ws Hne HF) as HS.
  unfold normalized. apply Forall_forall. intros x Hx.
  apply list_elem_of_fmap in Hx as (w & -> & Hw).
  rewrite Forall_forall in HF. specialize (HF w Hw).
  apply Qlt_shift_div_l; lra.
Qed.

Lemma qsum_pos ws : ws <> [] -> Forall (fun w => 0 < w) ws -> 0 < qsum ws.
Proof.
  intros Hne HF. destruct HF as [|w ws Hw HF]; [congruence|].
  cbn. assert (0 <= qsum ws).
  { clear Hne Hw. induction HF as [|x l Hx _ IH]; cbn; lra. }
  lra.
Qed.

(** a weighted sum under positive weights stays between the bounds of
    the values *)
Lemma weighted_between lo hi : forall vs ws,
  length vs = length ws -> Forall (fun w => 0 < w) ws ->
  Forall (fun v => lo <= v <= hi) vs ->
  lo * qsum ws <= qsum (zip_with Qmult vs ws) /\
  qsum (zip_with Qmult vs ws) <= hi * qsum ws.
Proof.
  induction vs as [|v vs IH]; intros [|w ws] Hlen Hw Hv; try discriminate.
  - cbn. lra.
  - inversion Hw as [|? ? Hw0 Hws]; subst. inversion Hv as [|? ? Hv0 Hvs]; subst.
    injection Hlen as Hlen. destruct (IH ws Hlen Hws Hvs) as [IHl IHh].
    cbn [zip_with qsum].
    assert (H1 : 0 <= (v - lo) * w) by (apply Qmult_le_0_compat; lra).
    assert (H2 : 0 <= (hi - v) * w) by (apply Qmult_le_0_compat; lra).
    split; lra.
Qed.


Lemma all_present_Forall (P : Q -> Prop) (xs : list num) :
  Forall (fun x => exists v, x = Some v /\ P v) xs ->
  exists vs, LinReg.all_present xs = Some vs /\ Forall P vs /\
             length vs = length xs.
Proof.
  induction 1 as [|x xs (v & -> & Hv) _ (vs & E & HF & Hl)].
  - exists []. repeat split. constructor.
  - exists (v :: vs). cbn. rewrite E. repeat split; [now constructor|].
    cbn. now rewrite Hl.
Qed.


(** the average of a column under the weights of the forecast *)
Lemma np_average_between lo hi (xs : list num) :
  xs <> [] -> Forall (fun x => exists v, x = Some v /\ lo <= v <= hi) xs ->
  exists a, np_average xs (normalized (linspace_1_3 (length xs))) = Some a /\
            lo <= a <= hi.
Proof.
  intros Hne HF. unfold np_average.
  destruct (all_present_Forall _ _ HF) as (vs & -> & Hvs & Hlen).
  set (ws := normalized (linspace_1_3 (length xs))).
  assert (Hl : linspace_1_3 (length xs) <> []).
  { intros E. apply (f_equal (@length _)) in E. rewrite linspace_length in E.
    destruct xs; [congruence|discriminate]. }
  assert (Hw : Forall (fun w => 0 < w) ws)
    by (apply normalized_pos; [exact Hl|apply linspace_ge_1]).
  assert (Hwne : ws <> []).
  { intros E. apply (f_equal (@length _)) in E. unfold ws in E.
    rewrite normalized_length, linspace_length in E.
    destruct xs; [congruence|discriminate]. }
  assert (Hlw : length vs = length ws)
    by (unfold ws; now rewrite normalized_length, linspace_length).
  destruct (weighted_between lo hi vs ws Hlw Hw Hvs) as [H1 H2].
  pose proof (qsum_pos ws Hwne Hw) as HS.
  eexists. split; [reflexivity|]. split.
  - apply Qle_shift_div_l; assumption.
  - apply Qle_shift_div_r; assumption.
Qed.


End Weights.

Section ForecastFacts.
Context `{SortValues}.
Variable strptime : Z -> exn + Z.
Import DataProcessor.

Lemma positive_num_Some x a : positive_num x = Some a <-> x = Some a /\ 0 < a.
Proof.
  unfold positive_num. destruct x as [q|]; [|split; [discriminate|intros [[=] _]]].
  destruct (Qlt_bool 0 q) eqn:E.
  - apply Qlt_bool_iff in E. split; [intros [= <-]; auto|intros [[= <-] _]; auto].
  - apply Qlt_bool_false_iff in E. split; [discriminate|].
    intros [[= <-] Hpos]. lra.
Qed.

(** a returned result on a history that is not empty *)
Lemma prepare_returns info h r r0 rest :
  prepare_forecast_data strptime info h = inr r ->
  history_rows h = r0 :: rest ->
  let sorted := sort_values month_le (r0 :: rest) in
  let weights := normalized (linspace_1_3 (length sorted)) in
  exists sd pe b months a,
    start_date info = Some sd /\ planned_end_date info = Some pe /\
    info_budget info = Some b /\
    np_average (map h_spi sorted) weights = Some a /\ 0 < a /\
    r = mkForecastData months (map h_spi sorted) (map h_cpi sorted)
          (map (fun i => (List.last months 0 + 30 * Z.of_nat i)%Z) (seq 1 3))
          (map (regressed (Some a)) (seq 0 3))
          (map (regressed (np_average (map h_cpi sorted) weights)) (seq 0 3))
          (Some a) (np_average (map h_cpi sorted) weights)
          (py_int (inject_Z (date_of pe - date_of sd) / a
                   - inject_Z (date_of pe - date_of sd)))
          (date_of sd + py_int (inject_Z (date_of pe - date_of sd) / a))
          (match positive_num (np_average (map h_cpi sorted) weights) with
           | Some c => Finite (ndiv b (Some c))
           | None => Infinite
           end).
Proof.
  intros Hrun Hrows. cbv zeta. unfold prepare_forecast_data in Hrun.
  destruct (start_date info) as [sd|]; [|discriminate].
  destruct (planned_end_date info) as [pe|]; [|discriminate].
  destruct (info_budget info) as [b|]; [|discriminate].
  cbn [require] in Hrun. rewrite Hrows in Hrun.
  destruct (collect _) as [e|months]; [discriminate|].
  destruct (has_spi h); [|discriminate].
  destruct (has_cpi h); [|discriminate].
  destruct (positive_num (np_average (map h_spi _) _)) as [a|] eqn:Ea;
    [|discriminate].
  apply positive_num_Some in Ea as [Ea Hpos].
  injection Hrun as <-. rewrite Ea.
  exists sd, pe, b, months, a. repeat split; auto.
Qed.

Lemma sorted_rows (P : HistoryRow -> Prop) (rows : list HistoryRow) :
  (forall row, row ∈ rows -> P row) ->
  Forall P (sort_values month_le rows).
Proof.
  intros HP. apply Forall_forall. intros row Hrow. apply HP.
  now rewrite (sort_values_perm _ month_le rows).
Qed.

Lemma sorted_nonempty (r0 : HistoryRow) rest :
  sort_values month_le (r0 :: rest) <> [].
Proof.
  intros E. pose proof (sort_values_perm _ month_le (r0 :: rest)) as Hp.
  rewrite E in Hp. apply Permutation_sym, Permutation_nil in Hp. discriminate.
Qed.

(** X24.  The averages [prepare_forecast_data] forecasts from weigh the
    later months more (weights from 1 up to 3), but they stay inside the
    range of the history: if every SPI (or CPI) of the history lies
    between two bounds, so does [avg_spi] (or [avg_cpi]); for a constant
    history the average is that constant. *)
Theorem forecast_average_in_range info h r lo hi :
  prepare_forecast_data strptime info h = inr r ->
  history_rows h <> [] ->
  ((forall row, row ∈ history_rows h ->
      exists v, h_spi row = Some v /\ lo <= v <= hi) ->
   exists a, avg_spi r = Some a /\ lo <= a <= hi) /\
  ((forall row, row ∈ history_rows h ->
      exists v, h_cpi row = Some v /\ lo <= v <= hi) ->
   exists c, avg_cpi r = Some c /\ lo <= c <= hi).
Proof.
  intros Hrun Hne.
  destruct (history_rows h) as [|r0 rest] eqn:Hrows; [congruence|].
  destruct (prepare_returns info h r r0 rest Hrun Hrows)
    as (sd & pe & b & months & a & _ & _ & _ & Ha & _ & ->).
  cbn [avg_spi avg_cpi].
  set (sorted := sort_values month_le (r0 :: rest)) in *.
  assert (Hsne : sorted <> []) by apply sorted_nonempty.
  split; intros Hrange.
  - rewrite <- Ha. rewrite <- (length_map h_spi sorted).
    apply np_average_between.
    + destruct sorted; [congruence|discriminate].
    + apply Forall_fmap. now apply sorted_rows.
  - rewrite <- (length_map h_cpi sorted).
    apply np_average_between.
    + destruct sorted; [congruence|discriminate].
    + apply Forall_fmap. now apply sorted_rows.
Qed.

Lemma regressed_value a i :
  regressed (Some a) i
  = Some (a * (1 - (2#10) * (qnat i + 1)) + 1 * ((2#10) * (qnat i + 1))).
Proof. reflexivity. Qed.

(** X25.  The three forecast SPI values move from the weighted average
    towards 1 without passing it: they lie between the average and 1, in
    order, the third being 0.4 * avg + 0.6. *)
Theorem forecast_regresses_to_one info h r :
  prepare_forecast_data strptime info h = inr r ->
  history_rows h <> [] ->
  exists a f1 f2 f3,
    avg_spi r = Some a /\ 0 < a /\
    forecast_spi r = [Some f1; Some f2; Some f3] /\
    f3 == (4#10) * a + (6#10) /\
    (a <= 1 -> a <= f1 /\ f1 <= f2 /\ f2 <= f3 /\ f3 <= 1) /\
    (1 <= a -> 1 <= f3 /\ f3 <= f2 /\ f2 <= f1 /\ f1 <= a).
Proof.
  intros Hrun Hne.
  destruct (history_rows h) as [|r0 rest] eqn:Hrows; [congruence|].
  destruct (prepare_returns info h r r0 rest Hrun Hrows)
    as (sd & pe & b & months & a & _ & _ & _ & _ & Hpos & ->).
  cbn [avg_spi forecast_spi seq map]. rewrite !regressed_value.
  eexists a, _, _, _. split; [reflexivity|]. split; [exact Hpos|].
  split; [reflexivity|].
  change (qnat 0) with 0. change (qnat 1) with 1. change (qnat 2) with 2.
  split; [ring|]. split; intros Ha; repeat split; lra.
Qed.



(** X27.  The schedule forecast of [prepare_forecast_data].  Without
    history the plan is returned as it is: variance 0, planned end date,
    the budget as cost.  With history and a planned end not before the
    start, an average SPI of exactly 1 gives variance 0 and the planned
    end date, an average below 1 never an earlier end or a negative
    variance, and an average above 1 never a positive variance. *)
Theorem forecast_schedule_follows_spi info h r :
  prepare_forecast_data strptime info h = inr r ->
  exists sd pe b a,
    start_date info = Some sd /\ planned_end_date info = Some pe /\
    info_budget info = Some b /\ avg_spi r = Some a /\
    (history_rows h = [] ->
     a = 1 /\ schedule_variance_days r = 0%Z /\
     forecast_end_date r = date_of pe /\ forecast_cost r = Finite b) /\
    (a == 1 ->
     schedule_variance_days r = 0%Z /\ forecast_end_date r = date_of pe) /\
    ((date_of sd <= date_of pe)%Z -> a <= 1 ->
     (0 <= schedule_variance_days r)%Z /\ (date_of pe <= forecast_end_date r)%Z) /\
    ((date_of sd <= date_of pe)%Z -> 1 <= a ->
     (schedule_variance_days r <= 0)%Z /\ (forecast_end_date r <= date_of pe)%Z).
Proof.
  intros Hrun.
  destruct (history_rows h) as [|r0 rest] eqn:Hrows.
  { unfold prepare_forecast_data in Hrun.
    destruct (start_date info) as [sd|]; [|discriminate].
    destruct (planned_end_date info) as [pe|]; [|discriminate].
    destruct (info_budget info) as [b|]; [|discriminate].
    cbn [require] in Hrun. rewrite Hrows in Hrun. injection Hrun as <-.
    exists sd, pe, b, 1. cbn. repeat split; auto; lia. }
  destruct (prepare_returns info h r r0 rest Hrun Hrows)
    as (sd & pe & b & months & a & Hs & He & Hb & _ & Hpos & ->).
  exists sd, pe, b, a. split; [exact Hs|]. split; [exact He|].
  split; [exact Hb|]. split; [reflexivity|].
  cbn [schedule_variance_days forecast_end_date].
  set (t := (date_of pe - date_of sd)%Z).
  split; [discriminate|]. split; [|split].
  - intros E1.
    assert (Ed : inject_Z t / a == inject_Z t) by (rewrite E1; field).
    split.
    + apply py_int_whole. rewrite Ed. cbn. ring.
    + rewrite (py_int_whole _ t Ed). unfold t. lia.
  - intros Ht Ha.
    assert (H0 : 0 <= inject_Z t).
    { change 0 with (inject_Z 0). rewrite <- Zle_Qle. unfold t. lia. }
    pose proof (div_by_fraction_grows (inject_Z t) a H0 Hpos Ha) as Hg.
    split.
    + apply py_int_nonneg. set (q := inject_Z t / a) in *. lra.
    + assert (Hfl : (t <= py_int (inject_Z t / a))%Z).
      { rewrite py_int_floor by (set (q := inject_Z t / a) in *; lra).
        rewrite <- (Qfloor_Z t) at 1. now apply Qfloor_resp_le. }
      unfold t in *. lia.
  - intros Ht Ha.
    assert (H0 : 0 <= inject_Z t).
    { change 0 with (inject_Z 0). rewrite <- Zle_Qle. unfold t. lia. }
    pose proof (div_by_surplus_shrinks (inject_Z t) a H0 Ha) as Hg.
    assert (Hq0 : 0 <= inject_Z t / a) by (apply Qle_shift_div_l; lra).
    split.
    + rewrite py_int_nonpos by (set (q := inject_Z t / a) in *; lra).
      assert (0 <= Qfloor (- (inject_Z t / a - inject_Z t)))%Z.
      { change 0%Z with (Qfloor 0). apply Qfloor_resp_le.
        set (q := inject_Z t / a) in *. lra. }
      lia.
    + assert (Hfl : (py_int (inject_Z t / a) <= t)%Z).
      { rewrite py_int_floor by assumption.
        rewrite <- (Qfloor_Z t) at 2. now apply Qfloor_resp_le. }
      unfold t in *. lia.
Qed.

End ForecastFacts.

Lemma forecast_average_in_range_witness :
  exists r,
    DataProcessor.prepare_forecast_data (H := insertion_sort_values) toy_strptime
      sample_info mixed_history = inr r /\
    ((forall row, row ∈ history_rows mixed_history ->
        exists v, h_spi row = Some v /\ (7#10) <= v <= (9#10)) ->
     exists a, DataProcessor.avg_spi r = Some a /\ (7#10) <= a <= (9#10)) /\
    ((forall row, row ∈ history_rows mixed_history ->
        exists v, h_cpi row = Some v /\ (7#10) <= v <= (9#10)) ->
     exists c, DataProcessor.avg_cpi r = Some c /\ (7#10) <= c <= (9#10)).
Proof.
  eexists. split; [reflexivity|].
  apply (forecast_average_in_range (H := insertion_sort_values) toy_strptime
           sample_info mixed_history _ (7#10) (9#10)).
  - reflexivity.
  - discriminate.
Defined.

Lemma forecast_regresses_to_one_witness :
  exists r,
    DataProcessor.prepare_forecast_data (H := insertion_sort_values) toy_strptime
      sample_info mixed_history = inr r /\
    exists a f1 f2 f3,
      DataProcessor.avg_spi r = Some a /\ 0 < a /\
      DataProcessor.forecast_spi r = [Some f1; Some f2; Some f3] /\
      f3 == (4#10) * a + (6#10) /\
      (a <= 1 -> a <= f1 /\ f1 <= f2 /\ f2 <= f3 /\ f3 <= 1) /\
      (1 <= a -> 1 <= f3 /\ f3 <= f2 /\ f2 <= f1 /\ f1 <= a).
Proof.
  eexists. split; [reflexivity|].
  apply (forecast_regresses_to_one (H := insertion_sort_values) toy_strptime
           sample_info mixed_history).
  - reflexivity.
  - discriminate.
Defined.


Lemma forecast_schedule_follows_spi_witness :
  exists r,
    DataProcessor.prepare_forecast_data (H := insertion_sort_values) toy_strptime
      sample_info mixed_history = inr r /\
    exists sd pe b a,
      DataProcessor.start_date sample_info = Some sd /\
      DataProcessor.planned_end_date sample_info = Some pe /\
      DataProcessor.info_budget sample_info = Some b /\
      DataProcessor.avg_spi r = Some a /\
      (history_rows mixed_history = [] ->
       a = 1 /\ DataProcessor.schedule_variance_days r = 0%Z /\
       DataProcessor.forecast_end_date r = DataProcessor.date_of pe /\
       DataProcessor.forecast_cost r = DataProcessor.Finite b) /\
      (a == 1 ->
       DataProcessor.schedule_variance_days r = 0%Z /\
       DataProcessor.forecast_end_date r = DataProcessor.date_of pe) /\
      ((DataProcessor.date_of sd <= DataProcessor.date_of pe)%Z -> a <= 1 ->
       (0 <= DataProcessor.schedule_variance_days r)%Z /\
       (DataProcessor.date_of pe <= DataProcessor.forecast_end_date r)%Z) /\
      ((DataProcessor.date_of sd <= DataProcessor.date_of pe)%Z -> 1 <= a ->
       (DataProcessor.schedule_variance_days r <= 0)%Z /\
       (DataProcessor.forecast_end_date r <= DataProcessor.date_of pe)%Z).
Proof.
  eexists. split; [reflexivity|].
  apply (forecast_schedule_follows_spi (H := insertion_sort_values) toy_strptime
           sample_info mixed_history).
  reflexivity.
Defined.

(** ** [DataProcessor.get_projects_needing_attention]: the thresholds *)

Section AttentionThresholds.
Context `{SortValues}.
Import DataProcessor.

Lemma filter_length_mono {A} (P Q : A -> Prop)
    `{forall x, Decision (P x)} `{forall x, Decision (Q x)} (l : list A) :
  (forall x, P x -> Q x) -> (length (filter P l) <= length (filter Q l))%nat.
Proof.
  intros HPQ. induction l as [|x l IH]; [reflexivity|].
  destruct (decide (P x)) as [HP|HP].
  - rewrite (filter_cons_True P) by assumption.
    rewrite (filter_cons_True Q) by auto. cbn. lia.
  - rewrite (filter_cons_False P) by assumption.
    destruct (decide (Q x)).
    + rewrite (filter_cons_True Q) by assumption. cbn. lia.
    + rewrite (filter_cons_False Q) by assumption. exact IH.
Qed.

(** X28.  Raising a threshold of [get_projects_needing_attention] never
    drops a project: every row returned under thresholds (st, ct) is
    returned, with the same metrics and risk score, under any thresholds
    that are at least as high, and the result never has more rows than
    the project table. *)
Theorem attention_monotone projects history st ct st' ct' :
  st <= st' -> ct <= ct' ->
  (forall row,
      row ∈ get_projects_needing_attention projects history st ct ->
      row ∈ get_projects_needing_attention projects history st' ct') /\
  (length (get_projects_needing_attention projects history st ct)
   <= length (get_projects_needing_attention projects history st' ct'))%nat /\
  (length (get_projects_needing_attention projects history st' ct')
   <= length projects)%nat.
Proof.
  intros Hst Hct. unfold get_projects_needing_attention.
  split; [|split].
  - intros row.
    rewrite <- !(sort_values_perm _ risk_ge), !attention_rows_elem.
    intros (p & Hp & Hrow & Hneed). exists p. split; [exact Hp|].
    split; [exact Hrow|].
    destruct Hneed as [Hn|[Hn|Hn]]; [left; lra|right; left; lra|auto].
  - rewrite <- !(Permutation_length (sort_values_perm _ risk_ge _)).
    unfold attention_rows. rewrite !length_map.
    apply filter_length_mono. intros p Hp.
    apply needs_attention_iff in Hp. apply needs_attention_iff.
    destruct Hp as [Hn|[Hn|Hn]]; [left; lra|right; left; lra|auto].
  - rewrite <- (Permutation_length (sort_values_perm _ risk_ge _)).
    unfold attention_rows. rewrite length_map. apply length_filter.
Qed.

End AttentionThresholds.

Lemma attention_monotone_witness :
  (forall row,
      row ∈ DataProcessor.get_projects_needing_attention
              (H := insertion_sort_values) three_projects three_histories
              (8#10) (8#10) ->
      row ∈ DataProcessor.get_projects_needing_attention
              (H := insertion_sort_values) three_projects three_histories
              (9#10) (9#10)) /\
  (length (DataProcessor.get_projects_needing_attention
             (H := insertion_sort_values) three_projects three_histories
             (8#10) (8#10))
   <= length (DataProcessor.get_projects_needing_attention
                (H := insertion_sort_values) three_projects three_histories
                (9#10) (9#10)))%nat /\
  (length (DataProcessor.get_projects_needing_attention
             (H := insertion_sort_values) three_projects three_histories
             (9#10) (9#10))
   <= length three_projects)%nat.
Proof.
  apply (attention_monotone (H := insertion_sort_values) three_projects
           three_histories (8#10) (8#10) (9#10) (9#10)).
  - vm_compute. discriminate.
  - vm_compute. discriminate.
Defined.

(** ** Filling with the column mean *)

Section MeanFill.
Import Stats StatsFacts.

Lemma present_fillna_some m col :
  present (fillna (Some m) col)
  = map (fun c : num => match c with Some x => x | None => m end) col.
Proof.
  unfold present, fillna. induction col as [|[x|] col IH]; cbn; congruence.
Qed.

Lemma qsum_filled m col :
  qsum (map (fun c : num => match c with Some x => x | None => m end) col)
  == qsum (present col) + (qnat (length col) - qlen (present col)) * m.
Proof.
  induction col as [|[x|] col IH].
  - change (0 == 0 + (0 - 0) * m). ring.
  - change (present (Some x :: col)) with (x :: present col).
    cbn [map qsum length]. rewrite qnat_succ, qlen_cons, IH. ring.
  - change (present (None :: col)) with (present col).
    cbn [map qsum length]. rewrite qnat_succ, IH. ring.
Qed.

(** X29.  [fillna] with the column mean, as all three detectors apply it
    to their metrics, changes no value that was there, leaves no NaN
    behind unless the whole column is NaN (in which case the column stays
    as it is), and keeps the column mean. *)
Theorem mean_fill_keeps_mean (l : list num) :
  let filled := fillna (series_mean l) l in
  fillna_mean_col (NumCol l) = inr (NumCol filled) /\
  length filled = length l /\
  (forall i v, l !! i = Some (Some v) -> filled !! i = Some (Some v)) /\
  (series_mean l = None -> filled = l) /\
  (forall m, series_mean l = Some m ->
     Forall (fun x : num => x <> None) filled /\
     exists m', series_mean filled = Some m' /\ m' == m).
Proof.
  cbv zeta. split; [reflexivity|]. split; [apply length_map|].
  split; [|split].
  - intros i v Hi. unfold fillna. rewrite list_lookup_fmap.
    unfold num in *. rewrite Hi. reflexivity.
  - unfold series_mean. destruct (present l) as [|p ps] eqn:Ep; [|discriminate].
    intros _. unfold fillna.
    assert (Hnone : Forall (fun x : num => x = None) l).
    { clear -Ep. induction l as [|[x|] l IH]; [constructor|discriminate|].
      constructor; [reflexivity|]. apply IH. exact Ep. }
    clear Ep. induction Hnone as [|x l -> _ IH]; [reflexivity|].
    cbn. now rewrite IH.
  - intros m Hm. split.
    + apply Forall_forall. intros x Hx. unfold fillna in Hx.
      apply list_elem_of_fmap in Hx as ([y|] & -> & _);
        [discriminate|rewrite Hm; discriminate].
    + rewrite Hm. unfold series_mean in *. rewrite present_fillna_some.
      destruct (present l) as [|p ps] eqn:Ep; [discriminate|].
      injection Hm as <-.
      destruct l as [|c l']; [discriminate|].
      set (col := c :: l') in *.
      destruct (map _ col) as [|f fs] eqn:Ef; [discriminate|].
      eexists. split; [reflexivity|].
      unfold mean_of. rewrite <- Ef.
      rewrite qsum_filled, Ep.
      assert (Hlen : qlen (map (fun c0 : num => match c0 with
                                                | Some x => x
                                                | None => mean_of (p :: ps)
                                                end) col) = qnat (length col)).
      { unfold qlen, qnat. now rewrite length_map. }
      rewrite Hlen.
      assert (Hp : 0 < qlen (p :: ps)).
      { rewrite qlen_cons. pose proof (qlen_nonneg ps). lra. }
      assert (Hn : 0 < qnat (length col)).
      { unfold col. cbn [length]. unfold qnat.
        change 0 with (inject_Z 0). rewrite <- Zlt_Qlt. lia. }
      unfold mean_of. field. split; lra.
Qed.

End MeanFill.
